(** * Experiment Process Lifecycle Manager (app.py, run_experiment.py)

    A shallow embedding of the store, the stop request, the run worker and the
    result relocation of the dashboard, and the properties of its
    specification checked against it.

    Conventions.
    - Python values stored in experiment records are the JSON-native ones
      ([value]); a record is a dictionary from field names to values, the
      store a dictionary from run identifiers to records.
    - Everything outside the interpreter is part of an explicit [world]:
      the module globals [_experiments_state] and [_experiments_lock], the
      state file, the process table, the results directory, the clock and a
      log of the effects on spawned processes.
    - A call either returns, raises, or blocks for ever on the lock
      ([outcome]).  [threading.Lock] is not reentrant: a thread that holds
      it and acquires it again never proceeds.

    What is idealised.
    - Floats are integers (clock ticks); only times and durations are
      floats in the records, and no property depends on their value.
    - [json.dump] and [json.load] are an interface ([Json]); the text of
      the state file is not modelled.
    - RESULTS_DIR exists (the module creates it when imported) and holds
      regular files and sub-directories of regular files; links and
      deeper nesting are left out.
    - A process that has exited is gone for psutil; zombies are left out.
    - The exceptions modelled are those of the process, pipe, file and
      name operations named in [exn]; a file that vanishes between a
      listing and the [stat] on it is left out. *)

From Stdlib Require Import Ascii.
From stdpp Require Import base gmap strings list fin_maps.

#[local] Set Warnings "-register-all".

(** ** Values, records, the store *)

Inductive value :=
  | VNone
  | VBool (b : bool)
  | VInt (n : Z)
  | VFloat (t : Z)            (* a float; clock readings and durations, in ticks *)
  | VStr (s : string)
  | VList (l : list value)
  | VDict (d : gmap string value).

Abbreviation record := (gmap string value).
Abbreviation store := (gmap string record).

(** [d.get(k) == s] for a string literal [s]. *)
Definition field_is (r : record) (k s : string) : bool :=
  match r !! k with
  | Some (VStr s') => String.eqb s' s
  | _ => false
  end.

(** Truth value of a dictionary: [{}] is false. *)
Definition dict_truthy (r : record) : bool :=
  match map_to_list r with
  | [] => false
  | _ => true
  end.

Definition terminal_statuses : list string :=
  ["stopped"; "completed"; "failed"; "error"].

Definition is_terminal (r : record) : bool :=
  existsb (field_is r "status") terminal_statuses.

(** ** The JSON codec of the state file

    [json.dump] and [json.load] are library code.  The state file holds a
    document of an abstract type; the codec is an interface, and its
    round-trip law a separate class that only the persistence theorem uses. *)

Class Json (doc : Type) := {
  json_dump : store → doc;           (* json.dump(state, f, indent=2, default=str) *)
  json_load : doc → option store     (* json.load(f); None when it raises *)
}.

Class JsonLaws (doc : Type) `{Json doc} :=
  json_load_dump : ∀ s : store, json_load (json_dump s) = Some s.

(** The codec whose documents are the mappings themselves. *)
Inductive plain_doc :=
  | Text (s : store)
  | Garbage.

#[export] Instance plain_json : Json plain_doc := {
  json_dump := Text;
  json_load d := match d with Text s => Some s | Garbage => None end
}.

#[export] Instance plain_json_laws : JsonLaws plain_doc.
Proof. intros s. reflexivity. Qed.

(** ** Operating-system processes *)

Record proc := Proc {
  cmdline : list string;     (* argv *)
  children : list Z;         (* pids of the descendants *)
  alive : bool;
  exit_code : Z;             (* meaningful once [alive] is false *)
  denied : bool;             (* signalling it raises AccessDenied *)
  stubborn : bool            (* it survives SIGTERM *)
}.

Inductive signal := SIGTERM | SIGKILL.

(** Effects on processes, in the order they happen. *)
Inductive effect :=
  | Spawn (pid : Z) (argv : list string)
  | StdinWrite (pid : Z) (text : string)
  | StdinFlush (pid : Z)
  | StdinClose (pid : Z)
  | Signal (pid : Z) (s : signal).

(** ** The results directory

    An entry of RESULTS_DIR is a regular file or a sub-directory with its
    regular files. *)

Inductive entry :=
  | File (data : string)
  | Dir (files : gmap string string).

(** ** The world *)

Inductive write_mode (doc : Type) :=
  | WriteOk
  | OpenFails                      (* open(..., 'w') raises; the file is as it was *)
  | DumpFails (partial : doc).     (* truncated, then the dump raises part-way *)
Arguments WriteOk {doc}.
Arguments OpenFails {doc}.
Arguments DumpFails {doc} partial.

Record world (doc : Type) := World {
  mem : store;                        (* _experiments_state *)
  lock : bool;                        (* _experiments_lock is held *)
  disk : option doc;                  (* EXPERIMENTS_STATE_FILE; None: no such file *)
  readable : bool;                    (* open(..., 'r') succeeds *)
  writing : write_mode doc;           (* what the next write does *)
  now : Z;                            (* time.time() *)
  procs : gmap Z proc;                (* the process table *)
  results : gmap string entry;        (* RESULTS_DIR *)
  effects : list effect
}.
Arguments World {doc}.
Arguments mem {doc}.
Arguments lock {doc}.
Arguments disk {doc}.
Arguments readable {doc}.
Arguments writing {doc}.
Arguments now {doc}.
Arguments procs {doc}.
Arguments results {doc}.
Arguments effects {doc}.

Section Setters.
Context {doc : Type}.
Implicit Types w : world doc.

Definition set_mem (m : store) w : world doc :=
  World m (lock w) (disk w) (readable w) (writing w) (now w) (procs w) (results w) (effects w).
Definition set_lock (b : bool) w : world doc :=
  World (mem w) b (disk w) (readable w) (writing w) (now w) (procs w) (results w) (effects w).
Definition set_disk (d : option doc) w : world doc :=
  World (mem w) (lock w) d (readable w) (writing w) (now w) (procs w) (results w) (effects w).
Definition set_now (t : Z) w : world doc :=
  World (mem w) (lock w) (disk w) (readable w) (writing w) t (procs w) (results w) (effects w).
Definition set_procs (p : gmap Z proc) w : world doc :=
  World (mem w) (lock w) (disk w) (readable w) (writing w) (now w) p (results w) (effects w).
Definition set_results (r : gmap string entry) w : world doc :=
  World (mem w) (lock w) (disk w) (readable w) (writing w) (now w) (procs w) r (effects w).
Definition log_effect (e : effect) w : world doc :=
  World (mem w) (lock w) (disk w) (readable w) (writing w) (now w) (procs w) (results w)
        (effects w ++ [e]).
End Setters.

(** ** Outcomes *)

Inductive exn :=
  | NoSuchProcess
  | AccessDenied
  | OSError
  | JSONDecodeError
  | TypeError
  | ValueError
  | BrokenPipeError
  | FileNotFoundError
  | FileExistsError
  | TimeoutExpired
  | UnboundLocalError (var : string).

(** [str(e)] *)
Definition exn_str (e : exn) : string :=
  match e with
  | NoSuchProcess => "process no longer exists"
  | AccessDenied => "access denied"
  | OSError => "os error"
  | JSONDecodeError => "json decode error"
  | TypeError => "type error"
  | ValueError => "value error"
  | BrokenPipeError => "broken pipe"
  | FileNotFoundError => "no such file or directory"
  | FileExistsError => "file exists"
  | TimeoutExpired => "timed out"
  | UnboundLocalError v =>
      "cannot access local variable '" +:+ v +:+ "' where it is not associated with a value"
  end.

(** The call in which a thread waits for the lock. *)
Inductive call :=
  | CallUpdate (experiment_id : string) (data : record)
  | CallGet (experiment_id : string)
  | CallGetAll
  | CallStop (experiment_id : string).

Inductive outcome (doc A : Type) :=
  | Done (a : A) (w : world doc)
  | Raised (e : exn) (w : world doc)
  | Blocked (c : call) (w : world doc).
Arguments Done {doc A}.
Arguments Raised {doc A}.
Arguments Blocked {doc A}.

Definition M (doc A : Type) : Type := world doc → outcome doc A.

#[export] Instance M_ret {doc} : MRet (M doc) := λ A a w, Done a w.
#[export] Instance M_bind {doc} : MBind (M doc) := λ A B f c w,
  match c w with
  | Done a w' => f a w'
  | Raised e w' => Raised e w'
  | Blocked k w' => Blocked k w'
  end.

Section Store.
Context {doc : Type} `{!Json doc}.

Definition raise {A} (e : exn) : M doc A := λ w, Raised e w.
Definition get_world : M doc (world doc) := λ w, Done w w.
Definition modify (f : world doc → world doc) : M doc unit := λ w, Done () (f w).

(** [try: c except Exception as e: h e] *)
Definition try_except {A} (c : M doc A) (h : exn → M doc A) : M doc A := λ w,
  match c w with
  | Raised e w' => h e w'
  | o => o
  end.

(** [with _experiments_lock: body], entered from call [k]. *)
Definition with_lock {A} (k : call) (body : M doc A) : M doc A := λ w,
  if lock w then Blocked k w
  else match body (set_lock true w) with
       | Done a w' => Done a (set_lock false w')
       | Raised e w' => Raised e (set_lock false w')
       | Blocked k' w' => Blocked k' w'
       end.

(** [with open(EXPERIMENTS_STATE_FILE, 'r') as f: json.load(f)] *)
Definition read_state_file : M doc store := λ w,
  match disk w with
  | None => Raised OSError w
  | Some d =>
      if readable w then
        match json_load d with
        | Some s => Done s w
        | None => Raised JSONDecodeError w
        end
      else Raised OSError w
  end.

Definition load_experiments_state : M doc store :=
  w ← get_world;
  (if bool_decide (is_Some (disk w)) then
     try_except (s ← read_state_file; modify (set_mem s))
                (λ _, modify (set_mem ∅))
   else mret ());;
  w' ← get_world;
  mret (mem w').

(** [with open(EXPERIMENTS_STATE_FILE, 'w') as f: json.dump(state, f, ...)] *)
Definition write_state_file (state : store) : M doc unit := λ w,
  match writing w with
  | WriteOk => Done () (set_disk (Some (json_dump state)) w)
  | OpenFails => Raised OSError w
  | DumpFails partial => Raised OSError (set_disk (Some partial) w)
  end.

Definition save_experiments_state (state : store) : M doc unit :=
  try_except (write_state_file state) (λ _, mret ()).

Definition update_experiment_state (experiment_id : string) (data : record) : M doc unit :=
  with_lock (CallUpdate experiment_id data)
    (modify (λ w, set_mem (<[experiment_id := data]> (mem w)) w);;
     w ← get_world;
     save_experiments_state (mem w)).

Definition get_experiment_state (experiment_id : string) : M doc (option record) :=
  with_lock (CallGet experiment_id)
    (w ← get_world; mret (mem w !! experiment_id)).

Definition get_all_experiments_state : M doc store :=
  with_lock CallGetAll (w ← get_world; mret (mem w)).
(** What the module does when it is imported (lines 158, 303 and 306):
    the mapping is bound to [{}] and the state file is loaded, twice. *)
Definition module_init : M doc store :=
  modify (set_mem ∅);;
  load_experiments_state;;
  load_experiments_state.
End Store.

(** ** Stopping a run: [stop_experiment] *)

(** [needle in hay] on strings *)
Fixpoint contains (needle hay : string) : bool :=
  String.prefix needle hay ||
  match hay with
  | EmptyString => false
  | String _ hay' => contains needle hay'
  end.

(** Truth value of [d.get(k)]. *)
Definition truthy (v : option value) : bool :=
  match v with
  | None | Some VNone => false
  | Some (VBool b) => b
  | Some (VInt n) => negb (n =? 0)%Z
  | Some (VFloat t) => negb (t =? 0)%Z
  | Some (VStr s) => negb (String.eqb s "")
  | Some (VList l) => match l with [] => false | _ => true end
  | Some (VDict d) => dict_truthy d
  end.

(** [cmdline and 'talkingtomachines' in ' '.join(cmdline)] *)
Definition is_engine (p : proc) : bool :=
  match cmdline p with
  | [] => false
  | _ => contains "talkingtomachines" (String.concat " " (cmdline p))
  end.

(** [any(template_path in str(arg) for arg in cmdline)] *)
Definition mentions (template_path : string) (p : proc) : bool :=
  existsb (contains template_path) (cmdline p).

Section Stop.
Context {doc : Type} `{!Json doc}.

(** [try: c except (psutil.NoSuchProcess, psutil.AccessDenied): h] *)
Definition try_except_ps {A} (c : M doc A) (h : exn → M doc A) : M doc A := λ w,
  match c w with
  | Raised NoSuchProcess w' => h NoSuchProcess w'
  | Raised AccessDenied w' => h AccessDenied w'
  | o => o
  end.

(** [psutil.Process(pid)]: a handle on a live process. *)
Definition psutil_Process (pid : value) : M doc Z := λ w,
  let open n :=
    if (n <? 0)%Z then Raised ValueError w
    else match procs w !! n with
         | Some p => if alive p then Done n w else Raised NoSuchProcess w
         | None => Raised NoSuchProcess w
         end in
  match pid with
  | VInt n => open n
  | VBool b => open (Z.b2z b)
  | _ => Raised TypeError w
  end.

Definition is_running (w : world doc) (pid : Z) : bool :=
  match procs w !! pid with
  | Some p => alive p
  | None => false
  end.

(** [main_proc.children(recursive=True)] *)
Definition proc_children (pid : Z) : M doc (list Z) :=
  w ← get_world;
  mret (match procs w !! pid with
        | Some p => filter (λ c, is_running w c = true) (children p)
        | None => []
        end).

(** [psutil.process_iter(['pid', 'name', 'cmdline'])] *)
Definition process_iter (w : world doc) : list (Z * proc) :=
  filter (λ e, alive e.2 = true) (map_to_list (procs w)).

Definition exited (code : Z) (p : proc) : proc :=
  Proc (cmdline p) (children p) false code (denied p) (stubborn p).

(** Delivery of a signal to a process handle. *)
Definition send_signal (s : signal) (pid : Z) : M doc unit := λ w,
  match procs w !! pid with
  | Some p =>
      if negb (alive p) then Raised NoSuchProcess w
      else if denied p then Raised AccessDenied w
      else
        let w' := log_effect (Signal pid s) w in
        match s with
        | SIGTERM =>
            if stubborn p then Done () w'
            else Done () (set_procs (<[pid := exited (-15) p]> (procs w')) w')
        | SIGKILL => Done () (set_procs (<[pid := exited (-9) p]> (procs w')) w')
        end
  | None => Raised NoSuchProcess w
  end.

Definition sleep (seconds : Z) : M doc unit :=
  modify (λ w, set_now (now w + seconds)%Z w).

(** [time.time() - exp_data.get('start_time', time.time())] *)
Definition elapsed_since (exp_data : record) : M doc value :=
  w ← get_world;
  match exp_data !! "start_time" with
  | None => mret (VFloat 0)
  | Some (VFloat t) => mret (VFloat (now w - t))
  | Some (VInt n) => mret (VFloat (now w - n))
  | Some (VBool b) => mret (VFloat (now w - Z.b2z b))
  | Some _ => raise TypeError
  end.

(** The handles found through the recorded pid. *)
Definition find_by_pid (exp_data : record) : M doc (list Z) :=
  if truthy (exp_data !! "process_pid") then
    try_except_ps
      (main_proc ← psutil_Process (default VNone (exp_data !! "process_pid"));
       kids ← proc_children main_proc;
       mret (main_proc :: kids))
      (λ _, mret [])
  else mret [].

(** The first scan of the process table: engine processes whose command
    line mentions the template path of the record. *)
Definition find_by_template (exp_data : record) : M doc (list Z) :=
  w ← get_world;
  match default (VStr "") (exp_data !! "template") with
  | VStr template_path =>
      if String.eqb template_path "" then mret []
      else mret (fst <$> filter (λ e, is_engine e.2 = true ∧ mentions template_path e.2 = true)
                                (process_iter w))
  | _ =>
      (* [template_path in str(arg)] raises TypeError at the first engine
         process, and [except Exception: pass] ends the scan *)
      mret []
  end.

(** The second scan: every engine process. *)
Definition find_any_engine : M doc (list Z) :=
  w ← get_world;
  mret (fst <$> filter (λ e, is_engine e.2 = true) (process_iter w)).

(** The loop sending SIGTERM; [success] and [errors] are its variables. *)
Fixpoint terminate_all (ps : list Z) (success : bool) (errors : list string)
    : M doc (bool * list string) :=
  match ps with
  | [] => mret (success, errors)
  | pid :: ps' =>
      r ← try_except_ps (send_signal SIGTERM pid;; mret None) (λ e, mret (Some (exn_str e)));
      match r with
      | None => terminate_all ps' true errors
      | Some msg => terminate_all ps' success (errors ++ [msg])
      end
  end.

(** The loop sending SIGKILL to what is still running. *)
Fixpoint kill_all (ps : list Z) : M doc unit :=
  match ps with
  | [] => mret ()
  | pid :: ps' =>
      w ← get_world;
      (if is_running w pid
       then try_except_ps (send_signal SIGKILL pid) (λ _, mret ())
       else mret ());;
      kill_all ps'
  end.

Definition stop_experiment (experiment_id : string) : M doc bool :=
  with_lock (CallStop experiment_id)
    (w ← get_world;
     match mem w !! experiment_id with
     | None => mret false
     | Some exp_data =>
         if negb (dict_truthy exp_data) then mret false
         else if negb (field_is exp_data "status" "running") then mret false
         else
           by_pid ← find_by_pid exp_data;
           by_template ← (match by_pid with
                          | [] => find_by_template exp_data
                          | _ => mret by_pid
                          end);
           processes_to_kill ← (match by_template with
                                | [] => find_any_engine
                                | _ => mret by_template
                                end);
           match processes_to_kill with
           | [] =>
               elapsed ← elapsed_since exp_data;
               update_experiment_state experiment_id
                 (<["error" := VStr "No process found to stop"]>
                    (<["elapsed" := elapsed]>
                       (<["status" := VStr "stopped"]> exp_data)));;
               mret false
           | _ =>
               '(success, errors) ← terminate_all processes_to_kill false [];
               (if success : bool
                then sleep 2;; kill_all processes_to_kill
                else mret ());;
               elapsed ← elapsed_since exp_data;
               update_experiment_state experiment_id
                 (<["error" := match errors with
                               | [] => VNone
                               | _ => VStr (String.concat "; " errors)
                               end]>
                    (<["process_pid" := VNone]>
                       (<["elapsed" := elapsed]>
                          (<["status" := VStr "stopped"]> exp_data))));;
               mret success
           end
     end).
End Stop.

(** ** File names: [PurePath.suffix], [PurePath.stem], [Path.glob]

    [suffix] is pathlib's: the part of the name from its last dot, unless
    that dot is the first or the last character.  [Path.glob("*" + ext)]
    lists the entries whose name ends with [ext]; pathlib's glob, unlike
    the shell's, also lists names that start with a dot. *)

Fixpoint rfind_dot (name : string) : option nat :=
  match name with
  | EmptyString => None
  | String c rest =>
      match rfind_dot rest with
      | Some i => Some (S i)
      | None => if Ascii.eqb c "."%char then Some 0 else None
      end
  end.

Definition suffix (name : string) : string :=
  match rfind_dot name with
  | Some i =>
      if (0 <? i) && (i <? String.length name - 1)
      then String.substring i (String.length name - i) name
      else ""
  | None => ""
  end.

Definition ends_with (ext name : string) : bool :=
  (String.length ext <=? String.length name) &&
  String.eqb (String.substring (String.length name - String.length ext)
                               (String.length ext) name) ext.

Fixpoint path_name_from (path acc : string) : string :=
  match path with
  | EmptyString => acc
  | String c rest =>
      if Ascii.eqb c "/"%char then path_name_from rest ""
      else path_name_from rest (acc +:+ String c "")
  end.

(** [Path(p).name], for a path that does not end with a separator *)
Definition path_name (path : string) : string := path_name_from path "".

(** [Path(p).stem] *)
Definition stem (path : string) : string :=
  let name := path_name path in
  String.substring 0 (String.length name - String.length (suffix name)) name.

(** [f.suffix in ['.csv', '.json']] *)
Definition recognized (name : string) : bool :=
  String.eqb (suffix name) ".csv" || String.eqb (suffix name) ".json".

Definition is_file (e : entry) : bool :=
  match e with
  | File _ => true
  | Dir _ => false
  end.

(** The names that [dir.glob("*" + ext)] yields. *)
Definition glob {A} (ext : string) (dir : gmap string A) : list string :=
  filter (λ name, ends_with ext name = true) (fst <$> map_to_list dir).

(** ** Result relocation (app.py, lines 442-447 and 563-588) *)

(** [existing_files_before] *)
Definition snapshot_results (res : gmap string entry) : gset string :=
  dom (filter (λ e, is_file e.2 = true ∧ recognized e.1 = true) res).

(** [shutil.move(RESULTS_DIR / name, RESULTS_DIR / folder / name)]; [None]
    when it raises.  A file of that name already in the folder is replaced. *)
Definition move_into (folder name : string) (fails : bool)
    (res : gmap string entry) : option (gmap string entry) :=
  match res !! name, res !! folder with
  | Some (File data), Some (Dir files) =>
      if fails then None
      else Some (<[folder := Dir (<[name := data]> files)]> (delete name res))
  | _, _ => None
  end.

(** The body of one of the two [for result_file in RESULTS_DIR.glob(...)]
    loops, on the pair of the directory and [files_moved]. *)
Definition relocate_one (before : gset string) (folder : string)
    (fails : string → bool) (st : gmap string entry * list string) (name : string)
    : gmap string entry * list string :=
  match st.1 !! name with
  | Some (File _) =>
      if decide (name ∈ before) then st
      else match move_into folder name (fails name) st.1 with
           | Some res' => (res', st.2 ++ [name])
           | None => st
           end
  | _ => st
  end.

Definition relocate_pass (ext : string) (before : gset string) (folder : string)
    (fails : string → bool) (st : gmap string entry * list string)
    : gmap string entry * list string :=
  foldl (relocate_one before folder fails) st (glob ext st.1).

(** Both loops: the directory afterwards, and [files_moved]. *)
Definition relocate_results (before : gset string) (folder : string)
    (fails : string → bool) (res : gmap string entry)
    : gmap string entry * list string :=
  relocate_pass ".json" before folder fails
    (relocate_pass ".csv" before folder fails (res, [])).

(** [len(get_result_files())]: the matches in the root and in each
    sub-directory. *)
Definition count_in {A} (dir : gmap string A) : nat :=
  length (glob ".json" dir) + length (glob ".csv" dir).

Definition get_result_files_count (res : gmap string entry) : nat :=
  count_in res +
  foldr (λ e n, match e.2 with Dir files => count_in files + n | File _ => n end)
        0 (map_to_list res).

(** [len(experiment_folder.glob("*.csv") + experiment_folder.glob("*.json"))] *)
Definition count_in_folder (folder : string) (res : gmap string entry) : nat :=
  match res !! folder with
  | Some (Dir files) => count_in files
  | _ => 0
  end.

(** ** The run worker: [run_experiment_async]

    The worker is a machine whose steps are the stretches of the function
    between two points where another thread can be observed: a call on the
    store, a poll of the process, the spawn.  What the environment decides
    in a step is its input. *)

(** A dictionary literal. *)
Definition dict (fields : list (string * value)) : record := list_to_map fields.

Record winput := WInput {
  stamp : string;                 (* datetime.now().strftime('%Y%m%d_%H%M%S') *)
  spawn : option Z;               (* the pid Popen obtains; None: it raises *)
  pipe_ok : bool;                 (* the write to stdin succeeds *)
  info : option record;           (* get_process_info(process.pid) *)
  move_fails : string → bool      (* the moves that raise *)
}.

Inductive after := ThenPoll | ThenSleep | ThenDone.

Inductive pc :=
  | PInit                                   (* lines 430-447 *)
  | PSpawn                                  (* lines 450-461 *)
  | PPoll                                   (* line 510 *)
  | PCheck                                  (* lines 512-523 *)
  | PTick                                   (* lines 525-539 *)
  | PFinalize                               (* lines 554-593 *)
  | PUpdate (data : record) (k : after)     (* a call of update_experiment_state *)
  | PDone
  | PCrashed (e : exn).                     (* an exception left the function *)

Record wlocal := WLocal {
  template_path : string;
  mode : string;
  experiment_id : string;
  at_pc : pc;
  start_time : Z;
  experiment_folder : string;
  existing_files_before : gset string;
  process : Z;                              (* process.pid *)
  exp_state : option (option record);       (* None: the name is not bound yet *)
  stdout_lines : list string;
  stderr_lines : list string
}.

Definition goto (p : pc) (l : wlocal) : wlocal :=
  WLocal (template_path l) (mode l) (experiment_id l) p (start_time l)
         (experiment_folder l) (existing_files_before l) (process l) (exp_state l)
         (stdout_lines l) (stderr_lines l).

Definition results_path (folder : string) : string := "experiment_results/" +:+ folder.

(** The record of the [except Exception as e] clause (lines 610-617). *)
Definition error_record (e : exn) (l : wlocal) (t : Z) : record :=
  dict [("status", VStr "error");
        ("error", VStr (exn_str e));
        ("start_time", VFloat (start_time l));
        ("elapsed", VFloat (t - start_time l));
        ("process_pid", VNone);
        ("result_folder", VStr (results_path (experiment_folder l)))].

(** The record of lines 464-476. *)
Definition first_record (l : wlocal) (pid : Z) : record :=
  dict [("status", VStr "running");
        ("start_time", VFloat (start_time l));
        ("elapsed", VInt 0);
        ("process_pid", VInt pid);
        ("template", VStr (template_path l));
        ("result_folder", VStr (results_path (experiment_folder l)));
        ("process_info", VNone);
        ("result_files_count", VInt 0);
        ("stdout", VStr "");
        ("stderr", VStr "");
        ("return_code", VNone)].

(** The record of lines 541-551. *)
Definition tick_record (l : wlocal) (t : Z) (proc_info : option record) (count : nat) : record :=
  dict [("status", VStr "running");
        ("start_time", VFloat (start_time l));
        ("elapsed", VFloat (t - start_time l));
        ("process_pid", VInt (process l));
        ("process_info", match proc_info with
                         | Some d => if dict_truthy d then VDict d else VNone
                         | None => VNone
                         end);
        ("result_files_count", VInt (Z.of_nat count));
        ("stdout", VStr (String.concat "" (stdout_lines l)));
        ("stderr", VStr (String.concat "" (stderr_lines l)));
        ("return_code", VNone)].

(** Line 590, once [exp_state] is bound. *)
Definition final_status (exp_state : option record) (return_code : Z) : string :=
  match exp_state with
  | Some r =>
      if dict_truthy r && field_is r "status" "stopped" then "stopped"
      else if (return_code =? 0)%Z then "completed" else "failed"
  | None => if (return_code =? 0)%Z then "completed" else "failed"
  end.

(** The record of lines 595-607. *)
Definition final_record (l : wlocal) (t : Z) (status : string) (count : nat)
    (files_moved : list string) (return_code : Z) : record :=
  dict [("status", VStr status);
        ("start_time", VFloat (start_time l));
        ("elapsed", VFloat (t - start_time l));
        ("process_info", VNone);
        ("process_pid", VNone);
        ("result_folder", VStr (results_path (experiment_folder l)));
        ("result_files_count", VInt (Z.of_nat count));
        ("files_moved", VList (VStr <$> files_moved));
        ("stdout", VStr (String.concat "" (stdout_lines l)));
        ("stderr", VStr (String.concat "" (stderr_lines l)));
        ("return_code", VInt return_code)].

Definition newline : string := String "010"%char "".

Definition engine_argv (template_path : string) : list string :=
  ["talkingtomachines"; template_path].

Section Worker.
Context {doc : Type} `{!Json doc}.

(** [subprocess.Popen(argv, stdin=PIPE, stdout=PIPE, stderr=PIPE, ...)] *)
Definition Popen (argv : list string) (pid : option Z) : M doc Z := λ w,
  match pid with
  | None => Raised FileNotFoundError w
  | Some p =>
      Done p (log_effect (Spawn p argv)
                (set_procs (<[p := Proc argv [] true 0 false false]> (procs w)) w))
  end.

Definition stdin_write (pid : Z) (text : string) (pipe_ok : bool) : M doc unit :=
  if pipe_ok then modify (log_effect (StdinWrite pid text)) else raise BrokenPipeError.
Definition stdin_flush (pid : Z) : M doc unit := modify (log_effect (StdinFlush pid)).
Definition stdin_close (pid : Z) : M doc unit := modify (log_effect (StdinClose pid)).

(** Lines 450-461 of app.py, and the same lines 164-176 of
    run_experiment.py. *)
Definition start_engine (template_path mode : string) (i : winput) : M doc Z :=
  pid ← Popen (engine_argv template_path) (spawn i);
  stdin_write pid (mode +:+ newline) (pipe_ok i);;
  stdin_flush pid;;
  stdin_close pid;;
  mret pid.

(** [process.poll()] *)
Definition poll (w : world doc) (pid : Z) : option Z :=
  match procs w !! pid with
  | Some p => if alive p then None else Some (exit_code p)
  | None => Some (-1)%Z
  end.

(** [Popen.terminate()] and [Popen.kill()]: nothing is sent to a process
    that has exited. *)
Definition popen_signal (s : signal) (pid : Z) : M doc unit :=
  w ← get_world;
  if is_running w pid then send_signal s pid else mret ().

(** [process.wait(timeout=5)] after a termination request *)
Definition wait_exit (pid : Z) : M doc unit :=
  w ← get_world;
  if is_running w pid then sleep 5;; raise TimeoutExpired else mret ().

(** Lines 515-522. *)
Definition terminate_process (pid : Z) : M doc unit :=
  try_except (popen_signal SIGTERM pid;; wait_exit pid)
             (λ _, try_except (popen_signal SIGKILL pid) (λ _, mret ())).

(** [experiment_folder.mkdir(exist_ok=True)] *)
Definition mkdir_exist_ok (folder : string) : M doc unit := λ w,
  match results w !! folder with
  | None => Done () (set_results (<[folder := Dir ∅]> (results w)) w)
  | Some (Dir _) => Done () w
  | Some (File _) => Raised FileExistsError w
  end.

(** Lines 512-523: the read of the store in the loop, and the way out of
    the loop when the record says stopped. *)
Definition check_stop (experiment_id : string) (pid : Z)
    : M doc (option record * pc) :=
  st ← get_experiment_state experiment_id;
  match st with
  | Some r =>
      if dict_truthy r && field_is r "status" "stopped"
      then terminate_process pid;; mret (st, PFinalize)
      else mret (st, PTick)
  | None => mret (st, PTick)
  end.

(** A call of update_experiment_state by the worker, and the
    [time.sleep(1)] that follows it in the loop. *)
Definition commit (experiment_id : string) (data : record) (k : after) : M doc unit :=
  update_experiment_state experiment_id data;;
  match k with
  | ThenSleep => sleep 1
  | _ => mret ()
  end.

(** What a step leaves: the local state and the world, or nothing when
    the step cannot be taken now (the lock is held by another thread). *)
Definition on_outcome {A} (l : wlocal) (o : outcome doc A)
    (k : A → world doc → wlocal) : option (wlocal * world doc) :=
  match o with
  | Done a w' => Some (k a w', w')
  | Raised e w' => Some (goto (PUpdate (error_record e l (now w')) ThenDone) l, w')
  | Blocked _ _ => None
  end.

(** One step of [run_experiment_async]: from the point [at_pc l] of the
    function to the next one. *)
Definition run_experiment_async_step (i : winput) (l : wlocal) (w : world doc)
    : option (wlocal * world doc) :=
  match at_pc l with
  | PInit =>
      let folder := stem (template_path l) +:+ "_" +:+ stamp i in
      match mkdir_exist_ok folder w with
      | Done _ w' =>
          Some (WLocal (template_path l) (mode l) (experiment_id l) PSpawn (now w)
                       folder (snapshot_results (results w')) (process l) None [] [],
                w')
      | Raised e w' => Some (goto (PCrashed e) l, w')
      | Blocked _ _ => None
      end
  | PSpawn =>
      match spawn i with
      | Some pid => if bool_decide (is_Some (procs w !! pid)) then None
                    else on_outcome l (start_engine (template_path l) (mode l) i w)
                           (λ pid _, WLocal (template_path l) (mode l) (experiment_id l)
                                       (PUpdate (first_record l pid) ThenPoll)
                                       (start_time l) (experiment_folder l)
                                       (existing_files_before l) pid (exp_state l)
                                       (stdout_lines l) (stderr_lines l))
      | None => on_outcome l (start_engine (template_path l) (mode l) i w) (λ _ _, l)
      end
  | PPoll =>
      match poll w (process l) with
      | None => Some (goto PCheck l, w)
      | Some _ => Some (goto PFinalize l, w)
      end
  | PCheck =>
      if lock w then None
      else on_outcome l (check_stop (experiment_id l) (process l) w)
             (λ r _, WLocal (template_path l) (mode l) (experiment_id l) r.2
                       (start_time l) (experiment_folder l) (existing_files_before l)
                       (process l) (Some r.1) (stdout_lines l) (stderr_lines l))
  | PTick =>
      Some (goto (PUpdate (tick_record l (now w) (info i)
                             (get_result_files_count (results w))) ThenSleep) l, w)
  | PFinalize =>
      let return_code := default (-1)%Z (poll w (process l)) in
      let moved := relocate_results (existing_files_before l) (experiment_folder l)
                     (move_fails i) (results w) in
      let w' := set_results moved.1 w in
      match exp_state l with
      | None =>
          Some (goto (PUpdate (error_record (UnboundLocalError "exp_state") l (now w'))
                        ThenDone) l, w')
      | Some st =>
          Some (goto (PUpdate (final_record l (now w') (final_status st return_code)
                                 (count_in_folder (experiment_folder l) moved.1)
                                 moved.2 return_code) ThenDone) l, w')
      end
  | PUpdate data k =>
      if lock w then None
      else on_outcome l (commit (experiment_id l) data k w)
             (λ _ _, goto (match k with ThenDone => PDone | _ => PPoll end) l)
  | PDone => None
  | PCrashed _ => None
  end.
End Worker.

(** ** The command-line runner: [run_experiment_via_cli] (run_experiment.py)

    The messages it prints are left out. *)

Section Cli.
Context {doc : Type} `{!Json doc}.

(** [process.wait(timeout=3600)]; [code] is the exit code with which the
    engine ends within the hour, if it does. *)
Definition process_wait (pid : Z) (code : option Z) : M doc Z :=
  w ← get_world;
  match poll w pid, code with
  | Some rc, _ => mret rc
  | None, Some rc =>
      modify (λ w, set_procs (alter (exited rc) pid (procs w)) w);; mret rc
  | None, None => sleep 3600;; raise TimeoutExpired
  end.

Definition run_experiment_via_cli (excel_file_path mode : string) (i : winput)
    (code : option Z) : M doc bool := λ w,
  match start_engine excel_file_path mode i w with
  | Done pid w1 =>
      match process_wait pid code w1 with
      | Done return_code w2 => Done (return_code =? 0)%Z w2
      | Raised TimeoutExpired w2 =>
          (popen_signal SIGKILL pid;; wait_exit pid;; mret false) w2
      | Raised _ w2 => Done false w2
      | Blocked k w2 => Blocked k w2
      end
  | Raised _ w1 => Done false w1
  | Blocked k w1 => Blocked k w1
  end.
End Cli.

(** ** The worker among the other threads

    A configuration is the local state of the worker of one run and the
    world.  An event is a step of the worker, a stop request of the
    dashboard, or something the environment does.  Calls on the store are
    atomic: each runs under the lock from its first to its last access,
    and a thread enters one only when the lock is free. *)

Record config (doc : Type) := Config {
  worker : wlocal;
  sys : world doc
}.
Arguments Config {doc}.
Arguments worker {doc}.
Arguments sys {doc}.

Inductive event (doc : Type) :=
  | Work (i : winput)                          (* the worker takes its next step *)
  | StopRequest (experiment_id : string)       (* a call of stop_experiment *)
  | EngineExits (code : Z)                     (* the spawned process ends by itself *)
  | EngineWrites (name data : string)          (* it writes a file into RESULTS_DIR *)
  | EngineSays (err : bool) (line : string)    (* a reader thread appends a line *)
  | ClockAdvances (dt : Z)
  | Faults (r : bool) (wm : write_mode doc).   (* reads and writes start or stop failing *)
Arguments Work {doc}.
Arguments StopRequest {doc}.
Arguments EngineExits {doc}.
Arguments EngineWrites {doc}.
Arguments EngineSays {doc}.
Arguments ClockAdvances {doc}.
Arguments Faults {doc}.

Definition world_of {doc A} (o : outcome doc A) : world doc :=
  match o with
  | Done _ w => w
  | Raised _ w => w
  | Blocked _ w => w
  end.

Section System.
Context {doc : Type} `{!Json doc}.

Definition set_faults (r : bool) (wm : write_mode doc) (w : world doc) : world doc :=
  World (mem w) (lock w) (disk w) r wm (now w) (procs w) (results w) (effects w).

Definition step (e : event doc) (c : config doc) : option (config doc) :=
  let l := worker c in
  let w := sys c in
  match e with
  | Work i =>
      match run_experiment_async_step i l w with
      | Some (l', w') => Some (Config l' w')
      | None => None
      end
  | StopRequest id =>
      if lock w then None
      else Some (Config l (world_of (stop_experiment id w)))
  | EngineExits code =>
      match procs w !! process l with
      | Some p =>
          if alive p
          then Some (Config l (set_procs (<[process l := exited code p]> (procs w)) w))
          else None
      | None => None
      end
  | EngineWrites name data =>
      match results w !! name with
      | Some (Dir _) => None
      | _ => Some (Config l (set_results (<[name := File data]> (results w)) w))
      end
  | EngineSays err line =>
      Some (Config (WLocal (template_path l) (mode l) (experiment_id l) (at_pc l)
                      (start_time l) (experiment_folder l) (existing_files_before l)
                      (process l) (exp_state l)
                      (if err then stdout_lines l else stdout_lines l ++ [line])
                      (if err then stderr_lines l ++ [line] else stderr_lines l))
                   w)
  | ClockAdvances dt =>
      if (0 <=? dt)%Z then Some (Config l (set_now (now w + dt)%Z w)) else None
  | Faults r wm => Some (Config l (set_faults r wm w))
  end.

Fixpoint run (es : list (event doc)) (c : config doc) : option (config doc) :=
  match es with
  | [] => Some c
  | e :: es' =>
      match step e c with
      | Some c' => run es' c'
      | None => None
      end
  end.

(** The worker as the dashboard starts it (app.py, lines 884-889). *)
Definition new_worker (template_path mode experiment_id : string) : wlocal :=
  WLocal template_path mode experiment_id PInit 0 "" ∅ 0 None [] [].

(** The status the store holds for a run. *)
Definition stored_status (c : config doc) (experiment_id : string) : option value :=
  match mem (sys c) !! experiment_id with
  | Some r => r !! "status"
  | None => None
  end.

Definition stored_terminal (c : config doc) (experiment_id : string) : bool :=
  match mem (sys c) !! experiment_id with
  | Some r => is_terminal r
  | None => false
  end.
End System.

(** ** What the claims speak of *)

Section Notions.
Context {doc : Type} `{!Json doc}.

(** The pid a record holds names no live process (or the record holds
    none). *)
Definition pid_is_stale (w : world doc) (r : record) : Prop :=
  match r !! "process_pid" with
  | None | Some VNone => True
  | Some (VInt n) => (0 ≤ n)%Z ∧ is_running w n = false
  | Some _ => False
  end.

(** No live process runs the engine on the template of the record. *)
Definition no_engine_on_template (w : world doc) (r : record) : Prop :=
  ∀ pid p template_path,
    procs w !! pid = Some p → alive p = true →
    r !! "template" = Some (VStr template_path) →
    is_engine p = true → mentions template_path p = false.

(** No live process runs the engine at all. *)
Definition no_engine (w : world doc) : Prop :=
  ∀ pid p, procs w !! pid = Some p → alive p = true → is_engine p = false.

(** The call returns False and leaves the record stopped, with the
    message of the soft failure. *)
Definition soft_failure (experiment_id : string) (w : world doc) : Prop :=
  ∃ w' r, stop_experiment experiment_id w = Done false w' ∧
          mem w' !! experiment_id = Some r ∧
          r !! "status" = Some (VStr "stopped") ∧
          r !! "error" = Some (VStr "No process found to stop").

(** The outcome is that of a computation that called
    [update_experiment_state experiment_id data] last: it has stored the
    record, or it waits in that call. *)
Definition issues_update {A} (o : outcome doc A) (experiment_id : string)
    (data : record) : Prop :=
  match o with
  | Done _ w' => mem w' !! experiment_id = Some data
  | Blocked (CallUpdate id' data') _ => id' = experiment_id ∧ data' = data
  | _ => False
  end.
(** A computation that leaves the store and the lock alone, and never
    waits for the lock. *)
Definition quiet {A} (c : M doc A) : Prop :=
  ∀ w, mem (world_of (c w)) = mem w ∧ lock (world_of (c w)) = lock w ∧
       ∀ k w', c w ≠ Blocked k w'.

(** A computation that, run by a thread that holds the lock, leaves the
    store alone and the lock held. *)
Definition keeps_store {A} (c : M doc A) : Prop :=
  ∀ w, lock w = true → mem (world_of (c w)) = mem w ∧ lock (world_of (c w)) = true.

(** The records the worker is about to write while its loop goes on are
    not terminal. *)
Definition pc_sound (l : wlocal) : Prop :=
  match at_pc l with
  | PUpdate data ThenDone => True
  | PUpdate data _ => is_terminal data = false
  | _ => True
  end.
End Notions.

(** What starting the engine does to the new process, in order. *)
Definition start_protocol (pid : Z) (template_path mode : string) : list effect :=
  [Spawn pid ["talkingtomachines"; template_path];
   StdinWrite pid (mode +:+ newline);
   StdinFlush pid;
   StdinClose pid].

Definition is_signal (e : effect) : Prop :=
  match e with
  | Signal _ _ => True
  | _ => False
  end.

(** The state of the relocation loops, seen from the directory [res0] they
    started on, whose folder held [files0]: what has been moved is gone
    from the root and lies in the folder with its data, and everything
    else is where it was. *)
Definition reloc_inv (before : gset string) (folder : string) (fails : string → bool)
    (res0 : gmap string entry) (files0 : gmap string string)
    (st : gmap string entry * list string) : Prop :=
  NoDup st.2 ∧
  (∃ files, st.1 !! folder = Some (Dir files) ∧
     (∀ n, n ∉ st.2 → files !! n = files0 !! n) ∧
     (∀ n, n ∈ st.2 → ∃ data, res0 !! n = Some (File data) ∧ files !! n = Some data)) ∧
  (∀ n, n ∈ st.2 → st.1 !! n = None ∧ (n ∉ before) ∧ fails n = false) ∧
  (∀ n, n ∉ st.2 → n ≠ folder → st.1 !! n = res0 !! n).

(** ** Worlds and runs used as examples *)

Definition rec_running : record :=
  dict [("status", VStr "running"); ("start_time", VFloat 100);
        ("process_pid", VInt 4242);
        ("template", VStr "experiments_templates/t.xlsx")].

Definition rec_stopped : record :=
  dict [("status", VStr "stopped"); ("start_time", VFloat 100);
        ("process_pid", VNone);
        ("template", VStr "experiments_templates/t.xlsx")].

Definition engine_other : proc :=
  Proc ["talkingtomachines"; "experiments_templates/other.xlsx"] [] true 0 false false.

(** A quiet machine: one running record whose process is gone. *)
Definition w_quiet : world plain_doc :=
  World {["t_1" := rec_running]} false None true WriteOk 130 ∅ ∅ [].

(** The same, with the engine of another run alive. *)
Definition w_other_engine : world plain_doc :=
  World {["t_1" := rec_running]} false None true WriteOk 130
        {[7%Z := engine_other]} ∅ [].

(** A record that is already stopped. *)
Definition w_stopped : world plain_doc :=
  World {["t_1" := rec_stopped]} false None true WriteOk 130 ∅ ∅ [].

(** Nothing in memory, no state file, and a disk that refuses writes. *)
Definition w_readonly : world plain_doc :=
  World ∅ false None true OpenFails 130 ∅ ∅ [].

(** A results root with one earlier result, a file named [.json], and the
    folder of the run. *)
Definition res_dotfile : gmap string entry :=
  list_to_map [("old.csv", File "old"); (".json", File "settings"); ("F", Dir ∅)].

(** A results root whose folder of the run already holds a file, from a
    run of the same template started in the same second. *)
Definition res_shared : gmap string entry :=
  list_to_map [("F", Dir {["out.csv" := "earlier"]}); ("G", Dir {["g.csv" := "g"]})].

(** An ordinary results root: an earlier result, notes, and the folders
    of this run and of another. *)
Definition res_plain : gmap string entry :=
  list_to_map [("old.csv", File "old"); ("notes.txt", File "n"); ("F", Dir ∅);
               ("G", Dir {["g.csv" := "g"]})].

Definition new_results : gmap string string :=
  list_to_map [("out.csv", "1,2"); ("out.json", "{}")].

(** What the engine adds to the root. *)
Definition add_results (new : gmap string string) (res : gmap string entry)
    : gmap string entry :=
  (File <$> new) ∪ res.

(** The inputs of a quiet environment: the engine gets pid 500, its pipe
    works, the process cannot be sampled, every move succeeds. *)
Definition i_ok : winput := WInput "20240101_120000" (Some 500%Z) true None (λ _, false).

Definition w_empty : world plain_doc := World ∅ false None true WriteOk 1000 ∅ ∅ [].

Definition l_spawn : wlocal :=
  WLocal "experiments_templates/t.xlsx" "test" "t.xlsx_20240101_120000" PSpawn 1000
         "t_20240101_120000" ∅ 0 None [] [].

(** The worker of a run of [t.xlsx] in test mode, on an empty machine. *)
Definition c_start : config plain_doc :=
  Config (new_worker "experiments_templates/t.xlsx" "test" "t.xlsx_20240101_120000")
         w_empty.

(** The start of the run: the folder, the spawn, the first record. *)
Definition run_start : list (event plain_doc) := [Work i_ok; Work i_ok; Work i_ok].

(** One turn of the loop: the poll, the look at the store, the refreshed
    record and its write. *)
Definition run_turn : list (event plain_doc) :=
  [Work i_ok; Work i_ok; Work i_ok; Work i_ok].

(** The end of the run: the poll that sees the exit, the relocation and
    the last write. *)
Definition run_end : list (event plain_doc) := [Work i_ok; Work i_ok; Work i_ok].

(** The engine writes a result and exits with code 0 after one turn of
    the loop. *)
Definition run_normal : list (event plain_doc) :=
  run_start ++ run_turn ++ [EngineWrites "out.csv" "1,2"; EngineExits 0] ++ run_end.

(** The engine writes a result and exits with code 0 before the worker
    polls it for the first time. *)
Definition run_fast_exit : list (event plain_doc) :=
  run_start ++ [EngineWrites "out.csv" "1,2"; EngineExits 0] ++ run_end.

(** The dashboard asks to stop the run after one turn of the loop; the
    worker then polls and finalizes. *)
Definition run_stop_request : list (event plain_doc) :=
  run_start ++ run_turn ++ [StopRequest "t.xlsx_20240101_120000"; Work i_ok; Work i_ok].

Definition at_end (es : list (event plain_doc)) : config plain_doc :=
  default c_start (run es c_start).

(** ** The run button of the dashboard (app.py, lines 880-896)

    The handler names the run, starts the worker thread, and then writes a
    first record for the run. *)

(** The record of lines 891-896. *)
Definition starting_record (selected_template_path : string) (t : Z) : record :=
  dict [("status", VStr "starting");
        ("start_time", VFloat t);
        ("elapsed", VInt 0);
        ("template", VStr selected_template_path)].

(** Line 881: the identifier of the run. *)
Definition new_experiment_id (selected_template_name stamp : string) : string :=
  selected_template_name +:+ "_" +:+ stamp.

Section RunButton.
Context {doc : Type} `{!Json doc}.

(** Lines 884-889: the thread is started on a world that nothing else has
    touched yet. *)
Definition start_thread (selected_template_path mode experiment_id : string)
    (w : world doc) : config doc :=
  Config (new_worker selected_template_path mode experiment_id) w.

(** Lines 891-896, which the handler reaches once the thread has been
    started: the clock is read, then the record is stored. *)
Definition run_button_update (selected_template_path experiment_id : string) : M doc unit :=
  w ← get_world;
  update_experiment_state experiment_id (starting_record selected_template_path (now w)).
End RunButton.

(** ** The command line of run_experiment.py: [run_experiment], [main]

    What the functions print is left out, and with it [check_api_keys],
    whose result is only printed.  [sys.exit(n)] is the return of [n]; an
    exception that leaves [main] is a traceback. *)

(** [list.remove(x)]: the list without the first [x]; [None] when it
    raises ValueError. *)
Fixpoint list_remove (x : string) (l : list string) : option (list string) :=
  match l with
  | [] => None
  | y :: l' => if String.eqb y x then Some l' else cons y <$> list_remove x l'
  end.

(** [str.lower()], on ASCII letters; other characters are left as they
    are. *)
Definition lower_ascii (c : ascii) : ascii :=
  let n := nat_of_ascii c in
  if (65 <=? n) && (n <=? 90) then ascii_of_nat (n + 32) else c.

Fixpoint lower (s : string) : string :=
  match s with
  | EmptyString => EmptyString
  | String c s' => String (lower_ascii c) (lower s')
  end.

(** [x in l] for a list of strings. *)
Definition mem_str (x : string) (l : list string) : bool := existsb (String.eqb x) l.

(** Lines 381-385 of [main]: the mode handed on. *)
Definition cli_mode (argv : list string) : string :=
  let mode :=
    match argv !! 2 with
    | Some a => if negb (mem_str a ["--verbose"; "-v"]) then lower a else "test"
    | None => "test"
    end in
  if negb (mem_str mode ["test"; "full"]) then "test" else mode.

Section Main.
Context {doc : Type} `{!Json doc}.

(** [run_experiment]; [file_exists] is [os.path.exists(excel_file_path)].
    With or without the Python package the work is done by
    [run_experiment_via_cli], which is called again when the call made on
    behalf of the package raises. *)
Definition run_experiment (excel_file_path mode : string) (HAS_PACKAGE file_exists : bool)
    (i : winput) (code : option Z) : M doc bool :=
  if negb file_exists then mret false
  else if HAS_PACKAGE then
    try_except (run_experiment_via_cli excel_file_path mode i code)
               (λ _, run_experiment_via_cli excel_file_path mode i code)
  else run_experiment_via_cli excel_file_path mode i code.

(** [main], on [sys.argv]; the result is the exit status. *)
Definition main (argv : list string) (HAS_PACKAGE file_exists : bool)
    (i : winput) (code : option Z) : M doc Z :=
  let verbose := mem_str "--verbose" argv || mem_str "-v" argv in
  argv ← (if verbose then
            match list_remove "--verbose" argv with
            | None => raise ValueError
            | Some argv' =>
                mret (if mem_str "-v" argv'
                      then default argv' (list_remove "-v" argv')
                      else argv')
            end
          else mret argv);
  if length argv <? 2 then mret 1%Z
  else
    success ← run_experiment (default "" (argv !! 1)) (cli_mode argv)
                HAS_PACKAGE file_exists i code;
    mret (if success : bool then 0%Z else 1%Z).
End Main.

(** ** Further notions *)

Section MoreNotions.
Context {doc : Type} `{!Json doc}.

(** A computation that, run by a thread that holds the lock, never
    returns: it raises, or it waits for the lock. *)
Definition never_returns {A} (c : M doc A) : Prop :=
  ∀ w, lock w = true → ∀ a w', c w ≠ Done a w'.

(** The process can be signalled. *)
Definition signalable (w : world doc) (pid : Z) : Prop :=
  ∀ p, procs w !! pid = Some p → denied p = false.

(** From [w] to [w'] nothing happened to a process but signals to
    processes of [ps]: the log grew by such signals, every other process
    is as it was, no process came back to life or left the table or
    changed its permissions, and the results directory was not touched. *)
Definition signals_only (ps : list Z) (w w' : world doc) : Prop :=
  (∃ sigs, effects w' = effects w ++ sigs ∧
           Forall (λ e, ∃ p s, e = Signal p s ∧ p ∈ ps) sigs) ∧
  (∀ q, q ∉ ps → procs w' !! q = procs w !! q) ∧
  (∀ q, is_running w q = false → is_running w' q = false) ∧
  (∀ q, signalable w q → signalable w' q) ∧
  results w' = results w.

(** The store holds no record of the run that says running, or that is
    terminal. *)
Definition not_started (c : config doc) : Prop :=
  ∀ r, mem (sys c) !! experiment_id (worker c) = Some r →
       field_is r "status" "running" = false ∧ is_terminal r = false.

(** What the worker is about to write agrees with what it has spawned:
    a record it writes while its loop goes on says running and carries
    the pid of its process, the last record is terminal and carries no
    pid, and before the spawn the store holds no record of the run that
    says running or is terminal. *)
Definition pid_sound (c : config doc) : Prop :=
  match at_pc (worker c) with
  | PUpdate data ThenDone =>
      is_terminal data = true ∧ field_is data "status" "running" = false ∧
      data !! "process_pid" = Some VNone
  | PUpdate data _ =>
      field_is data "status" "running" = true ∧ is_terminal data = false ∧
      data !! "process_pid" = Some (VInt (process (worker c)))
  | PInit | PSpawn => not_started c
  | _ => True
  end.

(** The record of the run in the store agrees with the worker. *)
Definition pid_recorded (c : config doc) : Prop :=
  ∀ r, mem (sys c) !! experiment_id (worker c) = Some r →
       (field_is r "status" "running" = true →
        r !! "process_pid" = Some (VInt (process (worker c)))) ∧
       (is_terminal r = true → r !! "process_pid" = Some VNone).
End MoreNotions.

(** ** More examples *)

(** The engine cannot be started. *)
Definition i_no_engine : winput := WInput "20240101_120000" None true None (λ _, false).

(** The engine starts and closes its standard input at once. *)
Definition i_broken_pipe : winput :=
  WInput "20240101_120000" (Some 500%Z) false None (λ _, false).

(** The worker fails to start the engine before the handler of the run
    button goes on. *)
Definition run_no_engine : list (event plain_doc) :=
  [Work i_no_engine; Work i_no_engine; Work i_no_engine].

(** A running record as the loop of the worker refreshes it. *)
Definition l_loop : wlocal :=
  WLocal "experiments_templates/t.xlsx" "test" "t.xlsx_20240101_120000" PCheck 1000
         "t_20240101_120000" ∅ 4242 None [] [].

Definition engine_mine : proc :=
  Proc ["talkingtomachines"; "experiments_templates/t.xlsx"] [4243%Z] true 0 false false.

Definition engine_child : proc :=
  Proc ["python"; "-c"; "worker"] [] true 0 false true.

(** A machine on which the engine of the run and a child of it are
    alive, beside the engine of another run. *)
Definition w_family : world plain_doc :=
  World {["t_1" := rec_running]} false None true WriteOk 130
        (list_to_map [(4242%Z, engine_mine); (4243%Z, engine_child); (7%Z, engine_other)])
        ∅ [].

(** A machine that was restarted: the record of the run is the one its
    worker refreshed last, the engine of that run is gone, and the engine
    of another run is alive. *)
Definition w_restarted : world plain_doc :=
  World {["t.xlsx_20240101_120000" := tick_record l_loop 1010 None 0]} false None true
        WriteOk 2000 {[7%Z := engine_other]} ∅ [].

(** A results root in which the name of the folder of the run is taken
    by a regular file. *)
Definition w_taken : world plain_doc :=
  World ∅ false None true WriteOk 1000 ∅ {["t_20240101_120000" := File "x"]} [].

(** A record that says stopped while the engine of the run is alive. *)
Definition w_stop_seen : world plain_doc :=
  World {["t.xlsx_20240101_120000" := rec_stopped]} false None true WriteOk 1010
        {[4242%Z := engine_mine]} ∅ [].

(** A worker whose engine has exited with code 3, about to poll. *)
Definition l_poll : wlocal :=
  WLocal "experiments_templates/t.xlsx" "test" "t.xlsx_20240101_120000" PPoll 1000
         "t_20240101_120000" ∅ 4242 (Some None) [] [].

Definition w_exited : world plain_doc :=
  World ∅ false None true WriteOk 1010 {[4242%Z := exited 3 engine_mine]}
        {["t_20240101_120000" := Dir ∅]} [].

(** A machine with the record of a stopped run in memory and in the state
    file, whose disk fills up while the state is dumped. *)
Definition w_disk_full : world plain_doc :=
  World (mem w_stopped) false (Some (Text (mem w_stopped))) true (DumpFails Garbage)
        130 ∅ ∅ [].

(** The worker of a run whose folder name is taken, and what the
    dashboard and the clock do next. *)
Definition c_taken : config plain_doc :=
  Config (new_worker "experiments_templates/t.xlsx" "test" "t.xlsx_20240101_120000")
         w_taken.

Definition run_taken : list (event plain_doc) :=
  [Work i_ok; StopRequest "t.xlsx_20240101_120000"; ClockAdvances 1].

(** The command line [run_experiment.py t.xlsx FULL]. *)
Definition argv_full : list string := ["run_experiment.py"; "t.xlsx"; "FULL"].

(** The command line [run_experiment.py t.xlsx -v]. *)
Definition argv_short_flag : list string := ["run_experiment.py"; "t.xlsx"; "-v"].

(** * Properties *)

Ltac unfold_m :=
  unfold mbind, M_bind, mret, M_ret, get_world, modify, raise, try_except in *.

(** ** The store *)

Section StoreFacts.
Context {doc : Type} `{!Json doc}.
Implicit Types w : world doc.

Lemma set_lock_release w : lock w = false → set_lock false (set_lock true w) = w.
Proof. destruct w; simpl; intros ->; reflexivity. Qed.

Lemma dict_truthy_lookup (r : record) k v : r !! k = Some v → dict_truthy r = true.
Proof.
  intros Hk. unfold dict_truthy.
  destruct (map_to_list r) as [|x l] eqn:E; [|reflexivity].
  apply map_to_list_empty_iff in E. subst r. rewrite lookup_empty in Hk. discriminate.
Qed.

Lemma field_is_truthy (r : record) k s : field_is r k s = true → dict_truthy r = true.
Proof.
  unfold field_is. destruct (r !! k) as [v|] eqn:E; [|discriminate].
  intros _. eapply dict_truthy_lookup; eassumption.
Qed.

Lemma field_is_lookup (r : record) k s :
  field_is r k s = true ↔ r !! k = Some (VStr s).
Proof.
  unfold field_is. split.
  - destruct (r !! k) as [[]|]; try discriminate.
    intros E. apply String.eqb_eq in E. subst. reflexivity.
  - intros ->. apply String.eqb_refl.
Qed.

(** A call of update_experiment_state by a thread that holds the lock
    never proceeds. *)
Lemma update_experiment_state_held w experiment_id data :
  lock w = true →
  update_experiment_state experiment_id data w = Blocked (CallUpdate experiment_id data) w.
Proof. intros Hl. unfold update_experiment_state, with_lock. rewrite Hl. reflexivity. Qed.

Lemma save_experiments_state_done w state :
  ∃ w', save_experiments_state state w = Done () w' ∧
        mem w' = mem w ∧ lock w' = lock w ∧ procs w' = procs w ∧
        results w' = results w ∧ effects w' = effects w ∧ now w' = now w ∧
        (writing w = WriteOk → disk w' = Some (json_dump state)).
Proof.
  unfold save_experiments_state, write_state_file. unfold_m.
  destruct (writing w) eqn:E; eexists; (split; [reflexivity|]); simpl;
    repeat split; try reflexivity; intros; congruence.
Qed.

Lemma update_experiment_state_free w experiment_id data :
  lock w = false →
  ∃ w', update_experiment_state experiment_id data w = Done () w' ∧
        mem w' = <[experiment_id := data]> (mem w) ∧ lock w' = false ∧
        procs w' = procs w ∧ results w' = results w ∧ effects w' = effects w ∧
        now w' = now w.
Proof.
  intros Hl. unfold update_experiment_state, with_lock. rewrite Hl. unfold_m.
  destruct (save_experiments_state_done
              (set_mem (<[experiment_id:=data]> (mem (set_lock true w))) (set_lock true w))
              (mem (set_mem (<[experiment_id:=data]> (mem (set_lock true w))) (set_lock true w))))
    as (w' & -> & Hm & Hk & Hp & Hr & He & Hn & _).
  eexists. split; [reflexivity|]. simpl in *.
  rewrite Hm, Hp, Hr, He, Hn. repeat split; reflexivity.
Qed.

Lemma get_experiment_state_free w experiment_id :
  lock w = false →
  get_experiment_state experiment_id w = Done (mem w !! experiment_id) w.
Proof.
  intros Hl. unfold get_experiment_state, with_lock. rewrite Hl. unfold_m. simpl.
  rewrite set_lock_release by assumption. reflexivity.
Qed.
End StoreFacts.

(** ** Persistence: [load_experiments_state], [save_experiments_state] *)

Section Persistence.
Context {doc : Type} `{!Json doc}.
Implicit Types w : world doc.

Lemma load_experiments_state_missing w :
  disk w = None → load_experiments_state w = Done (mem w) w.
Proof.
  intros Hd. unfold load_experiments_state. unfold_m. rewrite Hd.
  rewrite bool_decide_eq_false_2 by (intros [? ?]; discriminate). reflexivity.
Qed.

Lemma load_experiments_state_present w d :
  disk w = Some d →
  load_experiments_state w =
    let s := if readable w then default ∅ (json_load d) else ∅ in
    Done s (set_mem s w).
Proof.
  intros Hd. unfold load_experiments_state, read_state_file. unfold_m. rewrite Hd.
  rewrite bool_decide_eq_true_2 by (eexists; reflexivity).
  destruct (readable w); [destruct (json_load d) eqn:Hj|];
    simpl; rewrite ?Hd, ?Hj; reflexivity.
Qed.

(** C8. Saving a mapping and loading it again, in a new process whatever
    its memory holds, gives the mapping back: every run identifier has the
    record that was written. *)
Theorem save_load_roundtrip `{!JsonLaws doc} w (state : store) :
  writing w = WriteOk →
  readable w = true →
  ∃ w1, save_experiments_state state w = Done () w1 ∧
        ∀ m : store, ∃ w2,
          load_experiments_state (set_mem m w1) = Done state w2 ∧
          mem w2 = state ∧
          ∀ experiment_id, mem w2 !! experiment_id = state !! experiment_id.
Proof.
  intros Hw Hr.
  unfold save_experiments_state, write_state_file. unfold_m. rewrite Hw.
  eexists. split; [reflexivity|]. intros m.
  rewrite (load_experiments_state_present _ (json_dump state)) by reflexivity.
  simpl. rewrite Hr, json_load_dump. simpl.
  eexists. split; [reflexivity|]. split; reflexivity.
Qed.

(** C9, as the code has it. Neither function raises. Loading returns the
    mapping in memory untouched when there is no state file, the empty
    mapping when the file cannot be read or parsed, and the parsed mapping
    otherwise; saving leaves the mapping in memory as it is, whether the
    write succeeds or not. *)
Theorem store_io_absorbs_failures w (state : store) :
  (∃ w', load_experiments_state w = Done (mem w') w' ∧
         (disk w = None → w' = w) ∧
         (∀ d, disk w = Some d → readable w = false ∨ json_load d = None →
               mem w' = ∅) ∧
         (∀ d s, disk w = Some d → readable w = true → json_load d = Some s →
                 mem w' = s)) ∧
  (∃ w', save_experiments_state state w = Done () w' ∧ mem w' = mem w).
Proof.
  split.
  - destruct (disk w) as [d|] eqn:Hd.
    + rewrite (load_experiments_state_present w d Hd). simpl.
      exists (set_mem (if readable w then default ∅ (json_load d) else ∅) w).
      split; [reflexivity|]. simpl. split; [discriminate|]. split.
      * intros d' [= <-] [-> | ->]; [reflexivity|].
        destruct (readable w); reflexivity.
      * intros d' s [= <-] -> ->. reflexivity.
    + rewrite (load_experiments_state_missing w Hd).
      exists w. split; [reflexivity|]. split; [reflexivity|].
      split; intros; discriminate.
  - destruct (save_experiments_state_done w state) as (w' & E & Hm & _).
    exists w'. split; assumption.
Qed.
(** At import the store starts from the state file, or empty when the
    file is missing, unreadable or corrupt. *)
Lemma module_init_starts_empty w :
  disk w = None ∨ readable w = false ∨ (∃ d, disk w = Some d ∧ json_load d = None) →
  module_init w = Done ∅ (set_mem ∅ w).
Proof.
  intros Hbad. unfold module_init. unfold mbind, M_bind, modify. simpl.
  destruct (disk w) as [d|] eqn:Hd.
  - rewrite (load_experiments_state_present (set_mem ∅ w) d) by exact Hd. simpl.
    assert (Hs : (if readable w then default ∅ (json_load d) else ∅) = (∅ : store)).
    { destruct Hbad as [?|[->|(d' & [= <-] & ->)]]; [discriminate|reflexivity|].
      destruct (readable w); reflexivity. }
    rewrite Hs.
    rewrite (load_experiments_state_present (set_mem ∅ (set_mem ∅ w)) d) by exact Hd.
    simpl. rewrite Hs. reflexivity.
  - rewrite (load_experiments_state_missing (set_mem ∅ w)) by exact Hd.
    rewrite (load_experiments_state_missing (set_mem ∅ w)) by exact Hd. reflexivity.
Qed.
End Persistence.

(** C8: the round trip at work, with a stopped run on record. *)
Lemma save_load_roundtrip_witness :
  writing w_quiet = WriteOk ∧ readable w_quiet = true ∧
  ∃ w1, save_experiments_state (mem w_stopped) w_quiet = Done () w1 ∧
        ∀ m : store, ∃ w2,
          load_experiments_state (set_mem m w1) = Done (mem w_stopped) w2 ∧
          mem w2 = mem w_stopped ∧
          ∀ experiment_id, mem w2 !! experiment_id = mem w_stopped !! experiment_id.
Proof.
  split; [reflexivity|]. split; [reflexivity|].
  apply (save_load_roundtrip (JsonLaws0 := plain_json_laws) w_quiet (mem w_stopped));
    reflexivity.
Defined.

(** C9, as stated, fails: a process that has updated a record while the
    disk refused the write holds that record in memory, there is no state
    file, and loading yields a mapping that is not empty. *)
Lemma load_missing_not_empty :
  let w := world_of (update_experiment_state "t_1" rec_running w_readonly) in
  disk w = None ∧
  load_experiments_state w = Done (mem w) w ∧
  mem w !! "t_1" = Some rec_running ∧
  mem w ≠ ∅.
Proof.
  cbv zeta.
  assert (Hr : mem (world_of (update_experiment_state "t_1" rec_running w_readonly))
               !! "t_1" = Some rec_running) by (vm_compute; reflexivity).
  split; [vm_compute; reflexivity|]. split; [vm_compute; reflexivity|].
  split; [exact Hr|].
  intros E. rewrite E, lookup_empty in Hr. inversion Hr.
Qed.

(** C9 on a machine with no state file and a disk that refuses writes. *)
Lemma store_io_absorbs_failures_witness :
  (∃ w', load_experiments_state w_readonly = Done (mem w') w' ∧
         (disk w_readonly = None → w' = w_readonly) ∧
         (∀ d, disk w_readonly = Some d →
               readable w_readonly = false ∨ json_load d = None → mem w' = ∅) ∧
         (∀ d s, disk w_readonly = Some d → readable w_readonly = true →
                 json_load d = Some s → mem w' = s)) ∧
  (∃ w', save_experiments_state (mem w_quiet) w_readonly = Done () w' ∧
         mem w' = mem w_readonly).
Proof. exact (store_io_absorbs_failures w_readonly (mem w_quiet)). Defined.

(** ** Stop requests: [stop_experiment] *)

Section StopFacts.
Context {doc : Type} `{!Json doc}.
Implicit Types w : world doc.

Lemma filter_none {A} (P : A → Prop) `{!∀ x, Decision (P x)} (l : list A) :
  (∀ x, x ∈ l → ¬ P x) → filter P l = [].
Proof.
  induction l as [|x l IH]; intros Hall; [reflexivity|].
  rewrite filter_cons_False by (apply Hall; left).
  apply IH. intros y Hy. apply Hall. right. exact Hy.
Qed.

Lemma process_iter_spec w pid p :
  (pid, p) ∈ process_iter w ↔ procs w !! pid = Some p ∧ alive p = true.
Proof.
  unfold process_iter. rewrite list_elem_of_filter, elem_of_map_to_list. simpl. tauto.
Qed.

Lemma find_by_pid_stale w (r : record) :
  pid_is_stale w r → find_by_pid r w = Done [] w.
Proof.
  unfold pid_is_stale, find_by_pid, psutil_Process, try_except_ps, is_running.
  destruct (r !! "process_pid") as [[| | n | | | |]|]; simpl; try tauto;
    try (intros _; reflexivity).
  intros [Hn Hdead].
  destruct (n =? 0)%Z; simpl; [reflexivity|]. unfold_m.
  rewrite (proj2 (Z.ltb_ge n 0) Hn).
  destruct (procs w !! n) as [p|]; [|reflexivity].
  rewrite Hdead. reflexivity.
Qed.

Lemma find_any_engine_none w : no_engine w → find_any_engine w = Done [] w.
Proof.
  intros Hno. unfold find_any_engine. unfold_m.
  rewrite filter_none; [reflexivity|].
  intros [pid p] Hin. apply process_iter_spec in Hin as [Hp Ha]. simpl.
  rewrite (Hno pid p Hp Ha). discriminate.
Qed.

Lemma find_by_template_none w (r : record) :
  no_engine w → find_by_template r w = Done [] w.
Proof.
  intros Hno. unfold find_by_template. unfold_m.
  destruct (default (VStr "") (r !! "template")); try reflexivity.
  destruct (String.eqb s ""); [reflexivity|].
  rewrite filter_none; [reflexivity|].
  intros [pid p] Hin. apply process_iter_spec in Hin as [Hp Ha]. simpl.
  rewrite (Hno pid p Hp Ha). intros [? _]. discriminate.
Qed.

(** C7. A stop request for a record that is not running returns False,
    raises nothing and changes nothing: not the store, not the state file,
    not a process. *)
Theorem stop_experiment_not_running w (experiment_id : string) (r : record) :
  lock w = false →
  mem w !! experiment_id = Some r →
  field_is r "status" "running" = false →
  stop_experiment experiment_id w = Done false w.
Proof.
  intros Hl Hm Hs. unfold stop_experiment, with_lock. rewrite Hl. unfold_m. simpl.
  rewrite Hm. destruct (dict_truthy r); simpl; rewrite ?Hs; simpl;
    rewrite set_lock_release by assumption; reflexivity.
Qed.

(** What the code does when it finds no process to stop: the thread,
    which holds the lock, calls update_experiment_state, which waits for
    that lock. Nothing is stored, and the lock stays held. *)
Lemma stop_experiment_no_process w (experiment_id : string) (r : record) (t : Z) :
  lock w = false →
  mem w !! experiment_id = Some r →
  field_is r "status" "running" = true →
  r !! "start_time" = Some (VFloat t) →
  pid_is_stale w r →
  no_engine w →
  stop_experiment experiment_id w =
    Blocked (CallUpdate experiment_id
               (<["error" := VStr "No process found to stop"]>
                  (<["elapsed" := VFloat (now w - t)]>
                     (<["status" := VStr "stopped"]> r))))
            (set_lock true w).
Proof.
  intros Hl Hm Hs Ht Hpid Hno. unfold stop_experiment, with_lock. rewrite Hl.
  unfold_m. simpl. rewrite Hm, (field_is_truthy _ _ _ Hs), Hs. simpl.
  rewrite (find_by_pid_stale (set_lock true w) r) by exact Hpid.
  rewrite (find_by_template_none (set_lock true w) r) by exact Hno.
  rewrite (find_any_engine_none (set_lock true w)) by exact Hno.
  unfold elapsed_since. unfold_m. rewrite Ht.
  rewrite update_experiment_state_held by reflexivity. reflexivity.
Qed.

End StopFacts.

(** C7 on a record that is already stopped. *)
Lemma stop_experiment_not_running_witness :
  lock w_stopped = false ∧
  mem w_stopped !! "t_1" = Some rec_stopped ∧
  field_is rec_stopped "status" "running" = false ∧
  stop_experiment "t_1" w_stopped = Done false w_stopped.
Proof.
  repeat (split; [reflexivity|]).
  apply (stop_experiment_not_running w_stopped "t_1" rec_stopped); reflexivity.
Defined.

Lemma no_engine_quiet : no_engine w_quiet.
Proof. intros pid p Hp. simpl in Hp. rewrite lookup_empty in Hp. discriminate. Qed.

(** C1 fails on a quiet machine. The record says running, the process
    it names is gone and no engine is alive, on its template or on any
    other. The code finds no process, prepares the record that says
    stopped with the error "No process found to stop", and calls
    update_experiment_state while it holds the lock that the call waits
    for. The call never returns: False is not returned, and the store
    says running as before. *)
Lemma stop_unlocatable_never_recorded :
  mem w_quiet !! "t_1" = Some rec_running ∧
  field_is rec_running "status" "running" = true ∧
  pid_is_stale w_quiet rec_running ∧
  no_engine_on_template w_quiet rec_running ∧
  stop_experiment "t_1" w_quiet =
    Blocked (CallUpdate "t_1"
               (<["error" := VStr "No process found to stop"]>
                  (<["elapsed" := VFloat 30]>
                     (<["status" := VStr "stopped"]> rec_running))))
            (set_lock true w_quiet) ∧
  (∀ b w', stop_experiment "t_1" w_quiet ≠ Done b w') ∧
  mem (world_of (stop_experiment "t_1" w_quiet)) !! "t_1" = Some rec_running ∧
  ¬ soft_failure "t_1" w_quiet.
Proof.
  assert (E : stop_experiment "t_1" w_quiet =
    Blocked (CallUpdate "t_1"
               (<["error" := VStr "No process found to stop"]>
                  (<["elapsed" := VFloat 30]>
                     (<["status" := VStr "stopped"]> rec_running))))
            (set_lock true w_quiet)).
  { apply (stop_experiment_no_process w_quiet "t_1" rec_running 100);
      [reflexivity | reflexivity | reflexivity | reflexivity
      | simpl; split; [lia | reflexivity] | exact no_engine_quiet]. }
  split; [reflexivity|]. split; [reflexivity|].
  split; [simpl; split; [lia | reflexivity]|].
  split.
  { intros pid p tpl Hp Ha _ He. rewrite (no_engine_quiet pid p Hp Ha) in He.
    discriminate. }
  split; [exact E|].
  split; [intros b w' E'; rewrite E in E'; discriminate|].
  split; [rewrite E; reflexivity|].
  intros (w' & r & E' & _). rewrite E in E'. discriminate.
Qed.

(** The second pass of the scan at work. The pid of the record is gone
    and no process runs the engine on its template, but the engine of
    another run is alive: the stop request sends SIGTERM to that process
    and goes on to record the run as stopped with no error; it is no soft
    failure. *)
Lemma stop_experiment_kills_other_engine :
  field_is rec_running "status" "running" = true ∧
  pid_is_stale w_other_engine rec_running ∧
  no_engine_on_template w_other_engine rec_running ∧
  effects (world_of (stop_experiment "t_1" w_other_engine)) = [Signal 7 SIGTERM] ∧
  (alive <$> procs (world_of (stop_experiment "t_1" w_other_engine)) !! 7%Z) = Some false ∧
  issues_update (stop_experiment "t_1" w_other_engine) "t_1"
    (<["error" := VNone]>
       (<["process_pid" := VNone]>
          (<["elapsed" := VFloat 32]> (<["status" := VStr "stopped"]> rec_running)))) ∧
  ¬ soft_failure "t_1" w_other_engine.
Proof.
  split; [reflexivity|].
  split; [simpl; split; [lia | reflexivity]|].
  split.
  { intros pid p tpl Hp Ha Ht He.
    assert (tpl = "experiments_templates/t.xlsx") as -> by (vm_compute in Ht; congruence).
    destruct (decide (pid = 7%Z)) as [->|Hne].
    - vm_compute in Hp. injection Hp as <-. reflexivity.
    - simpl in Hp. rewrite lookup_singleton_ne in Hp by congruence. discriminate. }
  split; [reflexivity|].
  split; [reflexivity|].
  split; [vm_compute; split; reflexivity|].
  intros (w' & r & E & _). vm_compute in E. discriminate.
Qed.

(** ** Result relocation *)

Section RelocationFacts.
Variables (before : gset string) (folder : string) (fails : string → bool).
Implicit Types st : gmap string entry * list string.
Implicit Types res : gmap string entry.

Abbreviation one := (relocate_one before folder fails).

(** A step of the loops leaves every sub-directory but the folder alone. *)
Lemma relocate_one_dir st name d files :
  d ≠ folder → st.1 !! d = Some (Dir files) → (one st name).1 !! d = Some (Dir files).
Proof.
  intros Hd Hdir. unfold relocate_one, move_into.
  destruct (st.1 !! name) as [[data|fs]|] eqn:En; try exact Hdir.
  destruct (decide (name ∈ before)); [exact Hdir|].
  destruct (st.1 !! folder) as [[?|fs]|]; try exact Hdir.
  destruct (fails name); [exact Hdir|]. simpl.
  assert (d ≠ name) by (intros ->; congruence).
  rewrite lookup_insert_ne, lookup_delete_ne by congruence. exact Hdir.
Qed.

Lemma relocate_fold_dir ns st d files :
  d ≠ folder → st.1 !! d = Some (Dir files) →
  (foldl one st ns).1 !! d = Some (Dir files).
Proof.
  revert st. induction ns as [|n ns IH]; intros st Hd Hdir; [exact Hdir|].
  simpl. apply IH; [exact Hd|]. apply relocate_one_dir; assumption.
Qed.

(** Without a directory to move into, a step does nothing. *)
Lemma relocate_one_no_folder st name :
  (∀ files, st.1 !! folder ≠ Some (Dir files)) → one st name = st.
Proof.
  intros Hno. unfold relocate_one, move_into.
  destruct (st.1 !! name) as [[data|fs]|]; try reflexivity.
  destruct (decide (name ∈ before)); [reflexivity|].
  destruct (st.1 !! folder) as [[?|fs]|] eqn:E; try reflexivity.
  exfalso. exact (Hno fs eq_refl).
Qed.

Lemma relocate_fold_no_folder ns st :
  (∀ files, st.1 !! folder ≠ Some (Dir files)) → foldl one st ns = st.
Proof.
  intros Hno. induction ns as [|n ns IH]; [reflexivity|].
  simpl. rewrite relocate_one_no_folder by exact Hno. exact IH.
Qed.

Section Invariant.
Variables (res0 : gmap string entry) (files0 : gmap string string).
Hypothesis folder_is_dir : res0 !! folder = Some (Dir files0).

Abbreviation inv := (reloc_inv before folder fails res0 files0).

Lemma reloc_inv_init : inv (res0, []).
Proof.
  split; [constructor|]. split.
  - exists files0. split; [exact folder_is_dir|]. split; [reflexivity|].
    intros n Hn. inversion Hn.
  - split; intros n Hn; [inversion Hn | reflexivity].
Qed.

Lemma reloc_inv_one st name : inv st → inv (one st name).
Proof.
  intros (Hnd & (files & Hf & Hkeep & Hnew) & Hgone & Hrest).
  unfold relocate_one, move_into.
  destruct (st.1 !! name) as [[data|fs]|] eqn:En;
    try (split; [exact Hnd|]; split; [exists files; auto|]; split; assumption).
  destruct (decide (name ∈ before)) as [Hb|Hb];
    [split; [exact Hnd|]; split; [exists files; auto|]; split; assumption|].
  rewrite Hf.
  destruct (fails name) eqn:Efail;
    [split; [exact Hnd|]; split; [exists files; auto|]; split; assumption|].
  assert (Hfresh : name ∉ st.2).
  { intros Hin. destruct (Hgone name Hin) as [E _]. congruence. }
  assert (Hnf : name ≠ folder) by (intros ->; congruence).
  assert (Hroot : res0 !! name = Some (File data)).
  { rewrite <- (Hrest name Hfresh Hnf). exact En. }
  unfold reloc_inv. simpl. split; [|split; [|split]].
  - apply NoDup_app. split; [exact Hnd|]. split; [|apply NoDup_singleton].
    intros x Hx Hx'. apply list_elem_of_singleton in Hx'. subst x. auto.
  - exists (<[name := data]> files). split; [apply lookup_insert_eq|]. split.
    + intros n Hn. rewrite elem_of_app, list_elem_of_singleton in Hn.
      rewrite lookup_insert_ne by (intros ->; tauto). apply Hkeep. tauto.
    + intros n Hn. rewrite elem_of_app, list_elem_of_singleton in Hn.
      destruct (decide (n = name)) as [->|Hne].
      * exists data. split; [exact Hroot | apply lookup_insert_eq].
      * destruct Hn as [Hn|Hn]; [|contradiction].
        destruct (Hnew n Hn) as (d & H1 & H2). exists d.
        split; [exact H1|]. rewrite lookup_insert_ne by congruence. exact H2.
  - intros n Hn. rewrite elem_of_app, list_elem_of_singleton in Hn.
    destruct (decide (n = name)) as [->|Hne].
    + split; [|split; assumption].
      rewrite lookup_insert_ne by congruence. apply lookup_delete_eq.
    + destruct Hn as [Hn|Hn]; [|contradiction].
      destruct (Hgone n Hn) as (H1 & H2 & H3). split; [|split; assumption].
      assert (n ≠ folder) by (intros ->; congruence).
      rewrite lookup_insert_ne, lookup_delete_ne by congruence. exact H1.
  - intros n Hn Hnfolder. rewrite elem_of_app, list_elem_of_singleton in Hn.
    assert (n ≠ name) by tauto.
    rewrite lookup_insert_ne, lookup_delete_ne by congruence.
    apply Hrest; tauto.
Qed.

Lemma reloc_inv_fold ns st : inv st → inv (foldl one st ns).
Proof.
  revert st. induction ns as [|n ns IH]; intros st Hinv; [exact Hinv|].
  simpl. apply IH, reloc_inv_one, Hinv.
Qed.

Lemma relocate_one_grows st name n : n ∈ st.2 → n ∈ (one st name).2.
Proof.
  intros Hn. unfold relocate_one.
  destruct (st.1 !! name) as [[data|fs]|]; try exact Hn.
  destruct (decide (name ∈ before)); [exact Hn|].
  destruct (move_into folder name (fails name) st.1); [|exact Hn].
  simpl. apply elem_of_app. left. exact Hn.
Qed.

Lemma relocate_fold_grows ns st n : n ∈ st.2 → n ∈ (foldl one st ns).2.
Proof.
  revert st. induction ns as [|m ns IH]; intros st Hn; [exact Hn|].
  simpl. apply IH, relocate_one_grows, Hn.
Qed.

(** Every listed name that was a regular file of the root, was not there
    before the run and whose move does not fail, is moved. *)
Lemma relocate_fold_moves ns st n data :
  inv st → n ∈ ns → res0 !! n = Some (File data) → n ∉ before → fails n = false →
  n ∈ (foldl one st ns).2.
Proof.
  revert st. induction ns as [|m ns IH]; intros st Hinv Hin Hroot Hb Hok;
    [inversion Hin|].
  simpl. apply elem_of_cons in Hin as [->|Hin].
  - apply relocate_fold_grows.
    destruct (decide (m ∈ st.2)) as [Hm|Hm]; [apply relocate_one_grows, Hm|].
    destruct Hinv as (_ & (files & Hf & _) & _ & Hrest).
    assert (Hmf : m ≠ folder) by (intros ->; congruence).
    unfold relocate_one, move_into.
    rewrite (Hrest m Hm Hmf), Hroot, Hf, Hok.
    destruct (decide (m ∈ before)); [contradiction|].
    simpl. apply elem_of_app. right. apply list_elem_of_singleton. reflexivity.
  - apply IH; try assumption. apply reloc_inv_one, Hinv.
Qed.

Lemma relocate_results_inv : inv (relocate_results before folder fails res0).
Proof.
  unfold relocate_results, relocate_pass. apply reloc_inv_fold, reloc_inv_fold.
  apply reloc_inv_init.
Qed.
End Invariant.
End RelocationFacts.

(** ** File names *)

Lemma substring_length (s : string) (n m : nat) :
  n + m ≤ String.length s → String.length (String.substring n m s) = m.
Proof.
  revert n m. induction s as [|c s IH]; intros n m Hle; simpl in *.
  - assert (n = 0) as -> by lia. assert (m = 0) as -> by lia. reflexivity.
  - destruct n as [|n].
    + destruct m as [|m]; [reflexivity|]. simpl. rewrite IH by lia. reflexivity.
    + apply IH. lia.
Qed.

(** A name with suffix [ext] is listed by [glob("*" + ext)]. *)
Lemma suffix_ends_with (ext name : string) :
  ext ≠ "" → suffix name = ext → ends_with ext name = true.
Proof.
  intros Hne. unfold suffix, ends_with.
  destruct (rfind_dot name) as [i|]; [|intros <-; contradiction].
  destruct ((0 <? i) && (i <? String.length name - 1)) eqn:E;
    [|intros <-; contradiction].
  apply andb_true_iff in E as [_ Hi]. apply Nat.ltb_lt in Hi.
  intros Hs.
  assert (Hlen : String.length ext = String.length name - i).
  { rewrite <- Hs. apply substring_length. lia. }
  rewrite Hlen.
  replace (String.length name - (String.length name - i)) with i by lia.
  rewrite Hs, String.eqb_refl, andb_true_r. apply Nat.leb_le. lia.
Qed.

Lemma recognized_ends_with (name : string) :
  recognized name = true →
  ends_with ".csv" name = true ∨ ends_with ".json" name = true.
Proof.
  unfold recognized. intros H. apply orb_true_iff in H as [H|H];
    apply String.eqb_eq in H; [left|right]; apply suffix_ends_with; done.
Qed.

Lemma elem_of_glob {A} (ext name : string) (dir : gmap string A) :
  name ∈ glob ext dir ↔ ends_with ext name = true ∧ is_Some (dir !! name).
Proof.
  unfold glob. rewrite list_elem_of_filter, list_elem_of_fmap. split.
  - intros [He ([n x] & -> & Hin)]. apply elem_of_map_to_list in Hin.
    split; [exact He|]. exists x. exact Hin.
  - intros [He [x Hx]]. split; [exact He|]. exists (name, x).
    split; [reflexivity|]. apply elem_of_map_to_list. exact Hx.
Qed.

Lemma elem_of_snapshot_results (res : gmap string entry) (name : string) :
  name ∈ snapshot_results res ↔
  ∃ data, res !! name = Some (File data) ∧ recognized name = true.
Proof.
  unfold snapshot_results. rewrite elem_of_dom. split.
  - intros [e He]. apply map_lookup_filter_Some in He as [He [Hf Hr]]. simpl in *.
    destruct e as [data|]; [|discriminate]. exists data. split; assumption.
  - intros (data & He & Hr). exists (File data).
    apply map_lookup_filter_Some. split; [exact He|]. split; [reflexivity | exact Hr].
Qed.

(** ** Result relocation: what moves and what stays *)

Lemma relocate_fold_from before folder fails ns st n :
  n ∈ (foldl (relocate_one before folder fails) st ns).2 → n ∈ st.2 ∨ n ∈ ns.
Proof.
  revert st. induction ns as [|m ns IH]; intros st Hn; [left; exact Hn|].
  simpl in Hn. apply IH in Hn as [Hn|Hn]; [|right; right; exact Hn].
  unfold relocate_one in Hn.
  destruct (st.1 !! m) as [[data|fs]|]; try (left; exact Hn).
  destruct (decide (m ∈ before)); [left; exact Hn|].
  destruct (move_into folder m (fails m) st.1); [|left; exact Hn].
  simpl in Hn. apply elem_of_app in Hn as [Hn|Hn]; [left; exact Hn|].
  apply list_elem_of_singleton in Hn. subst. right. left.
Qed.

(** C10, as the code has it. Relocation moves only regular files that
    lie directly in the results root; it leaves every sub-directory other
    than the folder of the run as it is, in the folder of the run it
    leaves every file whose name is not that of a moved file, and in the
    root it leaves every entry that it does not move. *)
Theorem relocation_frame (before : gset string) (folder : string)
    (fails : string → bool) (res : gmap string entry) :
  let out := relocate_results before folder fails res in
  (∀ n, n ∈ out.2 → ∃ data, res !! n = Some (File data) ∧ out.1 !! n = None) ∧
  (∀ d files, d ≠ folder → res !! d = Some (Dir files) →
              out.1 !! d = Some (Dir files)) ∧
  (∀ files, res !! folder = Some (Dir files) →
            ∃ files', out.1 !! folder = Some (Dir files') ∧
                      ∀ n, n ∉ out.2 → files' !! n = files !! n) ∧
  (∀ n, n ∉ out.2 → n ≠ folder → out.1 !! n = res !! n).
Proof.
  cbv zeta.
  destruct (res !! folder) as [[data|files0]|] eqn:Ef.
  2:{ destruct (relocate_results_inv before folder fails res files0 Ef)
        as (_ & (files & Hf & Hkeep & Hnew) & Hgone & Hrest).
      split; [|split; [|split]].
      - intros n Hn. destruct (Hnew n Hn) as (data & Hr & _).
        exists data. split; [exact Hr | apply (Hgone n Hn)].
      - intros d fs Hd Hdir. unfold relocate_results, relocate_pass.
        apply relocate_fold_dir; [exact Hd|]. apply relocate_fold_dir; assumption.
      - intros fs [= <-]. exists files. split; assumption.
      - exact Hrest. }
  all: unfold relocate_results, relocate_pass;
    rewrite (relocate_fold_no_folder before folder fails _ (res, []))
      by (simpl; intros ?; congruence);
    rewrite (relocate_fold_no_folder before folder fails _ (res, []))
      by (simpl; intros ?; congruence);
    simpl; (split; [intros n Hn; inversion Hn|]);
    (split; [intros; assumption|]); (split; [intros; discriminate|]); reflexivity.
Qed.

Lemma lookup_add_results (new : gmap string string) (res : gmap string entry) n :
  add_results new res !! n =
    match new !! n with
    | Some data => Some (File data)
    | None => res !! n
    end.
Proof.
  unfold add_results. rewrite lookup_union, lookup_fmap.
  destruct (new !! n); simpl; [|apply (left_id None _)].
  destruct (res !! n); reflexivity.
Qed.

(** The partition that the relocation is meant to compute. When no
    regular file of the root is listed by the two globs without having one
    of the two suffixes, and every move succeeds, the files moved are
    exactly the new ones, each lies in the folder with its data, and the
    earlier results are where they were. *)
Lemma relocation_partition (res0 : gmap string entry) (new : gmap string string)
    (folder : string) (files0 : gmap string string) :
  res0 !! folder = Some (Dir files0) →
  (∀ n data, new !! n = Some data → res0 !! n = None ∧ recognized n = true) →
  (∀ n data, res0 !! n = Some (File data) →
             ends_with ".csv" n = true ∨ ends_with ".json" n = true →
             recognized n = true) →
  let out := relocate_results (snapshot_results res0) folder (λ _, false)
               (add_results new res0) in
  out.2 ≡ₚ (map_to_list new).*1 ∧
  (∀ n data, new !! n = Some data →
             out.1 !! n = None ∧
             ∃ files, out.1 !! folder = Some (Dir files) ∧ files !! n = Some data) ∧
  (∀ n, n ∈ snapshot_results res0 → out.1 !! n = res0 !! n).
Proof.
  intros Hfolder Hnew Hplain. cbv zeta.
  set (before := snapshot_results res0).
  set (res1 := add_results new res0).
  assert (Hfolder1 : res1 !! folder = Some (Dir files0)).
  { unfold res1. rewrite lookup_add_results.
    destruct (new !! folder) as [d|] eqn:E; [|exact Hfolder].
    destruct (Hnew _ _ E) as [E' _]. congruence. }
  pose proof (reloc_inv_init before folder (λ _, false) res1 files0 Hfolder1) as Hinv0.
  set (st1 := relocate_pass ".csv" before folder (λ _, false) (res1, [])).
  assert (Hinv1 : reloc_inv before folder (λ _, false) res1 files0 st1)
    by (apply reloc_inv_fold; exact Hinv0).
  assert (Hinv2 : reloc_inv before folder (λ _, false) res1 files0
                    (relocate_results before folder (λ _, false) res1))
    by (apply relocate_results_inv; exact Hfolder1).
  assert (Hnew_moved : ∀ n data, new !! n = Some data →
            n ∈ (relocate_results before folder (λ _, false) res1).2).
  { intros n data Hn. destruct (Hnew _ _ Hn) as [Hfresh Hrec].
    assert (Hr1 : res1 !! n = Some (File data))
      by (unfold res1; rewrite lookup_add_results, Hn; reflexivity).
    assert (Hnb : n ∉ before).
    { intros Hin. apply elem_of_snapshot_results in Hin as (d & Hd & _). congruence. }
    unfold relocate_results. fold st1.
    destruct (decide (n ∈ st1.2)) as [Hin|Hnin];
      [unfold relocate_pass; apply relocate_fold_grows; exact Hin|].
    destruct (recognized_ends_with n Hrec) as [Hcsv|Hjson].
    - exfalso. apply Hnin. unfold st1, relocate_pass.
      eapply (relocate_fold_moves _ _ _ res1 files0); eauto.
      apply elem_of_glob. simpl. split; [exact Hcsv|]. rewrite Hr1. eexists; reflexivity.
    - unfold relocate_pass.
      eapply (relocate_fold_moves _ _ _ res1 files0); eauto.
      apply elem_of_glob. split; [exact Hjson|].
      destruct Hinv1 as (_ & (fl & Hfl & _) & _ & Hrest).
      assert (n ≠ folder) by (intros ->; congruence).
      rewrite (Hrest n Hnin) by assumption. rewrite Hr1. eexists; reflexivity. }
  assert (Hmoved_new : ∀ n, n ∈ (relocate_results before folder (λ _, false) res1).2 →
            is_Some (new !! n)).
  { intros n Hn.
    destruct Hinv2 as (_ & (fl & _ & _ & Hsrc) & Hgone & _).
    destruct (Hsrc n Hn) as (data & Hr1 & _). destruct (Hgone n Hn) as (_ & Hnb & _).
    unfold res1 in Hr1. rewrite lookup_add_results in Hr1.
    destruct (new !! n) as [d|] eqn:E; [eexists; reflexivity|].
    exfalso. apply Hnb. apply elem_of_snapshot_results. exists data.
    split; [exact Hr1|]. apply (Hplain n data Hr1).
    unfold relocate_results, relocate_pass in Hn.
    apply relocate_fold_from in Hn as [Hn|Hn].
    - apply relocate_fold_from in Hn as [Hn|Hn]; [inversion Hn|].
      apply elem_of_glob in Hn as [He _]. left. exact He.
    - apply elem_of_glob in Hn as [He _]. right. exact He. }
  split; [|split].
  - apply NoDup_Permutation.
    + apply Hinv2.
    + apply NoDup_fst_map_to_list.
    + intros n. split.
      * intros Hn. destruct (Hmoved_new n Hn) as [d Hd].
        apply list_elem_of_fmap. exists (n, d). split; [reflexivity|].
        apply elem_of_map_to_list. exact Hd.
      * intros Hn. apply list_elem_of_fmap in Hn as ([m d] & -> & Hin).
        apply elem_of_map_to_list in Hin. eapply Hnew_moved; exact Hin.
  - intros n data Hn. pose proof (Hnew_moved n data Hn) as Hin.
    destruct Hinv2 as (_ & (fl & Hfl & _ & Hsrc) & Hgone & _).
    split; [apply (Hgone n Hin)|].
    exists fl. split; [exact Hfl|].
    destruct (Hsrc n Hin) as (d & Hr1 & Hd).
    unfold res1 in Hr1. rewrite lookup_add_results, Hn in Hr1. congruence.
  - intros n Hn.
    destruct Hinv2 as (_ & (fl & Hfl & _) & Hgone & Hrest).
    assert (Hnm : n ∉ (relocate_results before folder (λ _, false) res1).2).
    { intros Hin. destruct (Hgone n Hin) as (_ & Hnb & _). contradiction. }
    apply elem_of_snapshot_results in Hn as (d & Hd & _).
    assert (n ≠ folder) by (intros ->; congruence).
    rewrite (Hrest n Hnm) by assumption.
    unfold res1. rewrite lookup_add_results.
    destruct (new !! n) as [d'|] eqn:E; [|reflexivity].
    destruct (Hnew _ _ E) as [E' _]. congruence.
Qed.

(** C4 fails on a results root that holds a file named [.json]: pathlib
    gives that name no suffix, so it is not among the files recorded
    before the run, and [glob("*.json")] lists it, so it is moved. With
    one earlier result and two new files, three files are moved, and a
    file that was there before the run has left the root. *)
Lemma relocation_moves_dotfile :
  let before := snapshot_results res_dotfile in
  let out := relocate_results before "F" (λ _, false)
               (add_results new_results res_dotfile) in
  elements before = ["old.csv"] ∧
  res_dotfile !! ".json" = Some (File "settings") ∧
  (map_to_list new_results).*1 ≡ₚ ["out.csv"; "out.json"] ∧
  out.2 = ["out.csv"; "out.json"; ".json"] ∧
  out.1 !! ".json" = None ∧
  out.1 !! "F" = Some (Dir (list_to_map [("out.csv", "1,2"); ("out.json", "{}");
                                         (".json", "settings")])).
Proof.
  cbv zeta. split; [reflexivity|]. split; [reflexivity|].
  split; [vm_compute; reflexivity|]. split; [reflexivity|].
  split; [reflexivity|]. vm_compute. reflexivity.
Qed.

(** C10, as stated, fails in the folder of the run itself: a file that
    lies there under the name of a new result is replaced by it. *)
Lemma relocation_replaces_in_folder :
  let out := relocate_results (snapshot_results res_shared) "F" (λ _, false)
               (add_results new_results res_shared) in
  res_shared !! "F" = Some (Dir {["out.csv" := "earlier"]}) ∧
  ∃ files, out.1 !! "F" = Some (Dir files) ∧ files !! "out.csv" = Some "1,2".
Proof.
  cbv zeta. split; [reflexivity|]. eexists. split; [vm_compute; reflexivity|].
  reflexivity.
Qed.

(** ** Starting the engine *)

Section StartFacts.
Context {doc : Type} `{!Json doc}.
Implicit Types w : world doc.

Lemma start_engine_ok w template_path mode i pid :
  spawn i = Some pid → pipe_ok i = true →
  ∃ w', start_engine template_path mode i w = Done pid w' ∧
        effects w' = effects w ++ start_protocol pid template_path mode ∧
        procs w' = <[pid := Proc (engine_argv template_path) [] true 0 false false]> (procs w) ∧
        mem w' = mem w ∧ lock w' = lock w ∧ now w' = now w.
Proof.
  intros Hs Hp. unfold start_engine, Popen, stdin_write, stdin_flush, stdin_close.
  rewrite Hs, Hp. unfold_m. eexists. split; [reflexivity|]. simpl.
  rewrite <- !app_assoc. repeat split; reflexivity.
Qed.

(** C6. Both runners start the engine in the same way: they spawn
    [talkingtomachines] with the template path as its one argument, write
    the mode and a newline to its standard input, flush, and close it;
    nothing else is written to that process. *)
Theorem engine_start_protocol w (l : wlocal) (i : winput) (pid : Z) (code : option Z) :
  spawn i = Some pid →
  pipe_ok i = true →
  procs w !! pid = None →
  at_pc l = PSpawn →
  (∃ l' w', run_experiment_async_step i l w = Some (l', w') ∧ process l' = pid ∧
            effects w' = effects w ++ start_protocol pid (template_path l) (mode l)) ∧
  (∀ excel_file_path mode', ∃ signals,
      effects (world_of (run_experiment_via_cli excel_file_path mode' i code w)) =
        effects w ++ start_protocol pid excel_file_path mode' ++ signals ∧
      Forall is_signal signals).
Proof.
  intros Hs Hp Hfresh Hpc. split.
  - unfold run_experiment_async_step. rewrite Hpc, Hs.
    rewrite bool_decide_eq_false_2 by (rewrite Hfresh; intros [? ?]; discriminate).
    destruct (start_engine_ok w (template_path l) (mode l) i pid Hs Hp)
      as (w' & -> & He & _).
    simpl. eexists _, w'. split; [reflexivity|]. split; [reflexivity | exact He].
  - intros path m. unfold run_experiment_via_cli.
    destruct (start_engine_ok w path m i pid Hs Hp) as (w' & -> & He & Hprocs & _).
    unfold process_wait, poll. unfold_m. rewrite Hprocs, lookup_insert_eq. simpl.
    destruct code as [rc|]; simpl.
    + exists []. split; [simpl; rewrite He; reflexivity | constructor].
    + unfold popen_signal, wait_exit, is_running, sleep, send_signal. unfold_m. simpl.
      repeat (rewrite ?Hprocs, ?lookup_insert_eq; simpl).
      exists [Signal pid SIGKILL]. rewrite He, <- app_assoc.
      split; [reflexivity|]. repeat constructor.
Qed.
End StartFacts.

(** C6 on an empty machine, for the worker and for the command-line
    runner whose engine exits with code 0. *)
Lemma engine_start_protocol_witness :
  spawn i_ok = Some 500%Z ∧ pipe_ok i_ok = true ∧ procs w_empty !! 500%Z = None ∧
  at_pc l_spawn = PSpawn ∧
  (∃ l' w', run_experiment_async_step i_ok l_spawn w_empty = Some (l', w') ∧ process l' = 500%Z ∧
            effects w' = effects w_empty ++
                         start_protocol 500 (template_path l_spawn) (mode l_spawn)) ∧
  (∀ excel_file_path mode', ∃ signals,
      effects (world_of (run_experiment_via_cli excel_file_path mode' i_ok (Some 0%Z) w_empty)) =
        effects w_empty ++ start_protocol 500 excel_file_path mode' ++ signals ∧
      Forall is_signal signals).
Proof.
  repeat (split; [reflexivity|]).
  apply (engine_start_protocol w_empty l_spawn i_ok 500 (Some 0%Z)); reflexivity.
Defined.

(** ** What touches the store *)

Ltac quiet_now := intros ?w; repeat split; try reflexivity; intros ?k ?w'; discriminate.

Section Frames.
Context {doc : Type} `{!Json doc}.
Implicit Types w : world doc.

Lemma quiet_ret {A} (a : A) : quiet (mret a : M doc A).
Proof. quiet_now. Qed.

Lemma quiet_raise {A} (e : exn) : quiet (raise e : M doc A).
Proof. quiet_now. Qed.

Lemma quiet_get_world : quiet (get_world : M doc (world doc)).
Proof. quiet_now. Qed.

Lemma quiet_bind {A B} (c : M doc A) (f : A → M doc B) :
  quiet c → (∀ a, quiet (f a)) → quiet (c ≫= f).
Proof.
  intros Hc Hf w. unfold mbind, M_bind. specialize (Hc w).
  destruct (c w) as [a w'|e w'|k w']; simpl in *.
  - destruct (Hf a w') as (H1 & H2 & H3). destruct Hc as (H4 & H5 & _).
    repeat split; [congruence | congruence | exact H3].
  - destruct Hc as (H4 & H5 & _). repeat split; try assumption. discriminate.
  - destruct Hc as (_ & _ & H6). exfalso. exact (H6 k w' eq_refl).
Qed.

Lemma quiet_try_except {A} (c : M doc A) (h : exn → M doc A) :
  quiet c → (∀ e, quiet (h e)) → quiet (try_except c h).
Proof.
  intros Hc Hh w. unfold try_except. specialize (Hc w).
  destruct (c w) as [a w'|e w'|k w']; simpl in *.
  - destruct Hc as (H4 & H5 & _). repeat split; try assumption. discriminate.
  - destruct (Hh e w') as (H1 & H2 & H3). destruct Hc as (H4 & H5 & _).
    repeat split; [congruence | congruence | exact H3].
  - destruct Hc as (_ & _ & H6). exfalso. exact (H6 k w' eq_refl).
Qed.

Lemma quiet_try_except_ps {A} (c : M doc A) (h : exn → M doc A) :
  quiet c → (∀ e, quiet (h e)) → quiet (try_except_ps c h).
Proof.
  intros Hc Hh w. unfold try_except_ps. specialize (Hc w).
  destruct (c w) as [a w'|e w'|k w']; simpl in *.
  - destruct Hc as (H4 & H5 & _). repeat split; try assumption. discriminate.
  - destruct Hc as (H4 & H5 & _).
    destruct e; simpl; try (repeat split; try assumption; discriminate);
      match goal with |- context [h ?e w'] => destruct (Hh e w') as (H1 & H2 & H3) end;
      (repeat split; [congruence | congruence | exact H3]).
  - destruct Hc as (_ & _ & H6). exfalso. exact (H6 k w' eq_refl).
Qed.

Lemma quiet_send_signal s pid : quiet (send_signal s pid : M doc unit).
Proof.
  intros w. unfold send_signal.
  destruct (procs w !! pid) as [p|]; [|repeat split; discriminate].
  destruct (alive p); simpl; [|repeat split; discriminate].
  destruct (denied p); [repeat split; discriminate|].
  destruct s; [destruct (stubborn p)|]; repeat split; discriminate.
Qed.

Lemma quiet_sleep n : quiet (sleep n : M doc unit).
Proof. quiet_now. Qed.

Lemma quiet_popen_signal s pid : quiet (popen_signal s pid : M doc unit).
Proof.
  unfold popen_signal. apply quiet_bind; [apply quiet_get_world|]. intros w.
  destruct (is_running w pid); [apply quiet_send_signal | apply quiet_ret].
Qed.

Lemma quiet_wait_exit pid : quiet (wait_exit pid : M doc unit).
Proof.
  unfold wait_exit. apply quiet_bind; [apply quiet_get_world|]. intros w.
  destruct (is_running w pid); [|apply quiet_ret].
  apply quiet_bind; [apply quiet_sleep | intros; apply quiet_raise].
Qed.

Lemma quiet_terminate_process pid : quiet (terminate_process pid : M doc unit).
Proof.
  unfold terminate_process. apply quiet_try_except.
  - apply quiet_bind; [apply quiet_popen_signal | intros; apply quiet_wait_exit].
  - intros e. apply quiet_try_except; [apply quiet_popen_signal | intros; apply quiet_ret].
Qed.

Lemma quiet_psutil_Process v : quiet (psutil_Process v : M doc Z).
Proof.
  intros w. unfold psutil_Process. destruct v; try (repeat split; discriminate);
    (match goal with |- context [(?n <? 0)%Z] => destruct (n <? 0)%Z end;
     [repeat split; discriminate|]);
    match goal with |- context [procs w !! ?n] =>
      destruct (procs w !! n) as [p|]; [destruct (alive p)|]
    end; repeat split; discriminate.
Qed.

Lemma quiet_find_by_pid (r : record) : quiet (find_by_pid r : M doc (list Z)).
Proof.
  unfold find_by_pid. destruct (truthy (r !! "process_pid")); [|apply quiet_ret].
  apply quiet_try_except_ps; [|intros; apply quiet_ret].
  apply quiet_bind; [apply quiet_psutil_Process|]. intros main.
  apply quiet_bind; [|intros; apply quiet_ret].
  unfold proc_children. apply quiet_bind; [apply quiet_get_world|].
  intros; apply quiet_ret.
Qed.

Lemma quiet_find_by_template (r : record) : quiet (find_by_template r : M doc (list Z)).
Proof.
  unfold find_by_template. apply quiet_bind; [apply quiet_get_world|]. intros w.
  destruct (default (VStr "") (r !! "template")); try apply quiet_ret.
  destruct (String.eqb s ""); apply quiet_ret.
Qed.

Lemma quiet_find_any_engine : quiet (find_any_engine : M doc (list Z)).
Proof.
  unfold find_any_engine. apply quiet_bind; [apply quiet_get_world|].
  intros; apply quiet_ret.
Qed.

Lemma quiet_terminate_all ps success errors :
  quiet (terminate_all ps success errors : M doc (bool * list string)).
Proof.
  revert success errors. induction ps as [|pid ps IH]; intros success errors; simpl.
  - apply quiet_ret.
  - apply quiet_bind.
    + apply quiet_try_except_ps; [|intros; apply quiet_ret].
      apply quiet_bind; [apply quiet_send_signal | intros; apply quiet_ret].
    + intros [msg|]; apply IH.
Qed.

Lemma quiet_kill_all ps : quiet (kill_all ps : M doc unit).
Proof.
  induction ps as [|pid ps IH]; simpl; [apply quiet_ret|].
  apply quiet_bind; [apply quiet_get_world|]. intros w.
  apply quiet_bind; [|intros; exact IH].
  destruct (is_running w pid); [|apply quiet_ret].
  apply quiet_try_except_ps; [apply quiet_send_signal | intros; apply quiet_ret].
Qed.

Lemma quiet_elapsed_since (r : record) : quiet (elapsed_since r : M doc value).
Proof.
  unfold elapsed_since. apply quiet_bind; [apply quiet_get_world|]. intros w.
  destruct (r !! "start_time") as [[]|]; try apply quiet_ret; apply quiet_raise.
Qed.

Lemma keeps_quiet {A} (c : M doc A) : quiet c → keeps_store c.
Proof. intros Hc w Hl. destruct (Hc w) as (H1 & H2 & _). split; congruence. Qed.

Lemma keeps_bind {A B} (c : M doc A) (f : A → M doc B) :
  keeps_store c → (∀ a, keeps_store (f a)) → keeps_store (c ≫= f).
Proof.
  intros Hc Hf w Hl. unfold mbind, M_bind. specialize (Hc w Hl).
  destruct (c w) as [a w'|e w'|k w']; simpl in *; [|exact Hc|exact Hc].
  destruct Hc as [H3 H4]. destruct (Hf a w' H4) as [H1 H2]. split; congruence.
Qed.

Lemma keeps_update experiment_id data :
  keeps_store (update_experiment_state experiment_id data : M doc unit).
Proof.
  intros w Hl. rewrite update_experiment_state_held by exact Hl.
  split; [reflexivity | exact Hl].
Qed.

(** A stop request never changes the store: whenever it gets as far as
    the call that would, it holds the lock that the call waits for. *)
Lemma stop_experiment_mem w experiment_id :
  lock w = false → mem (world_of (stop_experiment experiment_id w)) = mem w.
Proof.
  intros Hl. unfold stop_experiment, with_lock. rewrite Hl.
  match goal with
  | |- context [match ?body (set_lock true w) with _ => _ end] =>
      assert (Hk : keeps_store body)
  end.
  { apply keeps_bind; [apply keeps_quiet, quiet_get_world|]. intros w0.
    destruct (mem w0 !! experiment_id) as [r|]; [|apply keeps_quiet, quiet_ret].
    destruct (negb (dict_truthy r)); [apply keeps_quiet, quiet_ret|].
    destruct (negb (field_is r "status" "running")); [apply keeps_quiet, quiet_ret|].
    apply keeps_bind; [apply keeps_quiet, quiet_find_by_pid|]. intros by_pid.
    apply keeps_bind.
    { destruct by_pid; apply keeps_quiet; [apply quiet_find_by_template | apply quiet_ret]. }
    intros by_template. apply keeps_bind.
    { destruct by_template; apply keeps_quiet; [apply quiet_find_any_engine | apply quiet_ret]. }
    intros [|p ps].
    - apply keeps_bind; [apply keeps_quiet, quiet_elapsed_since|]. intros v.
      apply keeps_bind; [apply keeps_update | intros; apply keeps_quiet, quiet_ret].
    - apply keeps_bind; [apply keeps_quiet, quiet_terminate_all|]. intros [success errors].
      apply keeps_bind.
      { destruct success; apply keeps_quiet; [|apply quiet_ret].
        apply quiet_bind; [apply quiet_sleep | intros; apply quiet_kill_all]. }
      intros _. apply keeps_bind; [apply keeps_quiet, quiet_elapsed_since|]. intros v.
      apply keeps_bind; [apply keeps_update | intros; apply keeps_quiet, quiet_ret]. }
  destruct (Hk (set_lock true w) eq_refl) as [Hm _].
  match goal with
  | |- context [match ?body (set_lock true w) with _ => _ end] =>
      destruct (body (set_lock true w)); simpl in *; exact Hm
  end.
Qed.
End Frames.

(** ** The worker, step by step *)

Section WorkerFacts.
Context {doc : Type} `{!Json doc}.
Implicit Types w : world doc.
Implicit Types l : wlocal.

Lemma quiet_start_engine template_path mode i :
  quiet (start_engine template_path mode i : M doc Z).
Proof.
  unfold start_engine. apply quiet_bind.
  - intros w. unfold Popen. destruct (spawn i); repeat split; discriminate.
  - intros pid. apply quiet_bind.
    + unfold stdin_write. destruct (pipe_ok i); [|apply quiet_raise]. quiet_now.
    + intros _. apply quiet_bind; [quiet_now|].
      intros _. apply quiet_bind; [quiet_now|].
      intros _. apply quiet_ret.
Qed.

Lemma on_outcome_spec {A} l (o : outcome doc A) (k : A → world doc → wlocal) l' w' :
  on_outcome l o k = Some (l', w') →
  w' = world_of o ∧
  ((∃ a, o = Done a w' ∧ l' = k a w') ∨
   (∃ e, o = Raised e w' ∧ l' = goto (PUpdate (error_record e l (now w')) ThenDone) l)).
Proof.
  unfold on_outcome. destruct o as [a w0|e w0|c w0]; intros [= <- <-]; simpl.
  - split; [reflexivity|]. left. eexists. split; reflexivity.
  - split; [reflexivity|]. right. eexists. split; reflexivity.
Qed.

Lemma commit_free w experiment_id data k :
  lock w = false →
  ∃ w', commit experiment_id data k w = Done () w' ∧
        mem w' = <[experiment_id := data]> (mem w) ∧ lock w' = false.
Proof.
  intros Hl. unfold commit. unfold_m.
  destruct (update_experiment_state_free w experiment_id data Hl)
    as (w1 & -> & Hm & Hk & _).
  destruct k; unfold sleep; unfold_m; eexists; (split; [reflexivity|]);
    simpl; split; assumption.
Qed.

(** [terminate_process] always returns: its handlers absorb what the
    signals raise. *)
Lemma terminate_process_done w pid :
  ∃ w', terminate_process pid w = Done () w' ∧ mem w' = mem w ∧ lock w' = lock w.
Proof.
  destruct (quiet_terminate_process pid w) as (Hm & Hk & Hnb).
  destruct (terminate_process pid w) as [[] w'|e w'|k w'] eqn:E; simpl in *.
  - exists w'. split; [reflexivity|]. split; assumption.
  - exfalso. unfold terminate_process, try_except in E.
    destruct ((popen_signal SIGTERM pid ≫= λ _ : (), wait_exit pid) w); try discriminate.
    destruct (popen_signal SIGKILL pid w0); discriminate.
  - exfalso. exact (Hnb k w' eq_refl).
Qed.

Lemma check_stop_free w experiment_id pid :
  lock w = false →
  ∃ next w', check_stop experiment_id pid w = Done (mem w !! experiment_id, next) w' ∧
             (next = PFinalize ∨ next = PTick) ∧
             mem w' = mem w ∧ lock w' = false.
Proof.
  intros Hl. unfold check_stop. unfold mbind, M_bind.
  rewrite get_experiment_state_free by exact Hl.
  destruct (mem w !! experiment_id) as [r|] eqn:E.
  2:{ eexists _, _. split; [reflexivity|]. split; [right; reflexivity|].
      split; [reflexivity | exact Hl]. }
  destruct (dict_truthy r && field_is r "status" "stopped").
  2:{ eexists _, _. split; [reflexivity|]. split; [right; reflexivity|].
      split; [reflexivity | exact Hl]. }
  destruct (terminate_process_done w pid) as (w' & -> & Hm & Hk).
  eexists _, _. split; [reflexivity|]. split; [left; reflexivity|].
  split; [exact Hm | congruence].
Qed.

Lemma first_record_running l pid : is_terminal (first_record l pid) = false.
Proof. reflexivity. Qed.

Lemma tick_record_running l t proc_info count :
  is_terminal (tick_record l t proc_info count) = false.
Proof. reflexivity. Qed.

(** What a step of the worker does to the store: nothing, or the write
    it was about to make. In any case the step leaves the lock as it found
    it and the worker with a sound next write, on the same run. *)
Lemma run_experiment_async_step_spec i l w l' w' :
  run_experiment_async_step i l w = Some (l', w') →
  experiment_id l' = experiment_id l ∧
  pc_sound l' ∧
  at_pc l ≠ PDone ∧
  lock w' = lock w ∧
  (mem w' = mem w ∨
   ∃ data k, at_pc l = PUpdate data k ∧ lock w = false ∧
             mem w' = <[experiment_id l := data]> (mem w) ∧
             at_pc l' = match k with ThenDone => PDone | _ => PPoll end).
Proof.
  unfold run_experiment_async_step. destruct (at_pc l) as [| | | | | |data k| |e] eqn:Hpc;
    try discriminate.
  - (* PInit *)
    unfold mkdir_exist_ok.
    destruct (results w !! _) as [[d|fs]|]; intros [= <- <-];
      (split; [reflexivity|]); (split; [exact I|]); (split; [discriminate|]);
      (split; [reflexivity|]); left; reflexivity.
  - (* PSpawn *)
    destruct (quiet_start_engine (template_path l) (mode l) i w) as (Hm & Hk & _).
    destruct (spawn i) as [pid|].
    + destruct (bool_decide _); [discriminate|].
      intros Hs. apply on_outcome_spec in Hs as [-> [(a & Ho & ->)|(e & Ho & ->)]];
        (split; [reflexivity|]); (split; [try exact I|]);
        try (split; [discriminate|]; split; [exact Hk | left; exact Hm]).
      unfold pc_sound. simpl. apply first_record_running.
    + intros Hs. apply on_outcome_spec in Hs as [-> [(a & Ho & ->)|(e & Ho & ->)]].
      * split; [reflexivity|]. split; [unfold pc_sound; rewrite Hpc; exact I|].
        split; [discriminate|]. split; [exact Hk | left; exact Hm].
      * split; [reflexivity|]. split; [exact I|].
        split; [discriminate|]. split; [exact Hk | left; exact Hm].
  - (* PPoll *)
    destruct (poll w (process l)); intros [= <- <-];
      (split; [reflexivity|]); (split; [exact I|]); (split; [discriminate|]);
      (split; [reflexivity|]); left; reflexivity.
  - (* PCheck *)
    destruct (lock w) eqn:Hl; [discriminate|].
    destruct (check_stop_free w (experiment_id l) (process l) Hl)
      as (next & w1 & -> & Hnext & Hm & Hk).
    simpl. intros [= <- <-].
    split; [reflexivity|].
    split; [unfold pc_sound; simpl; destruct Hnext as [-> | ->]; exact I|].
    split; [discriminate|]. split; [exact Hk | left; exact Hm].
  - (* PTick *)
    intros [= <- <-]. split; [reflexivity|].
    split; [unfold pc_sound; simpl; apply tick_record_running|].
    split; [discriminate|]. split; [reflexivity | left; reflexivity].
  - (* PFinalize *)
    destruct (exp_state l); intros [= <- <-];
      (split; [reflexivity|]); (split; [exact I|]); (split; [discriminate|]);
      (split; [reflexivity|]); left; reflexivity.
  - (* PUpdate *)
    destruct (lock w) eqn:Hl; [discriminate|].
    destruct (commit_free w (experiment_id l) data k Hl) as (w1 & -> & Hm & Hk).
    simpl. intros [= <- <-]. split; [reflexivity|].
    split; [unfold pc_sound; simpl; destruct k; exact I|].
    split; [discriminate|]. split; [exact Hk|]. right. exists data, k.
    split; [reflexivity|]. split; [reflexivity|]. split; [exact Hm | reflexivity].
Qed.
End WorkerFacts.

(** ** The worker among stop requests *)

Section Interleavings.
Context {doc : Type} `{!Json doc}.
Implicit Types c : config doc.
Implicit Types e : event doc.

(** An event leaves the store alone, unless it is the step in which the
    worker makes its pending write; and while the lock is held nothing
    is written at all. *)
Lemma step_spec e c c' :
  step e c = Some c' →
  experiment_id (worker c') = experiment_id (worker c) ∧
  (pc_sound (worker c) → pc_sound (worker c')) ∧
  (lock (sys c) = true → lock (sys c') = true ∧ mem (sys c') = mem (sys c)) ∧
  ((mem (sys c') = mem (sys c) ∧
    (at_pc (worker c') = at_pc (worker c) ∨ at_pc (worker c) ≠ PDone)) ∨
   ∃ data k, at_pc (worker c) = PUpdate data k ∧
             mem (sys c') = <[experiment_id (worker c) := data]> (mem (sys c)) ∧
             at_pc (worker c') = match k with ThenDone => PDone | _ => PPoll end).
Proof.
  destruct c as [l w]. unfold step. simpl. destruct e as [i|id|code|name data|err line|dt|r wm].
  - destruct (run_experiment_async_step i l w) as [[l' w']|] eqn:E; [|discriminate].
    intros [= <-]. simpl.
    destruct (run_experiment_async_step_spec i l w l' w' E) as (Hid & Hs & Hnd & Hk & Hm).
    split; [exact Hid|]. split; [intros _; exact Hs|]. split.
    + intros Hl. split; [congruence|].
      destruct Hm as [Hm|(d & k & _ & Hf & _)]; [exact Hm | congruence].
    + destruct Hm as [Hm|(d & k & Hpc & _ & Hm & Hpc')].
      * left. split; [exact Hm | right; exact Hnd].
      * right. exists d, k. repeat split; assumption.
  - destruct (lock w) eqn:Hl; [discriminate|]. intros [= <-]. simpl.
    split; [reflexivity|]. split; [tauto|]. split; [discriminate|].
    left. split; [apply stop_experiment_mem; exact Hl | left; reflexivity].
  - destruct (procs w !! process l) as [p|]; [|discriminate].
    destruct (alive p); [|discriminate]. intros [= <-]. simpl.
    split; [reflexivity|]. split; [tauto|]. split; [tauto|].
    left. split; [reflexivity | left; reflexivity].
  - destruct (results w !! name) as [[d|fs]|]; try discriminate; intros [= <-]; simpl;
      (split; [reflexivity|]); (split; [tauto|]); (split; [tauto|]);
      left; (split; [reflexivity | left; reflexivity]).
  - intros [= <-]. simpl.
    split; [reflexivity|]. split; [tauto|]. split; [tauto|].
    left. split; [reflexivity | left; reflexivity].
  - destruct (0 <=? dt)%Z; [|discriminate]. intros [= <-]. simpl.
    split; [reflexivity|]. split; [tauto|]. split; [tauto|].
    left. split; [reflexivity | left; reflexivity].
  - intros [= <-]. simpl.
    split; [reflexivity|]. split; [tauto|]. split; [tauto|].
    left. split; [reflexivity | left; reflexivity].
Qed.






(** Once a thread is stuck with the lock, the store never changes. *)
Lemma run_lock_held es c c' :
  run es c = Some c' → lock (sys c) = true →
  lock (sys c') = true ∧ mem (sys c') = mem (sys c).
Proof.
  revert c. induction es as [|e es IH]; intros c Hrun Hl; simpl in Hrun.
  - injection Hrun as <-. split; [exact Hl | reflexivity].
  - destruct (step e c) as [c1|] eqn:E; [|discriminate].
    destruct (step_spec e c c1 E) as (_ & _ & Hheld & _).
    destruct (Hheld Hl) as [Hl1 Hm1].
    destruct (IH c1 Hrun Hl1) as [Hl' Hm']. split; [exact Hl' | congruence].
Qed.
End Interleavings.


(** ** The end of a run *)

Section FinalWrite.
Context {doc : Type} `{!Json doc}.
Implicit Types w : world doc.
Implicit Types l : wlocal.

(** When the worker has looked at the store at least once and did not
    see the run stopped there, the record it prepares says completed for
    exit code 0 and failed for any other, and carries the exit code. *)
Lemma finalize_classifies_exit i l w (st : option record) (rc : Z) :
  at_pc l = PFinalize →
  exp_state l = Some st →
  (∀ r, st = Some r → field_is r "status" "stopped" = false) →
  poll w (process l) = Some rc →
  ∃ l' w' data,
    run_experiment_async_step i l w = Some (l', w') ∧
    at_pc l' = PUpdate data ThenDone ∧
    data !! "status" = Some (VStr (if (rc =? 0)%Z then "completed" else "failed")) ∧
    data !! "return_code" = Some (VInt rc).
Proof.
  intros Hpc Hst Hns Hpoll. unfold run_experiment_async_step. rewrite Hpc, Hst, Hpoll. simpl.
  eexists _, _, _. split; [reflexivity|]. split; [reflexivity|].
  split; [|reflexivity].
  unfold final_record, dict. simpl. rewrite lookup_insert_eq. do 2 f_equal.
  unfold final_status. destruct st as [r|]; [|reflexivity].
  rewrite (Hns r eq_refl), andb_false_r. reflexivity.
Qed.

(** When the worker reaches the end without having looked at the store,
    the name [exp_state] is unbound: the record it prepares is that of the
    exception handler, with status error and no return code, whatever
    the exit code of the process. *)
Lemma finalize_before_first_read i l w :
  at_pc l = PFinalize →
  exp_state l = None →
  ∃ l' w' data,
    run_experiment_async_step i l w = Some (l', w') ∧
    at_pc l' = PUpdate data ThenDone ∧
    data !! "status" = Some (VStr "error") ∧
    data !! "error" = Some (VStr (exn_str (UnboundLocalError "exp_state"))) ∧
    data !! "return_code" = None.
Proof.
  intros Hpc Hst. unfold run_experiment_async_step. rewrite Hpc, Hst. simpl.
  eexists _, _, _. split; [reflexivity|]. split; [reflexivity|].
  split; [reflexivity|]. split; reflexivity.
Qed.

(** The record the worker prepares at the end depends on what it last
    read in its loop, not on what the store holds then: if that read did
    not say stopped, the status it writes is not stopped, whatever a stop
    request has stored since. *)
Lemma final_write_ignores_store i l w l1 w1 l2 w2 (st : option record) :
  at_pc l = PFinalize →
  exp_state l = Some st →
  (∀ r, st = Some r → field_is r "status" "stopped" = false) →
  run_experiment_async_step i l w = Some (l1, w1) →
  run_experiment_async_step i l1 w1 = Some (l2, w2) →
  ∃ data, mem w2 !! experiment_id l = Some data ∧
          field_is data "status" "stopped" = false.
Proof.
  intros Hpc Hst Hns H1 H2.
  unfold run_experiment_async_step in H1. rewrite Hpc, Hst in H1. injection H1 as <- <-.
  unfold run_experiment_async_step in H2. simpl in H2.
  destruct (lock w) eqn:Hl; [discriminate|].
  match type of H2 with
  | context [commit ?id ?d ?k ?w0] =>
      destruct (commit_free w0 id d k Hl) as (w3 & E & Hm & _); rewrite E in H2
  end.
  simpl in H2. injection H2 as <- <-. rewrite Hm, lookup_insert_eq.
  eexists. split; [reflexivity|].
  unfold field_is, final_record, dict. simpl. rewrite lookup_insert_eq.
  unfold final_status. destruct st as [r|].
  - rewrite (Hns r eq_refl), andb_false_r. destruct (_ =? 0)%Z; reflexivity.
  - destruct (_ =? 0)%Z; reflexivity.
Qed.
End FinalWrite.

(** The run that C5 describes when the loop has turned once: completed,
    with return code 0. *)
Lemma normal_run_completes :
  run run_normal c_start = Some (at_end run_normal) ∧
  at_pc (worker (at_end run_normal)) = PDone ∧
  stored_status (at_end run_normal) "t.xlsx_20240101_120000" = Some (VStr "completed") ∧
  (mem (sys (at_end run_normal)) !! "t.xlsx_20240101_120000" ≫= λ r, r !! "return_code")
    = Some (VInt 0).
Proof.
  split; [vm_compute; reflexivity|]. split; [vm_compute; reflexivity|].
  split; vm_compute; reflexivity.
Qed.

(** C5 fails for an engine that exits before the first poll. The loop
    body, which alone binds [exp_state], never runs; line 590 reads the
    name and raises; the handler records the run as an error, without a
    return code, although the engine exited with code 0 and no stop was
    ever requested. *)
Lemma fast_exit_recorded_as_error :
  run run_fast_exit c_start = Some (at_end run_fast_exit) ∧
  at_pc (worker (at_end run_fast_exit)) = PDone ∧
  poll (sys (at_end run_fast_exit)) 500 = Some 0%Z ∧
  exp_state (worker (at_end run_fast_exit)) = None ∧
  stored_status (at_end run_fast_exit) "t.xlsx_20240101_120000" = Some (VStr "error") ∧
  (mem (sys (at_end run_fast_exit)) !! "t.xlsx_20240101_120000" ≫= λ r, r !! "error")
    = Some (VStr (exn_str (UnboundLocalError "exp_state"))) ∧
  (mem (sys (at_end run_fast_exit)) !! "t.xlsx_20240101_120000" ≫= λ r, r !! "return_code")
    = None.
Proof.
  split; [vm_compute; reflexivity|]. split; [vm_compute; reflexivity|].
  split; [vm_compute; reflexivity|]. split; [vm_compute; reflexivity|].
  split; [vm_compute; reflexivity|]. split; vm_compute; reflexivity.
Qed.

(** C3 fails on a plain stop request. [stop_experiment] terminates the
    engine and then calls update_experiment_state while it holds the lock:
    it waits for ever, the status stopped is never stored. The worker
    sees the exit at its next poll, prepares a record that says failed
    (it did not see the stop), and waits for the lock in turn. Whatever
    happens next, the store says running. *)
Lemma stop_request_never_recorded :
  run run_stop_request c_start = Some (at_end run_stop_request) ∧
  lock (sys (at_end run_stop_request)) = true ∧
  effects (sys (at_end run_stop_request)) =
    start_protocol 500 "experiments_templates/t.xlsx" "test" ++ [Signal 500 SIGTERM] ∧
  poll (sys (at_end run_stop_request)) 500 = Some (-15)%Z ∧
  (∃ data, at_pc (worker (at_end run_stop_request)) = PUpdate data ThenDone ∧
           data !! "status" = Some (VStr "failed")) ∧
  (∀ i, run_experiment_async_step i (worker (at_end run_stop_request)) (sys (at_end run_stop_request))
        = None) ∧
  (∀ es c, run es (at_end run_stop_request) = Some c →
           stored_status c "t.xlsx_20240101_120000" = Some (VStr "running")).
Proof.
  split; [vm_compute; reflexivity|]. split; [vm_compute; reflexivity|].
  split; [vm_compute; reflexivity|]. split; [vm_compute; reflexivity|].
  split; [eexists; split; vm_compute; reflexivity|].
  split; [intros i; vm_compute; reflexivity|].
  intros es c Hrun.
  destruct (run_lock_held es _ c Hrun) as [_ Hm]; [vm_compute; reflexivity|].
  unfold stored_status. rewrite Hm. vm_compute. reflexivity.
Qed.

(** * Further properties *)

(** ** The store across calls and restarts *)

Section StoreRoundTrips.
Context {doc : Type} `{!Json doc}.
Implicit Types w : world doc.

Lemma get_all_experiments_state_free w :
  lock w = false → get_all_experiments_state w = Done (mem w) w.
Proof.
  intros Hl. unfold get_all_experiments_state, with_lock. rewrite Hl. unfold_m. simpl.
  rewrite set_lock_release by assumption. reflexivity.
Qed.

(** X1. A record written with update_experiment_state is the one that
    get_experiment_state returns for the run afterwards, whether or not
    the state file could be written; the records of the other runs are
    as they were, and get_all_experiments_state returns the mapping with
    that one change. *)
Theorem update_then_get w (experiment_id : string) (data : record) :
  lock w = false →
  ∃ w', update_experiment_state experiment_id data w = Done () w' ∧
        get_experiment_state experiment_id w' = Done (Some data) w' ∧
        (∀ other, other ≠ experiment_id →
                  get_experiment_state other w' = Done (mem w !! other) w') ∧
        get_all_experiments_state w' = Done (<[experiment_id := data]> (mem w)) w'.
Proof.
  intros Hl.
  destruct (update_experiment_state_free w experiment_id data Hl) as (w' & E & Hm & Hk & _).
  exists w'. split; [exact E|]. split; [|split].
  - rewrite get_experiment_state_free by exact Hk. rewrite Hm, lookup_insert_eq. reflexivity.
  - intros other Hne. rewrite get_experiment_state_free by exact Hk.
    rewrite Hm, lookup_insert_ne by congruence. reflexivity.
  - rewrite get_all_experiments_state_free by exact Hk. rewrite Hm. reflexivity.
Qed.

(** What the import of the module leaves in memory: what the state file
    holds, or nothing. *)
Lemma module_init_value w :
  module_init w =
    let s := match disk w with
             | Some d => if readable w then default ∅ (json_load d) else ∅
             | None => ∅
             end in
    Done s (set_mem s w).
Proof.
  unfold module_init. unfold mbind, M_bind, modify. simpl.
  destruct (disk w) as [d|] eqn:Hd.
  - rewrite (load_experiments_state_present (set_mem ∅ w) d) by exact Hd. simpl.
    rewrite (load_experiments_state_present _ d) by exact Hd. simpl. reflexivity.
  - rewrite (load_experiments_state_missing (set_mem ∅ w)) by exact Hd.
    rewrite (load_experiments_state_missing (set_mem ∅ w)) by exact Hd. reflexivity.
Qed.

Lemma update_experiment_state_disk w experiment_id data :
  lock w = false →
  ∃ w', update_experiment_state experiment_id data w = Done () w' ∧
        mem w' = <[experiment_id := data]> (mem w) ∧
        readable w' = readable w ∧
        disk w' = match writing w with
                  | WriteOk => Some (json_dump (<[experiment_id := data]> (mem w)))
                  | OpenFails => disk w
                  | DumpFails partial => Some partial
                  end.
Proof.
  intros Hl. unfold update_experiment_state, with_lock. rewrite Hl. unfold_m.
  unfold save_experiments_state, write_state_file. unfold_m. simpl.
  destruct (writing w); simpl; eexists; (split; [reflexivity|]); simpl;
    (split; [reflexivity|]); split; reflexivity.
Qed.

(** X2. A record written with update_experiment_state survives a restart
    of the dashboard: when the state file can be written and read, the
    import of the module in a new process, whatever its memory held,
    yields the mapping of the old process with that record in it. *)
Theorem update_survives_restart `{!JsonLaws doc} w (experiment_id : string) (data : record) :
  lock w = false →
  writing w = WriteOk →
  readable w = true →
  ∃ w1, update_experiment_state experiment_id data w = Done () w1 ∧
        ∀ m : store, ∃ w2,
          module_init (set_mem m w1) = Done (<[experiment_id := data]> (mem w)) w2 ∧
          mem w2 !! experiment_id = Some data ∧
          ∀ other, other ≠ experiment_id → mem w2 !! other = mem w !! other.
Proof.
  intros Hl Hw Hr.
  destruct (update_experiment_state_disk w experiment_id data Hl) as (w1 & E & _ & Hr1 & Hd).
  rewrite Hw in Hd. exists w1. split; [exact E|]. intros m.
  rewrite module_init_value. simpl. rewrite Hd, Hr1, Hr, json_load_dump. simpl.
  eexists. split; [reflexivity|]. simpl. split; [apply lookup_insert_eq|].
  intros other Hne. apply lookup_insert_ne. congruence.
Qed.

(** X3. When the state file cannot be opened for writing, the update
    returns as if nothing had happened and the record is in memory, but a
    restart of the dashboard yields exactly what it would have yielded
    without the update: the record is lost. *)
Theorem update_lost_when_open_fails w (experiment_id : string) (data : record) :
  lock w = false →
  writing w = OpenFails →
  ∃ w1, update_experiment_state experiment_id data w = Done () w1 ∧
        mem w1 !! experiment_id = Some data ∧
        ∀ m : store, ∃ s w2 w3,
          module_init (set_mem m w1) = Done s w2 ∧ module_init w = Done s w3.
Proof.
  intros Hl Hw.
  destruct (update_experiment_state_disk w experiment_id data Hl) as (w1 & E & Hm & Hr1 & Hd).
  rewrite Hw in Hd. exists w1. split; [exact E|].
  split; [rewrite Hm; apply lookup_insert_eq|]. intros m.
  rewrite !module_init_value. simpl. rewrite Hd, Hr1.
  eexists _, _, _. split; reflexivity.
Qed.

(** X4. When the dump fails part-way, the state file is left truncated.
    If what is left does not parse, a restart of the dashboard starts
    from the empty mapping: the records of all runs are lost, those
    saved by earlier updates too. *)
Theorem partial_write_loses_store w (experiment_id : string) (data : record) (partial : doc) :
  lock w = false →
  writing w = DumpFails partial →
  json_load partial = None →
  ∃ w1, update_experiment_state experiment_id data w = Done () w1 ∧
        mem w1 !! experiment_id = Some data ∧
        ∀ m : store, module_init (set_mem m w1) = Done ∅ (set_mem ∅ w1).
Proof.
  intros Hl Hw Hj.
  destruct (update_experiment_state_disk w experiment_id data Hl) as (w1 & E & Hm & Hr1 & Hd).
  rewrite Hw in Hd. exists w1. split; [exact E|].
  split; [rewrite Hm; apply lookup_insert_eq|]. intros m.
  rewrite module_init_value. simpl. rewrite Hd, Hj. simpl.
  destruct (readable w1); destruct w1; reflexivity.
Qed.
End StoreRoundTrips.

(** X1 on a machine whose disk refuses writes. *)
Lemma update_then_get_witness :
  lock w_readonly = false ∧
  ∃ w', update_experiment_state "t_1" rec_running w_readonly = Done () w' ∧
        get_experiment_state "t_1" w' = Done (Some rec_running) w' ∧
        (∀ other, other ≠ "t_1" →
                  get_experiment_state other w' = Done (mem w_readonly !! other) w') ∧
        get_all_experiments_state w' = Done (<["t_1" := rec_running]> (mem w_readonly)) w'.
Proof.
  split; [reflexivity|].
  apply (update_then_get w_readonly "t_1" rec_running). reflexivity.
Defined.

(** X2 for a second run recorded beside a first. *)
Lemma update_survives_restart_witness :
  lock w_quiet = false ∧ writing w_quiet = WriteOk ∧ readable w_quiet = true ∧
  ∃ w1, update_experiment_state "t_2" rec_stopped w_quiet = Done () w1 ∧
        ∀ m : store, ∃ w2,
          module_init (set_mem m w1) = Done (<["t_2" := rec_stopped]> (mem w_quiet)) w2 ∧
          mem w2 !! "t_2" = Some rec_stopped ∧
          ∀ other, other ≠ "t_2" → mem w2 !! other = mem w_quiet !! other.
Proof.
  split; [reflexivity|]. split; [reflexivity|]. split; [reflexivity|].
  apply (update_survives_restart (JsonLaws0 := plain_json_laws) w_quiet "t_2" rec_stopped);
    reflexivity.
Defined.

(** X3 on a machine whose disk refuses writes. *)
Lemma update_lost_when_open_fails_witness :
  lock w_readonly = false ∧ writing w_readonly = OpenFails ∧
  ∃ w1, update_experiment_state "t_1" rec_running w_readonly = Done () w1 ∧
        mem w1 !! "t_1" = Some rec_running ∧
        ∀ m : store, ∃ s w2 w3,
          module_init (set_mem m w1) = Done s w2 ∧ module_init w_readonly = Done s w3.
Proof.
  split; [reflexivity|]. split; [reflexivity|].
  apply (update_lost_when_open_fails w_readonly "t_1" rec_running); reflexivity.
Defined.

(** X4 on a disk that fills up while the state is dumped. *)
Lemma partial_write_loses_store_witness :
  lock w_disk_full = false ∧ writing w_disk_full = DumpFails Garbage ∧
  json_load Garbage = None ∧
  ∃ w1, update_experiment_state "t_2" rec_running w_disk_full = Done () w1 ∧
        mem w1 !! "t_2" = Some rec_running ∧
        ∀ m : store, module_init (set_mem m w1) = Done ∅ (set_mem ∅ w1).
Proof.
  split; [reflexivity|]. split; [reflexivity|]. split; [reflexivity|].
  apply (partial_write_loses_store w_disk_full "t_2" rec_running Garbage); reflexivity.
Defined.

(** ** Stop requests, again *)

Section StopMore.
Context {doc : Type} `{!Json doc}.
Implicit Types w : world doc.

Lemma bind_get_world {A} (f : world doc → M doc A) w : (get_world ≫= f) w = f w w.
Proof. reflexivity. Qed.

Lemma never_returns_bind_l {A B} (c : M doc A) (f : A → M doc B) :
  never_returns c → never_returns (c ≫= f).
Proof.
  intros Hc w Hl b w' E. unfold mbind, M_bind in E.
  destruct (c w) as [a w1|e w1|k w1] eqn:Ec; try discriminate.
  exact (Hc w Hl a w1 Ec).
Qed.

Lemma never_returns_bind_r {A B} (c : M doc A) (f : A → M doc B) :
  quiet c → (∀ a, never_returns (f a)) → never_returns (c ≫= f).
Proof.
  intros Hc Hf w Hl b w' E. unfold mbind, M_bind in E.
  destruct (Hc w) as (_ & Hk & _).
  destruct (c w) as [a w1|e w1|k w1] eqn:Ec; try discriminate.
  simpl in Hk. apply (Hf a w1 (eq_trans Hk Hl) b w' E).
Qed.

Lemma never_returns_update experiment_id data :
  never_returns (update_experiment_state experiment_id data : M doc unit).
Proof.
  intros w Hl a w'. rewrite update_experiment_state_held by exact Hl. discriminate.
Qed.

(** X5. stop_experiment never returns True. When it returns, it returns
    False and has changed nothing; and for a run whose record says
    running it does not return at all: every path through the function
    ends in a call of update_experiment_state made with the lock held. *)
Theorem stop_experiment_never_true w (experiment_id : string) :
  lock w = false →
  (∀ b w', stop_experiment experiment_id w = Done b w' → b = false ∧ w' = w) ∧
  (∀ r, mem w !! experiment_id = Some r → field_is r "status" "running" = true →
        ∀ b w', stop_experiment experiment_id w ≠ Done b w').
Proof.
  intros Hl. unfold stop_experiment, with_lock. rewrite Hl, bind_get_world.
  change (mem (set_lock true w)) with (mem w).
  destruct (mem w !! experiment_id) as [r|] eqn:Em.
  2:{ unfold mret, M_ret. cbv beta iota. rewrite set_lock_release by exact Hl.
      split; [intros b w' [= <- <-]; split; reflexivity | intros; discriminate]. }
  destruct (field_is r "status" "running") eqn:Es.
  2:{ destruct (dict_truthy r); unfold mret, M_ret; simpl;
        rewrite set_lock_release by exact Hl;
        (split; [intros b w' [= <- <-]; split; reflexivity
                | intros r0 [= <-] Hs; congruence]). }
  rewrite (field_is_truthy _ _ _ Es). change (negb true) with false. cbv iota.
  match goal with
  | |- context [match ?c (set_lock true w) with _ => _ end] =>
      assert (Hn : never_returns c)
  end.
  { apply never_returns_bind_r; [apply quiet_find_by_pid|]. intros by_pid.
    apply never_returns_bind_r.
    { destruct by_pid; [apply quiet_find_by_template | apply quiet_ret]. }
    intros by_template. apply never_returns_bind_r.
    { destruct by_template; [apply quiet_find_any_engine | apply quiet_ret]. }
    intros [|p ps].
    - apply never_returns_bind_r; [apply quiet_elapsed_since|]. intros v.
      apply never_returns_bind_l, never_returns_update.
    - apply never_returns_bind_r; [apply quiet_terminate_all|]. intros [success errors].
      apply never_returns_bind_r.
      { destruct success; [|apply quiet_ret].
        apply quiet_bind; [apply quiet_sleep | intros; apply quiet_kill_all]. }
      intros _. apply never_returns_bind_r; [apply quiet_elapsed_since|]. intros v.
      apply never_returns_bind_l, never_returns_update. }
  match goal with
  | |- context [match ?c (set_lock true w) with _ => _ end] =>
      destruct (c (set_lock true w)) as [a w1|e w1|k w1] eqn:Ec
  end.
  - exfalso. exact (Hn (set_lock true w) eq_refl _ _ Ec).
  - split; [intros; discriminate | intros; discriminate].
  - split; [intros; discriminate | intros; discriminate].
Qed.
End StopMore.

(** X5 on a running record whose process is gone. *)
Lemma stop_experiment_never_true_witness :
  lock w_quiet = false ∧
  (∀ b w', stop_experiment "t_1" w_quiet = Done b w' → b = false ∧ w' = w_quiet) ∧
  (∀ r, mem w_quiet !! "t_1" = Some r → field_is r "status" "running" = true →
        ∀ b w', stop_experiment "t_1" w_quiet ≠ Done b w').
Proof.
  split; [reflexivity|]. apply (stop_experiment_never_true w_quiet "t_1"). reflexivity.
Defined.

(** ** What a stop request does to processes *)

Section Signals.
Context {doc : Type} `{!Json doc}.
Implicit Types w : world doc.

Lemma bind_done {A B} (c : M doc A) (f : A → M doc B) w a w' :
  c w = Done a w' → (c ≫= f) w = f a w'.
Proof. intros E. unfold mbind, M_bind. rewrite E. reflexivity. Qed.

Lemma signals_only_same ps w w' :
  procs w' = procs w → effects w' = effects w → results w' = results w →
  signals_only ps w w'.
Proof.
  intros Hp He Hr. split.
  { exists []. rewrite app_nil_r. split; [exact He | constructor]. }
  split; [intros; rewrite Hp; reflexivity|].
  split; [intros q; unfold is_running; rewrite Hp; auto|].
  split; [intros q; unfold signalable; rewrite Hp; auto | exact Hr].
Qed.

Lemma signals_only_trans ps w1 w2 w3 :
  signals_only ps w1 w2 → signals_only ps w2 w3 → signals_only ps w1 w3.
Proof.
  intros ((s1 & E1 & F1) & P1 & R1 & S1 & D1) ((s2 & E2 & F2) & P2 & R2 & S2 & D2).
  split.
  { exists (s1 ++ s2). split; [rewrite E2, E1, app_assoc; reflexivity|].
    apply Forall_app. split; assumption. }
  split; [intros q Hq; rewrite P2, P1 by exact Hq; reflexivity|].
  split; [auto|]. split; [auto | congruence].
Qed.

Lemma signals_only_mono ps ps' w w' :
  (∀ q, q ∈ ps → q ∈ ps') → signals_only ps w w' → signals_only ps' w w'.
Proof.
  intros Hsub ((s & E & F) & P & R & S & D). split.
  { exists s. split; [exact E|]. eapply Forall_impl; [exact F|].
    intros e (p & sg & -> & Hp). exists p, sg. split; [reflexivity | apply Hsub, Hp]. }
  split; [intros q Hq; apply P; intros Hin; apply Hq, Hsub, Hin|].
  split; [exact R|]. split; assumption.
Qed.

Lemma send_signal_spec s pid w :
  signals_only [pid] w (world_of (send_signal s pid w)) ∧
  (is_running w pid = true → signalable w pid →
   ∃ w', send_signal s pid w = Done () w' ∧ (s = SIGKILL → is_running w' pid = false)) ∧
  (∀ e w', send_signal s pid w = Raised e w' →
           w' = w ∧ (e = NoSuchProcess ∨ e = AccessDenied)) ∧
  (∀ k w', send_signal s pid w ≠ Blocked k w').
Proof.
  assert (Hsent : ∀ p code, procs w !! pid = Some p → denied p = false →
            signals_only [pid] w
              (set_procs (<[pid := exited code p]> (procs (log_effect (Signal pid s) w)))
                         (log_effect (Signal pid s) w))).
  { intros p code Hp Hd. split.
    { exists [Signal pid s]. split; [reflexivity|]. constructor; [|constructor].
      exists pid, s. split; [reflexivity | apply list_elem_of_singleton; reflexivity]. }
    split.
    { intros q Hq. simpl. apply lookup_insert_ne. intros ->. apply Hq.
      apply list_elem_of_singleton. reflexivity. }
    split.
    { intros q. unfold is_running. simpl. destruct (decide (q = pid)) as [->|Hne].
      - rewrite lookup_insert_eq. reflexivity.
      - rewrite lookup_insert_ne by congruence. auto. }
    split; [|reflexivity].
    intros q Hq p'. simpl. destruct (decide (q = pid)) as [->|Hne].
    - rewrite lookup_insert_eq. intros [= <-]. exact Hd.
    - rewrite lookup_insert_ne by congruence. apply Hq. }
  unfold send_signal. destruct (procs w !! pid) as [p|] eqn:Hp.
  2:{ split; [apply signals_only_same; reflexivity|].
      split; [unfold is_running; rewrite Hp; discriminate|].
      split; [intros e w' [= <- <-]; auto | discriminate]. }
  destruct (alive p) eqn:Ha; simpl.
  2:{ split; [apply signals_only_same; reflexivity|].
      split; [unfold is_running; rewrite Hp, Ha; discriminate|].
      split; [intros e w' [= <- <-]; auto | discriminate]. }
  destruct (denied p) eqn:Hd.
  { split; [apply signals_only_same; reflexivity|].
    split; [intros _ Hs; specialize (Hs p Hp); congruence|].
    split; [intros e w' [= <- <-]; auto | discriminate]. }
  destruct s; [destruct (stubborn p)|].
  - split.
    { split.
      { exists [Signal pid SIGTERM]. split; [reflexivity|]. constructor; [|constructor].
        exists pid, SIGTERM. split; [reflexivity | apply list_elem_of_singleton; reflexivity]. }
      split; [reflexivity|]. split; [auto|]. split; [auto | reflexivity]. }
    split; [intros _ _; eexists; split; [reflexivity | discriminate]|].
    split; discriminate.
  - split; [apply (Hsent p (-15)%Z eq_refl Hd)|].
    split; [intros _ _; eexists; split; [reflexivity | discriminate]|].
    split; discriminate.
  - split; [apply (Hsent p (-9)%Z eq_refl Hd)|].
    split; [|split; discriminate].
    intros _ _. eexists. split; [reflexivity|]. intros _.
    unfold is_running. simpl. rewrite lookup_insert_eq. reflexivity.
Qed.

(** One turn of the loop that sends SIGTERM. *)
Lemma terminate_step pid w :
  ∃ r w', try_except_ps (send_signal SIGTERM pid ≫= λ _, mret None)
                        (λ e, mret (Some (exn_str e))) w = Done r w' ∧
          signals_only [pid] w w' ∧
          (is_running w pid = true → signalable w pid → r = None).
Proof.
  destruct (send_signal_spec SIGTERM pid w) as (Hso & Hok & Hraise & Hnb).
  unfold try_except_ps, mbind, M_bind.
  destruct (send_signal SIGTERM pid w) as [[] w1|e w1|k w1] eqn:E.
  - exists None, w1. split; [reflexivity|]. split; [exact Hso | auto].
  - destruct (Hraise e w1 eq_refl) as [-> He].
    assert (Hno : is_running w pid = true → signalable w pid → False).
    { intros Hr Hs. destruct (Hok Hr Hs) as (w' & E' & _). discriminate. }
    destruct He as [-> | ->]; eexists _, w; (split; [reflexivity|]);
      (split; [exact Hso|]); intros Hr Hs; destruct (Hno Hr Hs).
  - destruct (Hnb k w1 eq_refl).
Qed.

Lemma terminate_all_spec ps success errors w :
  ∃ success' errors' w',
    terminate_all ps success errors w = Done (success', errors') w' ∧
    signals_only ps w w' ∧
    (success = true → success' = true) ∧
    (∀ q, q ∈ ps → is_running w q = true → signalable w q → success' = true).
Proof.
  revert success errors w. induction ps as [|pid ps IH]; intros success errors w.
  - exists success, errors, w. split; [reflexivity|].
    split; [apply signals_only_same; reflexivity|]. split; [auto|].
    intros q Hq. inversion Hq.
  - destruct (terminate_step pid w) as (r & w1 & E & Hso & Hnone).
    cbn [terminate_all]. rewrite (bind_done _ _ _ _ _ E).
    assert (Hso1 : signals_only (pid :: ps) w w1).
    { eapply signals_only_mono; [|exact Hso]. intros q Hq.
      apply list_elem_of_singleton in Hq. subst. left. }
    assert (Hrest : ∀ q, q ≠ pid → is_running w1 q = is_running w q).
    { intros q Hq. destruct Hso as (_ & P & _). unfold is_running. rewrite P; [reflexivity|].
      intros Hin. apply list_elem_of_singleton in Hin. contradiction. }
    destruct r as [msg|].
    + destruct (IH success (errors ++ [msg]) w1) as (s' & e' & w' & E' & Hso' & Hm & Hall).
      exists s', e', w'. split; [exact E'|]. split.
      { eapply signals_only_trans; [exact Hso1|].
        eapply signals_only_mono; [|exact Hso']. intros q Hq. right. exact Hq. }
      split; [exact Hm|]. intros q Hq Hr Hs.
      destruct (decide (q = pid)) as [->|Hne]; [specialize (Hnone Hr Hs); discriminate|].
      apply elem_of_cons in Hq as [?|Hq]; [contradiction|].
      apply (Hall q Hq); [rewrite Hrest by exact Hne; exact Hr|].
      destruct Hso as (_ & _ & _ & S & _). apply S, Hs.
    + destruct (IH true errors w1) as (s' & e' & w' & E' & Hso' & Hm & Hall).
      exists s', e', w'. split; [exact E'|]. split.
      { eapply signals_only_trans; [exact Hso1|].
        eapply signals_only_mono; [|exact Hso']. intros q Hq. right. exact Hq. }
      split; intros; apply Hm; reflexivity.
Qed.

(** One turn of the loop that sends SIGKILL. *)
Lemma kill_step pid w :
  ∃ w', (if is_running w pid
         then try_except_ps (send_signal SIGKILL pid) (λ _, mret ())
         else mret ()) w = Done () w' ∧
        signals_only [pid] w w' ∧
        (signalable w pid → is_running w' pid = false).
Proof.
  destruct (is_running w pid) eqn:Er.
  2:{ exists w. split; [reflexivity|]. split; [apply signals_only_same; reflexivity|].
      intros _. exact Er. }
  destruct (send_signal_spec SIGKILL pid w) as (Hso & Hok & Hraise & Hnb).
  unfold try_except_ps.
  destruct (send_signal SIGKILL pid w) as [[] w1|e w1|k w1] eqn:E.
  - exists w1. split; [reflexivity|]. split; [exact Hso|].
    intros Hs. destruct (Hok Er Hs) as (w' & [= <-] & Hdead). apply Hdead. reflexivity.
  - destruct (Hraise e w1 eq_refl) as [-> He].
    assert (Hno : signalable w pid → False).
    { intros Hs. destruct (Hok Er Hs) as (w' & E' & _). discriminate. }
    destruct He as [-> | ->]; exists w; (split; [reflexivity|]);
      (split; [exact Hso|]); intros Hs; destruct (Hno Hs).
  - destruct (Hnb k w1 eq_refl).
Qed.

Lemma kill_all_spec ps w :
  ∃ w', kill_all ps w = Done () w' ∧
        signals_only ps w w' ∧
        (∀ q, q ∈ ps → signalable w q → is_running w' q = false).
Proof.
  revert w. induction ps as [|pid ps IH]; intros w.
  - exists w. split; [reflexivity|]. split; [apply signals_only_same; reflexivity|].
    intros q Hq. inversion Hq.
  - destruct (kill_step pid w) as (w1 & E & Hso & Hdead).
    cbn [kill_all]. rewrite bind_get_world, (bind_done _ _ _ _ _ E).
    destruct (IH w1) as (w' & E' & Hso' & Hall).
    exists w'. split; [exact E'|]. split.
    { eapply signals_only_trans.
      - eapply signals_only_mono; [|exact Hso]. intros q Hq.
        apply list_elem_of_singleton in Hq. subst. left.
      - eapply signals_only_mono; [|exact Hso']. intros q Hq. right. exact Hq. }
    intros q Hq Hs. destruct (decide (q = pid)) as [->|Hne].
    + destruct Hso' as (_ & _ & R & _). apply R, Hdead, Hs.
    + apply elem_of_cons in Hq as [?|Hq]; [contradiction|].
      apply (Hall q Hq). destruct Hso as (_ & _ & _ & S & _). apply S, Hs.
Qed.

(** The end of every path of stop_experiment that has found a record
    that says running: the elapsed time is computed and the record is
    handed to update_experiment_state, by a thread that holds the lock. *)
Lemma stop_tail_stuck {A} (r : record) (f : value → M doc A) w :
  lock w = true →
  (∀ v w0, lock w0 = true → world_of (f v w0) = w0 ∧ ∀ x w', f v w0 ≠ Done x w') →
  world_of ((elapsed_since r ≫= f) w) = w ∧ ∀ x w', (elapsed_since r ≫= f) w ≠ Done x w'.
Proof.
  intros Hl Hf. unfold elapsed_since. unfold mbind at 1. unfold M_bind at 1.
  rewrite bind_get_world.
  destruct (r !! "start_time") as [[]|]; unfold mret, M_ret, raise; simpl;
    try (split; [reflexivity | discriminate]); apply Hf; exact Hl.
Qed.

Lemma update_then_stuck {A} experiment_id (data : record) (a : A) w :
  lock w = true →
  world_of ((update_experiment_state experiment_id data ≫= λ _, mret a) w) = w ∧
  ∀ x w', (update_experiment_state experiment_id data ≫= λ _, mret a) w ≠ Done x w'.
Proof.
  intros Hl. unfold mbind, M_bind. rewrite update_experiment_state_held by exact Hl.
  split; [reflexivity | discriminate].
Qed.

(** What a stop request does once it has found processes to stop: it
    signals them and nothing else, and each of them that can be signalled
    is not running afterwards. *)
Lemma stop_experiment_found w experiment_id (r : record) (by_pid by_template found : list Z) :
  lock w = false →
  mem w !! experiment_id = Some r →
  field_is r "status" "running" = true →
  find_by_pid r (set_lock true w) = Done by_pid (set_lock true w) →
  match by_pid with
  | [] => find_by_template r
  | _ => mret by_pid
  end (set_lock true w) = Done by_template (set_lock true w) →
  match by_template with
  | [] => find_any_engine
  | _ => mret by_template
  end (set_lock true w) = Done found (set_lock true w) →
  found ≠ [] →
  signals_only found w (world_of (stop_experiment experiment_id w)) ∧
  ∀ q, q ∈ found → signalable w q →
       is_running (world_of (stop_experiment experiment_id w)) q = false.
Proof.
  intros Hl Hm Hs H1 H2 H3 Hne. unfold stop_experiment, with_lock.
  rewrite Hl, bind_get_world. change (mem (set_lock true w)) with (mem w).
  rewrite Hm, (field_is_truthy _ _ _ Hs), Hs. change (negb true) with false. cbv iota.
  rewrite (bind_done _ _ _ _ _ H1), (bind_done _ _ _ _ _ H2), (bind_done _ _ _ _ _ H3).
  destruct found as [|p0 ps0]; [contradiction|]. set (found := p0 :: ps0) in *.
  destruct (terminate_all_spec found false [] (set_lock true w))
    as (success & errors & w1 & E1 & Hso1 & _ & Hsucc).
  destruct (quiet_terminate_all found false [] (set_lock true w)) as (_ & Hk1 & _).
  rewrite E1 in Hk1. simpl in Hk1.
  rewrite (bind_done _ _ _ _ _ E1). cbv beta iota.
  assert (Hso0 : signals_only found w (set_lock true w))
    by (apply signals_only_same; reflexivity).
  assert (Hend : ∀ w2 (o : outcome doc bool),
            world_of o = w2 → (∀ x w', o ≠ Done x w') →
            signals_only found w2
              (world_of match o with
                        | Done a w' => Done a (set_lock false w')
                        | Raised e w' => Raised e (set_lock false w')
                        | Blocked k' w' => Blocked k' w'
                        end)).
  { intros w2 o Hw Hnd. destruct o as [a w'|e w'|k w']; simpl in *; subst.
    - destruct (Hnd a w2 eq_refl).
    - apply signals_only_same; reflexivity.
    - apply signals_only_same; reflexivity. }
  destruct success.
  - destruct (kill_all_spec found (set_now (now w1 + 2) w1)) as (w2 & E2 & Hso2 & Hdead).
    destruct (quiet_kill_all found (set_now (now w1 + 2) w1)) as (_ & Hk2 & _).
    rewrite E2 in Hk2. simpl in Hk2.
    assert (E2' : (sleep 2 ≫= λ _ : (), kill_all found) w1 = Done () w2) by exact E2.
    rewrite (bind_done _ _ _ _ _ E2').
    match goal with
    | |- context [(elapsed_since r ≫= ?f) w2] =>
        destruct (stop_tail_stuck r f w2) as [Hw Hnd];
          [congruence | intros v w0 Hl0; apply update_then_stuck; exact Hl0 |]
    end.
    assert (Hall : signals_only found w w2).
    { eapply signals_only_trans; [exact Hso0|].
      eapply signals_only_trans; [exact Hso1|].
      eapply signals_only_trans; [|exact Hso2]. apply signals_only_same; reflexivity. }
    specialize (Hend w2 _ Hw Hnd). split.
    + eapply signals_only_trans; [exact Hall | exact Hend].
    + intros q Hq Hsig. destruct Hend as (_ & _ & R & _). apply R.
      apply (Hdead q Hq).
      destruct Hso1 as (_ & _ & _ & S & _). intros p. simpl. apply S. exact Hsig.
  - assert (E2' : (mret () : M doc unit) w1 = Done () w1) by reflexivity.
    rewrite (bind_done _ _ _ _ _ E2').
    match goal with
    | |- context [(elapsed_since r ≫= ?f) w1] =>
        destruct (stop_tail_stuck r f w1) as [Hw Hnd];
          [congruence | intros v w0 Hl0; apply update_then_stuck; exact Hl0 |]
    end.
    specialize (Hend w1 _ Hw Hnd). split.
    + eapply signals_only_trans; [exact Hso0|].
      eapply signals_only_trans; [exact Hso1 | exact Hend].
    + intros q Hq Hsig. destruct (is_running w q) eqn:Hr.
      * specialize (Hsucc q Hq Hr Hsig). discriminate.
      * destruct Hend as (_ & _ & R & _). apply R.
        destruct Hso1 as (_ & _ & R1 & _). apply R1. exact Hr.
Qed.
End Signals.

Section StopEffects.
Context {doc : Type} `{!Json doc}.
Implicit Types w : world doc.

Lemma find_by_pid_live w (r : record) (n : Z) (p : proc) :
  r !! "process_pid" = Some (VInt n) → (0 < n)%Z →
  procs w !! n = Some p → alive p = true →
  find_by_pid r w = Done (n :: filter (λ c, is_running w c = true) (children p)) w.
Proof.
  intros Hpid Hn Hp Ha. unfold find_by_pid. rewrite Hpid. simpl.
  destruct (n =? 0)%Z eqn:E; [apply Z.eqb_eq in E; lia|]. simpl.
  unfold try_except_ps, psutil_Process, proc_children. unfold_m.
  destruct (n <? 0)%Z eqn:E'; [apply Z.ltb_lt in E'; lia|].
  rewrite Hp, Ha. simpl. rewrite Hp. reflexivity.
Qed.

(** X6. A stop request for a running record whose pid names a live
    process signals that process and its live descendants, and nothing
    else: every other process, the results directory and the store are as
    they were, and all that is added to the log of effects are signals to
    that family. Each process of the family that may be signalled is not
    running afterwards, whether or not it obeys SIGTERM. *)
Theorem stop_experiment_kills_family w (experiment_id : string) (r : record)
    (n : Z) (p : proc) :
  lock w = false →
  mem w !! experiment_id = Some r →
  field_is r "status" "running" = true →
  r !! "process_pid" = Some (VInt n) →
  (0 < n)%Z →
  procs w !! n = Some p →
  alive p = true →
  let family := n :: filter (λ c, is_running w c = true) (children p) in
  let w' := world_of (stop_experiment experiment_id w) in
  (∀ q, q ∈ family → signalable w q → is_running w' q = false) ∧
  (∃ sigs, effects w' = effects w ++ sigs ∧
           Forall (λ e, ∃ q s, e = Signal q s ∧ q ∈ family) sigs) ∧
  (∀ q, q ∉ family → procs w' !! q = procs w !! q) ∧
  results w' = results w ∧
  mem w' = mem w.
Proof.
  intros Hl Hm Hs Hpid Hn Hp Ha family w'.
  assert (H1 : find_by_pid r (set_lock true w) = Done family (set_lock true w))
    by exact (find_by_pid_live (set_lock true w) r n p Hpid Hn Hp Ha).
  destruct (stop_experiment_found w experiment_id r family family family Hl Hm Hs H1
              eq_refl eq_refl) as [Hso Hdead]; [discriminate|].
  fold w' in Hso, Hdead. destruct Hso as (Hsig & Hrest & _ & _ & Hres).
  split; [exact Hdead|]. split; [exact Hsig|]. split; [exact Hrest|].
  split; [exact Hres|]. apply stop_experiment_mem. exact Hl.
Qed.

Lemma find_by_template_blind w (r : record) :
  r !! "template" = None → find_by_template r w = Done [] w.
Proof. intros Ht. unfold find_by_template. rewrite Ht. reflexivity. Qed.

(** X7. The record that the loop of the worker refreshes does not carry
    the template path, so the scan of the process table by template finds
    nothing. A stop request for such a record whose pid names no live
    process (the engine has just exited, or the dashboard was restarted)
    falls back on every engine process: each live process that has
    [talkingtomachines] in its command line and may be signalled is not
    running afterwards, whatever run it belongs to. *)
Theorem stop_experiment_sweeps_engines w (experiment_id : string) (l : wlocal) (t : Z)
    (proc_info : option record) (count : nat) (q : Z) (pq : proc) :
  lock w = false →
  mem w !! experiment_id = Some (tick_record l t proc_info count) →
  (0 ≤ process l)%Z →
  is_running w (process l) = false →
  procs w !! q = Some pq →
  alive pq = true →
  is_engine pq = true →
  denied pq = false →
  is_running (world_of (stop_experiment experiment_id w)) q = false.
Proof.
  intros Hl Hm Hpos Hgone Hq Ha He Hd.
  set (r := tick_record l t proc_info count) in *.
  assert (Hs : field_is r "status" "running" = true) by reflexivity.
  assert (H1 : find_by_pid r (set_lock true w) = Done [] (set_lock true w)).
  { apply find_by_pid_stale. unfold pid_is_stale.
    change (r !! "process_pid") with (Some (VInt (process l))). split; assumption. }
  assert (H2 : find_by_template r (set_lock true w) = Done [] (set_lock true w))
    by (apply find_by_template_blind; reflexivity).
  assert (Hin : q ∈ (filter (λ e, is_engine e.2 = true) (process_iter (set_lock true w))).*1).
  { apply list_elem_of_fmap. exists (q, pq). split; [reflexivity|].
    apply list_elem_of_filter. split; [exact He|].
    apply process_iter_spec. split; assumption. }
  destruct (stop_experiment_found w experiment_id r [] [] _ Hl Hm Hs H1 H2 eq_refl)
    as [_ Hdead].
  { intros E. rewrite E in Hin. inversion Hin. }
  apply (Hdead q Hin). intros p Hp. congruence.
Qed.
End StopEffects.

(** X6 on a machine where the engine of the run has a child that ignores
    SIGTERM, beside the engine of another run. *)
Lemma stop_experiment_kills_family_witness :
  lock w_family = false ∧
  mem w_family !! "t_1" = Some rec_running ∧
  field_is rec_running "status" "running" = true ∧
  rec_running !! "process_pid" = Some (VInt 4242) ∧
  (0 < 4242)%Z ∧
  procs w_family !! 4242%Z = Some engine_mine ∧
  alive engine_mine = true ∧
  let family := 4242%Z :: filter (λ c, is_running w_family c = true) (children engine_mine) in
  let w' := world_of (stop_experiment "t_1" w_family) in
  (∀ q, q ∈ family → signalable w_family q → is_running w' q = false) ∧
  (∃ sigs, effects w' = effects w_family ++ sigs ∧
           Forall (λ e, ∃ q s, e = Signal q s ∧ q ∈ family) sigs) ∧
  (∀ q, q ∉ family → procs w' !! q = procs w_family !! q) ∧
  results w' = results w_family ∧
  mem w' = mem w_family.
Proof.
  split; [reflexivity|]. split; [reflexivity|]. split; [reflexivity|].
  split; [reflexivity|]. split; [lia|]. split; [reflexivity|]. split; [reflexivity|].
  apply (stop_experiment_kills_family w_family "t_1" rec_running 4242 engine_mine);
    try reflexivity; lia.
Defined.

(** X7 on a machine that was restarted while another run goes on. *)
Lemma stop_experiment_sweeps_engines_witness :
  lock w_restarted = false ∧
  mem w_restarted !! "t.xlsx_20240101_120000" = Some (tick_record l_loop 1010 None 0) ∧
  (0 ≤ process l_loop)%Z ∧
  is_running w_restarted (process l_loop) = false ∧
  procs w_restarted !! 7%Z = Some engine_other ∧
  alive engine_other = true ∧
  is_engine engine_other = true ∧
  denied engine_other = false ∧
  is_running (world_of (stop_experiment "t.xlsx_20240101_120000" w_restarted)) 7 = false.
Proof.
  split; [reflexivity|]. split; [reflexivity|]. split; [simpl; lia|].
  split; [reflexivity|]. split; [reflexivity|]. split; [reflexivity|].
  split; [reflexivity|]. split; [reflexivity|].
  apply (stop_experiment_sweeps_engines w_restarted "t.xlsx_20240101_120000" l_loop 1010
           None 0 7 engine_other); try reflexivity. simpl; lia.
Defined.

(** ** File names: what the globs list and what has a suffix *)

Lemma str_append_nil (s : string) : "" +:+ s = s.
Proof. reflexivity. Qed.

Lemma str_append_cons (c : ascii) (a b : string) : String c a +:+ b = String c (a +:+ b).
Proof. reflexivity. Qed.

Lemma str_length_append (a b : string) :
  String.length (a +:+ b) = String.length a + String.length b.
Proof.
  induction a as [|c a IH]; [reflexivity|].
  rewrite str_append_cons. simpl. rewrite IH. reflexivity.
Qed.

Lemma str_substring_all (s : string) : String.substring 0 (String.length s) s = s.
Proof. induction s as [|c s IH]; simpl; [reflexivity | rewrite IH; reflexivity]. Qed.

Lemma str_split (s : string) (k : nat) :
  k ≤ String.length s →
  String.substring 0 k s +:+ String.substring k (String.length s - k) s = s.
Proof.
  revert k. induction s as [|c s IH]; intros k Hk; simpl in *.
  - destruct k; [reflexivity | lia].
  - destruct k as [|k]; simpl.
    + rewrite str_substring_all. reflexivity.
    + rewrite str_append_cons. f_equal. apply IH. lia.
Qed.

Lemma ends_with_split (ext name : string) :
  ends_with ext name = true → ∃ pre, name = pre +:+ ext.
Proof.
  unfold ends_with. intros H. apply andb_true_iff in H as [Hle Heq].
  apply Nat.leb_le in Hle. apply String.eqb_eq in Heq.
  exists (String.substring 0 (String.length name - String.length ext) name).
  pose proof (str_split name (String.length name - String.length ext)) as Hs.
  replace (String.length name - (String.length name - String.length ext))
    with (String.length ext) in Hs by lia.
  rewrite Heq in Hs. symmetry. apply Hs. lia.
Qed.

Lemma rfind_dot_app (pre s : string) :
  rfind_dot (pre +:+ s) =
    match rfind_dot s with
    | Some i => Some (String.length pre + i)
    | None => rfind_dot pre
    end.
Proof.
  induction pre as [|c pre IH].
  - rewrite str_append_nil. destruct (rfind_dot s); reflexivity.
  - rewrite str_append_cons. simpl. rewrite IH. destruct (rfind_dot s); reflexivity.
Qed.

Lemma str_substring_app_r (pre s : string) :
  String.substring (String.length pre) (String.length s) (pre +:+ s) = s.
Proof.
  induction pre as [|c pre IH]; [apply str_substring_all|].
  rewrite str_append_cons. exact IH.
Qed.

(** A name that [glob("*" + ext)] lists has the suffix [ext], unless it
    is [ext] itself. *)
Lemma ends_with_suffix (e name : string) :
  rfind_dot e = None → e ≠ "" →
  ends_with (String "."%char e) name = true →
  name ≠ String "."%char e →
  suffix name = String "."%char e.
Proof.
  intros Hnodot He Hends Hne. destruct (ends_with_split _ _ Hends) as [pre ->].
  unfold suffix. rewrite rfind_dot_app. simpl rfind_dot. rewrite Hnodot. simpl.
  rewrite str_length_append. simpl String.length.
  assert (Hpre : 0 < String.length pre).
  { destruct pre; [contradiction Hne; reflexivity | simpl; lia]. }
  assert (Hlen : 0 < String.length e).
  { destruct e; [contradiction He; reflexivity | simpl; lia]. }
  replace (0 <? String.length pre + 0) with true by (symmetry; apply Nat.ltb_lt; lia).
  replace (String.length pre + 0 <? String.length pre + S (String.length e) - 1)
    with true by (symmetry; apply Nat.ltb_lt; lia).
  simpl andb. cbv iota.
  replace (String.length pre + 0) with (String.length pre) by lia.
  replace (String.length pre + S (String.length e) - String.length pre)
    with (String.length (String "."%char e)) by (simpl; lia).
  apply str_substring_app_r.
Qed.

Lemma glob_recognized (name : string) :
  ends_with ".csv" name = true ∨ ends_with ".json" name = true →
  name ≠ ".csv" → name ≠ ".json" → recognized name = true.
Proof.
  intros [H|H] H1 H2; unfold recognized.
  - rewrite (ends_with_suffix "csv" name) by (try reflexivity; done). reflexivity.
  - rewrite (ends_with_suffix "json" name) by (try reflexivity; done).
    apply orb_true_r.
Qed.

(** ** Result relocation: which files are moved *)

Section RelocationMore.
Variables (before : gset string) (folder : string) (fails : string → bool).
Implicit Types res : gmap string entry.

Lemma relocate_results_moves res files0 n data :
  res !! folder = Some (Dir files0) →
  res !! n = Some (File data) →
  n ∉ before → fails n = false →
  ends_with ".csv" n = true ∨ ends_with ".json" n = true →
  n ∈ (relocate_results before folder fails res).2.
Proof.
  intros Hf Hn Hb Hok Hext.
  pose proof (reloc_inv_init before folder fails res files0 Hf) as Hinv0.
  set (st1 := relocate_pass ".csv" before folder fails (res, [])).
  assert (Hinv1 : reloc_inv before folder fails res files0 st1)
    by (apply reloc_inv_fold; exact Hinv0).
  unfold relocate_results. fold st1.
  destruct (decide (n ∈ st1.2)) as [Hin|Hnin];
    [unfold relocate_pass; apply relocate_fold_grows; exact Hin|].
  destruct Hext as [Hcsv|Hjson].
  - exfalso. apply Hnin. unfold st1, relocate_pass.
    eapply (relocate_fold_moves _ _ _ res files0); eauto.
    apply elem_of_glob. simpl. split; [exact Hcsv|]. rewrite Hn. eexists; reflexivity.
  - unfold relocate_pass.
    eapply (relocate_fold_moves _ _ _ res files0); eauto.
    apply elem_of_glob. split; [exact Hjson|].
    destruct Hinv1 as (_ & _ & _ & Hrest).
    assert (n ≠ folder) by (intros ->; congruence).
    rewrite (Hrest n Hnin) by assumption. rewrite Hn. eexists; reflexivity.
Qed.

(** X8. The list files_moved, characterised: a name is in it exactly
    when it is a regular file of the results root that one of the two
    globs lists, it is not among the names recorded before the run, and
    its move does not raise. Each such file is then in the folder of the
    run with its data and no longer in the root. *)
Theorem relocation_moved_iff res (files0 : gmap string string) (n : string) :
  res !! folder = Some (Dir files0) →
  let out := relocate_results before folder fails res in
  (n ∈ out.2 ↔
     (∃ data, res !! n = Some (File data)) ∧ (n ∉ before) ∧ fails n = false ∧
     (ends_with ".csv" n = true ∨ ends_with ".json" n = true)) ∧
  (n ∈ out.2 →
     out.1 !! n = None ∧
     ∃ files data, out.1 !! folder = Some (Dir files) ∧
                   res !! n = Some (File data) ∧ files !! n = Some data).
Proof.
  intros Hf out.
  destruct (relocate_results_inv before folder fails res files0 Hf)
    as (_ & (files & Hfl & _ & Hsrc) & Hgone & _).
  fold out in Hfl, Hsrc, Hgone. split; [split|].
  - intros Hn. destruct (Hsrc n Hn) as (data & Hr & _).
    destruct (Hgone n Hn) as (_ & Hb & Hok).
    split; [exists data; exact Hr|]. split; [exact Hb|]. split; [exact Hok|].
    unfold out, relocate_results, relocate_pass in Hn.
    apply relocate_fold_from in Hn as [Hn|Hn].
    + apply relocate_fold_from in Hn as [Hn|Hn]; [inversion Hn|].
      apply elem_of_glob in Hn as [He _]. left. exact He.
    + apply elem_of_glob in Hn as [He _]. right. exact He.
  - intros ((data & Hr) & Hb & Hok & Hext).
    exact (relocate_results_moves res files0 n data Hf Hr Hb Hok Hext).
  - intros Hn. destruct (Hsrc n Hn) as (data & Hr & Hd).
    split; [apply (Hgone n Hn)|]. exists files, data. repeat split; assumption.
Qed.

Lemma relocate_fold_noop ns (st : gmap string entry * list string) :
  (∀ n, n ∈ ns → relocate_one before folder fails st n = st) →
  foldl (relocate_one before folder fails) st ns = st.
Proof.
  induction ns as [|n ns IH]; intros Hall; [reflexivity|].
  simpl. rewrite (Hall n) by left. apply IH. intros m Hm. apply Hall. right. exact Hm.
Qed.

(** X9. Relocation is idempotent: run again on the directory it leaves,
    with the same names recorded before the run and the same failing
    moves, it moves nothing and changes nothing. *)
Theorem relocation_idempotent res :
  let out := relocate_results before folder fails res in
  relocate_results before folder fails out.1 = (out.1, []).
Proof.
  cbv zeta. destruct (res !! folder) as [[data|files0]|] eqn:Hf.
  2:{ pose proof (relocate_results_inv before folder fails res files0 Hf)
        as (_ & (files & Hfl & _) & Hgone & Hrest).
      set (out := relocate_results before folder fails res) in *.
      assert (Hnoop : ∀ ext n, ext = ".csv" ∨ ext = ".json" → n ∈ glob ext out.1 →
                relocate_one before folder fails (out.1, []) n = (out.1, [])).
      { intros ext n Hext Hn. apply elem_of_glob in Hn as [Hends _].
        unfold relocate_one, move_into. simpl.
        destruct (out.1 !! n) as [[data|fs]|] eqn:En; try reflexivity.
        destruct (decide (n ∈ before)) as [Hb|Hb]; [reflexivity|].
        rewrite Hfl. destruct (fails n) eqn:Hok; [reflexivity|]. exfalso.
        assert (Hnm : n ∉ out.2).
        { intros Hin. destruct (Hgone n Hin) as [E _]. congruence. }
        assert (Hnf : n ≠ folder) by (intros ->; congruence).
        apply Hnm. apply (relocate_results_moves res files0 n data Hf); auto.
        - rewrite <- (Hrest n Hnm Hnf). exact En.
        - destruct Hext as [-> | ->]; [left | right]; exact Hends. }
      unfold relocate_results at 1. unfold relocate_pass.
      rewrite (relocate_fold_noop _ (out.1, []))
        by (intros n Hn; apply (Hnoop ".csv"); [left; reflexivity | exact Hn]).
      apply relocate_fold_noop.
      intros n Hn. apply (Hnoop ".json"); [right; reflexivity | exact Hn]. }
  all: unfold relocate_results, relocate_pass;
    rewrite !(relocate_fold_no_folder before folder fails _ (res, []))
      by (simpl; intros ?; congruence);
    reflexivity.
Qed.
End RelocationMore.

(** X10. What the relocation is meant to do, under a condition on the
    names in the root: when no regular file named [.csv] or
    [.json] lies there and every move succeeds, the files moved are
    exactly the new ones, each lies in the folder of the run with its
    data, and every other entry of the root is where it was. *)
Theorem relocation_moves_exactly_new (res0 : gmap string entry) (new : gmap string string)
    (folder : string) (files0 : gmap string string) :
  res0 !! folder = Some (Dir files0) →
  (∀ n data, new !! n = Some data → res0 !! n = None ∧ recognized n = true) →
  (∀ data, res0 !! ".csv" ≠ Some (File data)) →
  (∀ data, res0 !! ".json" ≠ Some (File data)) →
  let out := relocate_results (snapshot_results res0) folder (λ _, false)
               (add_results new res0) in
  out.2 ≡ₚ (map_to_list new).*1 ∧
  (∀ n data, new !! n = Some data →
             out.1 !! n = None ∧
             ∃ files, out.1 !! folder = Some (Dir files) ∧ files !! n = Some data) ∧
  (∀ n, new !! n = None → n ≠ folder → out.1 !! n = res0 !! n).
Proof.
  intros Hfolder Hnew Hcsv Hjson.
  assert (Hplain : ∀ n data, res0 !! n = Some (File data) →
            ends_with ".csv" n = true ∨ ends_with ".json" n = true →
            recognized n = true).
  { intros n data Hn Hext. apply glob_recognized; [exact Hext| |];
      intros ->; [exact (Hcsv data Hn) | exact (Hjson data Hn)]. }
  destruct (relocation_partition res0 new folder files0 Hfolder Hnew Hplain)
    as (Hperm & Hmoved & _).
  cbv zeta. split; [exact Hperm|]. split; [exact Hmoved|].
  intros n Hn Hnf.
  assert (Hfolder1 : add_results new res0 !! folder = Some (Dir files0)).
  { rewrite lookup_add_results.
    destruct (new !! folder) as [d|] eqn:E; [|exact Hfolder].
    destruct (Hnew _ _ E) as [E' _]. congruence. }
  destruct (relocate_results_inv (snapshot_results res0) folder (λ _, false)
              (add_results new res0) files0 Hfolder1) as (_ & _ & _ & Hrest).
  rewrite Hrest; [rewrite lookup_add_results, Hn; reflexivity | | exact Hnf].
  intros Hin. rewrite Hperm in Hin.
  apply list_elem_of_fmap in Hin as ([m d] & -> & Hin).
  apply elem_of_map_to_list in Hin. simpl in Hn. congruence.
Qed.

(** X8 for a new result of an ordinary run. *)
Lemma relocation_moved_iff_witness :
  add_results new_results res_plain !! "F" = Some (Dir ∅) ∧
  let out := relocate_results (snapshot_results res_plain) "F" (λ _, false)
               (add_results new_results res_plain) in
  ("out.csv" ∈ out.2 ↔
     (∃ data, add_results new_results res_plain !! "out.csv" = Some (File data)) ∧
     ("out.csv" ∉ snapshot_results res_plain) ∧ (λ _ : string, false) "out.csv" = false ∧
     (ends_with ".csv" "out.csv" = true ∨ ends_with ".json" "out.csv" = true)) ∧
  ("out.csv" ∈ out.2 →
     out.1 !! "out.csv" = None ∧
     ∃ files data, out.1 !! "F" = Some (Dir files) ∧
                   add_results new_results res_plain !! "out.csv" = Some (File data) ∧
                   files !! "out.csv" = Some data).
Proof.
  split; [reflexivity|].
  apply (relocation_moved_iff (snapshot_results res_plain) "F" (λ _, false)
           (add_results new_results res_plain) ∅ "out.csv").
  reflexivity.
Defined.

Lemma new_results_fresh n data :
  new_results !! n = Some data → res_plain !! n = None ∧ recognized n = true.
Proof.
  unfold new_results. simpl. intros Hn.
  destruct (decide (n = "out.csv")) as [->|H1]; [split; reflexivity|].
  destruct (decide (n = "out.json")) as [->|H2]; [split; reflexivity|].
  rewrite !lookup_insert_ne, lookup_empty in Hn by congruence. discriminate.
Qed.

(** X10 for the two new results of an ordinary run. *)
Lemma relocation_moves_exactly_new_witness :
  res_plain !! "F" = Some (Dir ∅) ∧
  (∀ n data, new_results !! n = Some data → res_plain !! n = None ∧ recognized n = true) ∧
  (∀ data, res_plain !! ".csv" ≠ Some (File data)) ∧
  (∀ data, res_plain !! ".json" ≠ Some (File data)) ∧
  let out := relocate_results (snapshot_results res_plain) "F" (λ _, false)
               (add_results new_results res_plain) in
  out.2 ≡ₚ (map_to_list new_results).*1 ∧
  (∀ n data, new_results !! n = Some data →
             out.1 !! n = None ∧
             ∃ files, out.1 !! "F" = Some (Dir files) ∧ files !! n = Some data) ∧
  (∀ n, new_results !! n = None → n ≠ "F" → out.1 !! n = res_plain !! n).
Proof.
  split; [reflexivity|]. split; [exact new_results_fresh|].
  split; [intros data; discriminate|]. split; [intros data; discriminate|].
  apply (relocation_moves_exactly_new res_plain new_results "F" ∅).
  - reflexivity.
  - exact new_results_fresh.
  - intros data; discriminate.
  - intros data; discriminate.
Defined.

(** ** The worker at its start and at its end *)

Section WorkerMore.
Context {doc : Type} `{!Json doc}.
Implicit Types w : world doc.
Implicit Types l : wlocal.
Implicit Types c : config doc.

Lemma commit_last w experiment_id data :
  lock w = false →
  ∃ w', commit experiment_id data ThenDone w = Done () w' ∧
        mem w' = <[experiment_id := data]> (mem w) ∧ lock w' = false ∧
        procs w' = procs w ∧ results w' = results w ∧ effects w' = effects w.
Proof.
  intros Hl. unfold commit. unfold_m.
  destruct (update_experiment_state_free w experiment_id data Hl)
    as (w1 & -> & Hm & Hk & Hp & Hr & He & _).
  exists w1. split; [reflexivity|]. repeat split; assumption.
Qed.

(** A stop request for a record that does not say running returns False
    and changes nothing. *)
Lemma stop_experiment_skips w experiment_id (r : record) :
  lock w = false → mem w !! experiment_id = Some r →
  field_is r "status" "running" = false →
  stop_experiment experiment_id w = Done false w.
Proof.
  intros Hl Hm Hs. unfold stop_experiment, with_lock. rewrite Hl. unfold_m. simpl.
  rewrite Hm. destruct (dict_truthy r); simpl; rewrite ?Hs; simpl;
    rewrite set_lock_release by assumption; reflexivity.
Qed.

(** X11. When the engine cannot be started, the next two steps of the
    worker record the run as an error with the message of the exception,
    and end the worker; no process is spawned or signalled. *)
Theorem spawn_failure_recorded c (i i' : winput) :
  at_pc (worker c) = PSpawn →
  spawn i = None →
  lock (sys c) = false →
  ∃ c', run [Work i; Work i'] c = Some c' ∧
        at_pc (worker c') = PDone ∧
        mem (sys c') !! experiment_id (worker c) =
          Some (error_record FileNotFoundError (worker c) (now (sys c))) ∧
        stored_status c' (experiment_id (worker c)) = Some (VStr "error") ∧
        procs (sys c') = procs (sys c) ∧
        effects (sys c') = effects (sys c).
Proof.
  destruct c as [l w]. simpl. intros Hpc Hs Hl.
  set (data := error_record FileNotFoundError l (now w)).
  assert (E1 : run_experiment_async_step i l w = Some (goto (PUpdate data ThenDone) l, w)).
  { unfold run_experiment_async_step. rewrite Hpc, Hs.
    unfold start_engine, Popen. rewrite Hs. reflexivity. }
  destruct (commit_last w (experiment_id l) data Hl) as (w2 & E & Hm & Hk & Hp & _ & He).
  assert (E2 : run_experiment_async_step i' (goto (PUpdate data ThenDone) l) w
               = Some (goto PDone (goto (PUpdate data ThenDone) l), w2)).
  { unfold run_experiment_async_step. simpl at_pc. cbv iota. rewrite Hl.
    simpl experiment_id. rewrite E. reflexivity. }
  exists (Config (goto PDone (goto (PUpdate data ThenDone) l)) w2).
  split; [unfold run, step; simpl worker; simpl sys; rewrite E1; simpl worker; simpl sys;
          rewrite E2; reflexivity|].
  split; [reflexivity|]. unfold stored_status. simpl. rewrite Hm, lookup_insert_eq.
  split; [reflexivity|]. split; [reflexivity|]. split; assumption.
Qed.

(** X12. When the engine is spawned but the write of the mode to its
    standard input fails, the worker records the run as an error and
    ends, and the process it has spawned is left running: nothing has
    signalled it, the record of the run carries no pid, and a stop
    request for the run returns False without looking for a process. *)
Theorem broken_pipe_orphans_engine c (i i' : winput) (pid : Z) :
  at_pc (worker c) = PSpawn →
  spawn i = Some pid →
  procs (sys c) !! pid = None →
  pipe_ok i = false →
  lock (sys c) = false →
  ∃ c', run [Work i; Work i'] c = Some c' ∧
        at_pc (worker c') = PDone ∧
        stored_status c' (experiment_id (worker c)) = Some (VStr "error") ∧
        (mem (sys c') !! experiment_id (worker c) ≫= λ r, r !! "process_pid") = Some VNone ∧
        is_running (sys c') pid = true ∧
        effects (sys c') =
          effects (sys c) ++ [Spawn pid (engine_argv (template_path (worker c)))] ∧
        stop_experiment (experiment_id (worker c)) (sys c') = Done false (sys c').
Proof.
  destruct c as [l w]. simpl. intros Hpc Hs Hfresh Hpipe Hl.
  set (w1 := log_effect (Spawn pid (engine_argv (template_path l)))
               (set_procs (<[pid := Proc (engine_argv (template_path l)) [] true 0 false false]>
                             (procs w)) w)).
  set (data := error_record BrokenPipeError l (now w1)).
  assert (E1 : run_experiment_async_step i l w = Some (goto (PUpdate data ThenDone) l, w1)).
  { unfold run_experiment_async_step. rewrite Hpc, Hs.
    rewrite bool_decide_eq_false_2 by (rewrite Hfresh; intros [? ?]; discriminate).
    unfold start_engine, Popen, stdin_write. rewrite Hs, Hpipe. reflexivity. }
  assert (Hl1 : lock w1 = false) by exact Hl.
  destruct (commit_last w1 (experiment_id l) data Hl1) as (w2 & E & Hm & Hk & Hp & _ & He).
  assert (E2 : run_experiment_async_step i' (goto (PUpdate data ThenDone) l) w1
               = Some (goto PDone (goto (PUpdate data ThenDone) l), w2)).
  { unfold run_experiment_async_step. simpl at_pc. cbv iota. rewrite Hl1.
    simpl experiment_id. rewrite E. reflexivity. }
  exists (Config (goto PDone (goto (PUpdate data ThenDone) l)) w2).
  split; [unfold run, step; simpl worker; simpl sys; rewrite E1; simpl worker; simpl sys;
          rewrite E2; reflexivity|].
  split; [reflexivity|]. unfold stored_status. simpl. rewrite Hm, lookup_insert_eq.
  split; [reflexivity|]. split; [reflexivity|].
  split; [unfold is_running; rewrite Hp; simpl; rewrite lookup_insert_eq; reflexivity|].
  split; [rewrite He; reflexivity|].
  apply (stop_experiment_skips w2 _ data);
    [exact Hk | rewrite Hm; apply lookup_insert_eq | reflexivity].
Qed.

Lemma bind_eq {A B} (c : M doc A) (f : A → M doc B) w :
  (c ≫= f) w = match c w with
               | Done a w' => f a w'
               | Raised e w' => Raised e w'
               | Blocked k w' => Blocked k w'
               end.
Proof. reflexivity. Qed.

Lemma popen_signal_eq s pid w :
  popen_signal s pid w = if is_running w pid then send_signal s pid w else Done () w.
Proof. unfold popen_signal. rewrite bind_get_world. destruct (is_running w pid); reflexivity. Qed.

Lemma wait_exit_eq pid w :
  wait_exit pid w = if is_running w pid
                    then Raised TimeoutExpired (set_now (now w + 5) w)
                    else Done () w.
Proof. unfold wait_exit. rewrite bind_get_world. destruct (is_running w pid); reflexivity. Qed.

(** What [terminate_process] achieves on a process that may be
    signalled: SIGTERM, and SIGKILL after five seconds if the process is
    still there. *)
Lemma terminate_process_kills w pid :
  signalable w pid →
  ∃ w', terminate_process pid w = Done () w' ∧ is_running w' pid = false ∧
        mem w' = mem w ∧ lock w' = lock w.
Proof.
  intros Hs.
  destruct (terminate_process_done w pid) as (w' & E & Hm & Hk).
  exists w'. split; [exact E|]. split; [|split; assumption].
  unfold terminate_process, try_except in E. rewrite bind_eq, popen_signal_eq in E.
  destruct (is_running w pid) eqn:Er.
  2:{ rewrite wait_exit_eq, Er in E. injection E as <-. exact Er. }
  destruct (send_signal_spec SIGTERM pid w) as (Hso & Hok & _).
  destruct (Hok Er Hs) as (w1 & E1 & _). rewrite E1 in E, Hso. simpl in Hso.
  rewrite wait_exit_eq in E.
  destruct (is_running w1 pid) eqn:Er1.
  2:{ injection E as <-. exact Er1. }
  rewrite popen_signal_eq in E.
  change (is_running (set_now (now w1 + 5) w1) pid) with (is_running w1 pid) in E.
  rewrite Er1 in E.
  assert (Hs1 : signalable (set_now (now w1 + 5) w1) pid).
  { destruct Hso as (_ & _ & _ & S & _). intros p. simpl. apply S. exact Hs. }
  destruct (send_signal_spec SIGKILL pid (set_now (now w1 + 5) w1)) as (_ & Hok2 & _).
  destruct (Hok2 Er1 Hs1) as (w2 & E2 & Hdead). rewrite E2 in E.
  injection E as <-. apply Hdead. reflexivity.
Qed.

(** X13. When the worker, in its loop, finds the record of its run
    stopped, it terminates the engine: a process that may be signalled is
    not running after the step, whether or not it obeys SIGTERM. The
    worker leaves its loop, and the record it then prepares says stopped,
    whatever the exit code. *)
Theorem observed_stop_terminates (i : winput) l w (r : record) :
  at_pc l = PCheck →
  lock w = false →
  mem w !! experiment_id l = Some r →
  field_is r "status" "stopped" = true →
  signalable w (process l) →
  ∃ l1 w1, run_experiment_async_step i l w = Some (l1, w1) ∧
           at_pc l1 = PFinalize ∧
           is_running w1 (process l) = false ∧
           mem w1 = mem w ∧
           ∀ i', ∃ l2 w2 data,
             run_experiment_async_step i' l1 w1 = Some (l2, w2) ∧
             at_pc l2 = PUpdate data ThenDone ∧
             data !! "status" = Some (VStr "stopped").
Proof.
  intros Hpc Hl Hm Hs Hsig. unfold run_experiment_async_step at 1. rewrite Hpc, Hl.
  unfold check_stop. rewrite (bind_done _ _ _ _ _ (get_experiment_state_free w _ Hl)).
  rewrite Hm, (field_is_truthy _ _ _ Hs), Hs. change (true && true) with true. cbv iota.
  destruct (terminate_process_kills w (process l) Hsig) as (w1 & E & Hdead & Hm1 & Hk1).
  rewrite (bind_done _ _ _ _ _ E). unfold mret, M_ret. simpl.
  eexists _, w1. split; [reflexivity|]. simpl. split; [reflexivity|].
  split; [exact Hdead|]. split; [exact Hm1|].
  intros i'. unfold run_experiment_async_step. simpl.
  eexists _, _, _. split; [reflexivity|]. simpl. split; [reflexivity|].
  unfold final_record, dict. simpl. rewrite lookup_insert_eq.
  unfold final_status. rewrite (field_is_truthy _ _ _ Hs), Hs. reflexivity.
Qed.
End WorkerMore.

(** ** The worker among the other threads, again *)

Section InterleavingsMore.
Context {doc : Type} `{!Json doc}.
Implicit Types w : world doc.
Implicit Types l : wlocal.
Implicit Types c : config doc.
Implicit Types e : event doc.

(** Once the worker has ended, normally or with an exception, it stays
    where it is and the store is not written any more. *)
Lemma step_ended e c c' :
  step e c = Some c' →
  at_pc (worker c) = PDone ∨ (∃ x, at_pc (worker c) = PCrashed x) →
  at_pc (worker c') = at_pc (worker c) ∧ mem (sys c') = mem (sys c).
Proof.
  intros Hstep Hend. split.
  - destruct c as [l w]. unfold step in Hstep. simpl in *.
    destruct e as [i|id|code|name data|err line|dt|r wm].
    + unfold run_experiment_async_step in Hstep.
      destruct Hend as [E|[x E]]; rewrite E in Hstep; discriminate.
    + destruct (lock w); [discriminate|]. injection Hstep as <-. reflexivity.
    + destruct (procs w !! process l) as [p|]; [|discriminate].
      destruct (alive p); [|discriminate]. injection Hstep as <-. reflexivity.
    + destruct (results w !! name) as [[d|fs]|]; try discriminate;
        injection Hstep as <-; reflexivity.
    + injection Hstep as <-. reflexivity.
    + destruct (0 <=? dt)%Z; [|discriminate]. injection Hstep as <-. reflexivity.
    + injection Hstep as <-. reflexivity.
  - destruct (step_spec e c c' Hstep) as (_ & _ & _ & [[Hm _]|(d & k & Hpc & _)]);
      [exact Hm|].
    destruct Hend as [E|[x E]]; congruence.
Qed.

Lemma run_ended es c c' :
  run es c = Some c' →
  at_pc (worker c) = PDone ∨ (∃ x, at_pc (worker c) = PCrashed x) →
  at_pc (worker c') = at_pc (worker c) ∧ mem (sys c') = mem (sys c).
Proof.
  revert c. induction es as [|e es IH]; intros c Hrun Hend; simpl in Hrun.
  - injection Hrun as <-. split; reflexivity.
  - destruct (step e c) as [c1|] eqn:E; [|discriminate].
    destruct (step_ended e c c1 E Hend) as [Hpc Hm].
    destruct (IH c1 Hrun) as [Hpc' Hm']; [rewrite Hpc; exact Hend|].
    split; congruence.
Qed.

(** X14. The folder of the run is created before the [try] block. When
    its name is taken by a regular file, the exception leaves the worker:
    the thread ends without a record of the run having been written, and
    whatever happens afterwards the store is as it was. *)
Theorem folder_name_taken_crashes c (i : winput) (data : string) (es : list (event doc)) c' :
  at_pc (worker c) = PInit →
  results (sys c) !! (stem (template_path (worker c)) +:+ "_" +:+ stamp i)
    = Some (File data) →
  run (Work i :: es) c = Some c' →
  at_pc (worker c') = PCrashed FileExistsError ∧
  mem (sys c') = mem (sys c) ∧
  ∀ i', step (Work i') c' = None.
Proof.
  destruct c as [l w]. simpl worker. simpl sys. intros Hpc Hres Hrun.
  assert (E1 : step (Work i) (Config l w)
               = Some (Config (goto (PCrashed FileExistsError) l) w)).
  { unfold step. simpl worker. simpl sys.
    unfold run_experiment_async_step, mkdir_exist_ok. rewrite Hpc, Hres. reflexivity. }
  cbn [run] in Hrun. rewrite E1 in Hrun.
  destruct (run_ended es _ c' Hrun) as [Hpc' Hm]; [right; eexists; reflexivity|].
  simpl in Hpc', Hm. split; [exact Hpc'|]. split; [exact Hm|].
  intros i'. unfold step, run_experiment_async_step. rewrite Hpc'. reflexivity.
Qed.

Lemma final_status_terminal l t (st : option record) (rc : Z) count moved :
  is_terminal (final_record l t (final_status st rc) count moved rc) = true ∧
  field_is (final_record l t (final_status st rc) count moved rc) "status" "running" = false ∧
  final_record l t (final_status st rc) count moved rc !! "process_pid" = Some VNone.
Proof.
  unfold final_status.
  destruct st as [r|]; [destruct (dict_truthy r && field_is r "status" "stopped")|];
    destruct (rc =? 0)%Z; repeat split; reflexivity.
Qed.

(** X16. Once the engine has exited, three steps of the worker taken
    with the lock free end it: the poll sees the exit, the results are
    relocated, and a terminal record of the run is stored. *)
Theorem worker_finishes_after_exit c (rc : Z) (i1 i2 i3 : winput) :
  at_pc (worker c) = PPoll →
  poll (sys c) (process (worker c)) = Some rc →
  lock (sys c) = false →
  ∃ c', run [Work i1; Work i2; Work i3] c = Some c' ∧
        at_pc (worker c') = PDone ∧
        stored_terminal c' (experiment_id (worker c)) = true ∧
        lock (sys c') = false ∧
        results (sys c') =
          (relocate_results (existing_files_before (worker c))
             (experiment_folder (worker c)) (move_fails i2) (results (sys c))).1.
Proof.
  destruct c as [l w]. simpl. intros Hpc Hpoll Hl.
  assert (E1 : run_experiment_async_step i1 l w = Some (goto PFinalize l, w)).
  { unfold run_experiment_async_step. rewrite Hpc, Hpoll. reflexivity. }
  set (moved := relocate_results (existing_files_before l) (experiment_folder l)
                  (move_fails i2) (results w)).
  set (w1 := set_results moved.1 w).
  assert (E2 : ∃ data, run_experiment_async_step i2 (goto PFinalize l) w
                       = Some (goto (PUpdate data ThenDone) (goto PFinalize l), w1) ∧
                       is_terminal data = true).
  { unfold run_experiment_async_step. simpl.
    destruct (exp_state l) as [st|]; eexists; (split; [reflexivity|]);
      [apply final_status_terminal | reflexivity]. }
  destruct E2 as (data & E2 & Hterm).
  assert (Hl1 : lock w1 = false) by exact Hl.
  destruct (commit_last w1 (experiment_id l) data Hl1) as (w2 & E & Hm & Hk & _ & Hr & _).
  assert (E3 : run_experiment_async_step i3 (goto (PUpdate data ThenDone) (goto PFinalize l)) w1
               = Some (goto PDone (goto (PUpdate data ThenDone) (goto PFinalize l)), w2)).
  { unfold run_experiment_async_step. simpl at_pc. cbv iota. rewrite Hl1.
    simpl experiment_id. rewrite E. reflexivity. }
  eexists. split.
  { unfold run, step. simpl worker. simpl sys. rewrite E1. simpl worker. simpl sys.
    rewrite E2. simpl worker. simpl sys. rewrite E3. reflexivity. }
  simpl. split; [reflexivity|]. unfold stored_terminal. simpl.
  rewrite Hm, lookup_insert_eq. split; [exact Hterm|]. split; [exact Hk | exact Hr].
Qed.
End InterleavingsMore.

(** ** The pid in the record of a run *)

Section PidInvariant.
Context {doc : Type} `{!Json doc}.
Implicit Types w : world doc.
Implicit Types l : wlocal.
Implicit Types c : config doc.
Implicit Types e : event doc.

Lemma pid_same c c' :
  at_pc (worker c') = at_pc (worker c) →
  process (worker c') = process (worker c) →
  experiment_id (worker c') = experiment_id (worker c) →
  mem (sys c') = mem (sys c) →
  pid_sound c → pid_recorded c → pid_sound c' ∧ pid_recorded c'.
Proof.
  unfold pid_sound, pid_recorded, not_started. intros Hpc Hp Hid Hm Hs Hr.
  rewrite Hpc, Hp, Hid, Hm. split; assumption.
Qed.

Lemma error_record_terminal x l t :
  is_terminal (error_record x l t) = true ∧
  field_is (error_record x l t) "status" "running" = false ∧
  error_record x l t !! "process_pid" = Some VNone.
Proof. repeat split; reflexivity. Qed.

Lemma run_experiment_async_step_pid i l w l' w' :
  run_experiment_async_step i l w = Some (l', w') →
  pid_sound (Config l w) → pid_recorded (Config l w) →
  pid_sound (Config l' w') ∧ pid_recorded (Config l' w').
Proof.
  intros Hstep Hs Hr.
  assert (Hkeep : ∀ p, mem w' = mem w → process l' = process l →
            experiment_id l' = experiment_id l →
            at_pc l' = p →
            match p with
            | PUpdate data ThenDone =>
                is_terminal data = true ∧ field_is data "status" "running" = false ∧
                data !! "process_pid" = Some VNone
            | PUpdate data _ =>
                field_is data "status" "running" = true ∧ is_terminal data = false ∧
                data !! "process_pid" = Some (VInt (process l))
            | PInit | PSpawn => not_started (Config l w)
            | _ => True
            end →
            pid_sound (Config l' w') ∧ pid_recorded (Config l' w')).
  { intros p Hm Hp Hid Hpc Hgoal. unfold pid_sound, pid_recorded, not_started in *.
    simpl in *. rewrite Hpc, Hp, Hid, Hm. split; [exact Hgoal | exact Hr]. }
  unfold run_experiment_async_step in Hstep.
  destruct (at_pc l) as [| | | | | |data k| |x] eqn:Hpc; try discriminate.
  - (* PInit *)
    unfold pid_sound in Hs. simpl in Hs. rewrite Hpc in Hs.
    unfold mkdir_exist_ok in Hstep.
    destruct (results w !! _) as [[d|fs]|]; injection Hstep as <- <-.
    + eapply Hkeep; try reflexivity; try exact I.
    + eapply Hkeep; try reflexivity; try exact Hs.
    + eapply Hkeep; try reflexivity; try exact Hs.
  - (* PSpawn *)
    unfold pid_sound in Hs. simpl in Hs. rewrite Hpc in Hs.
    destruct (quiet_start_engine (template_path l) (mode l) i w) as (Hm & _ & _).
    destruct (spawn i) as [pid|].
    + destruct (bool_decide _); [discriminate|].
      apply on_outcome_spec in Hstep as [-> [(a & Ho & ->)|(x & Ho & ->)]].
      * unfold pid_sound, pid_recorded. simpl.
        split; [repeat split; reflexivity|].
        rewrite Hm. intros r Hlook. destruct (Hs r Hlook) as [H1 H2].
        split; intros; congruence.
      * eapply Hkeep; try reflexivity; try exact Hm; apply error_record_terminal.
    + apply on_outcome_spec in Hstep as [-> [(a & Ho & ->)|(x & Ho & ->)]].
      * apply (Hkeep PSpawn Hm eq_refl eq_refl Hpc Hs).
      * eapply Hkeep; try reflexivity; try exact Hm; apply error_record_terminal.
  - (* PPoll *)
    destruct (poll w (process l)); injection Hstep as <- <-;
      (eapply Hkeep; try reflexivity; try exact I).
  - (* PCheck *)
    destruct (lock w) eqn:Hl; [discriminate|].
    destruct (check_stop_free w (experiment_id l) (process l) Hl)
      as (next & w1 & E & Hnext & Hm & _).
    rewrite E in Hstep. simpl in Hstep. injection Hstep as <- <-.
    eapply Hkeep; try reflexivity; try exact Hm.
    simpl. destruct Hnext as [-> | ->]; exact I.
  - (* PTick *)
    injection Hstep as <- <-. eapply Hkeep; try reflexivity.
    simpl. repeat split; reflexivity.
  - (* PFinalize *)
    destruct (exp_state l) as [st|]; injection Hstep as <- <-;
      (eapply Hkeep; try reflexivity); simpl;
      [apply final_status_terminal | apply error_record_terminal].
  - (* PUpdate *)
    unfold pid_sound in Hs. simpl in Hs. rewrite Hpc in Hs.
    destruct (lock w) eqn:Hl; [discriminate|].
    destruct (commit_free w (experiment_id l) data k Hl) as (w1 & E & Hm & _).
    rewrite E in Hstep. simpl in Hstep. injection Hstep as <- <-.
    unfold pid_sound, pid_recorded. simpl.
    split; [destruct k; exact I|].
    rewrite Hm, lookup_insert_eq. intros r [= <-].
    destruct k; destruct Hs as (H1 & H2 & H3); split; intros; congruence.
Qed.

Lemma step_pid e c c' :
  step e c = Some c' →
  pid_sound c → pid_recorded c →
  pid_sound c' ∧ pid_recorded c' ∧ experiment_id (worker c') = experiment_id (worker c).
Proof.
  intros Hstep Hs Hr.
  destruct (step_spec e c c' Hstep) as (Hid & _).
  assert (H : pid_sound c' ∧ pid_recorded c');
    [|destruct H as [H1 H2]; split; [exact H1|]; split; [exact H2 | exact Hid]].
  clear Hid. destruct c as [l w]. unfold step in Hstep. simpl in *.
  destruct e as [i|id|code|name data|err line|dt|r wm].
  - destruct (run_experiment_async_step i l w) as [[l' w']|] eqn:E; [|discriminate].
    injection Hstep as <-. apply (run_experiment_async_step_pid i l w l' w' E Hs Hr).
  - destruct (lock w) eqn:Hl; [discriminate|]. injection Hstep as <-.
    apply (pid_same (Config l w)); try reflexivity; try assumption.
    apply stop_experiment_mem. exact Hl.
  - destruct (procs w !! process l) as [p|]; [|discriminate].
    destruct (alive p); [|discriminate]. injection Hstep as <-.
    apply (pid_same (Config l w)); try reflexivity; assumption.
  - destruct (results w !! name) as [[d|fs]|]; try discriminate;
      injection Hstep as <-;
      apply (pid_same (Config l w)); try reflexivity; assumption.
  - injection Hstep as <-.
    apply (pid_same (Config l w)); try reflexivity; assumption.
  - destruct (0 <=? dt)%Z; [|discriminate]. injection Hstep as <-.
    apply (pid_same (Config l w)); try reflexivity; assumption.
  - injection Hstep as <-.
    apply (pid_same (Config l w)); try reflexivity; assumption.
Qed.

Lemma run_pid es c c' :
  run es c = Some c' →
  pid_sound c → pid_recorded c →
  pid_sound c' ∧ pid_recorded c' ∧ experiment_id (worker c') = experiment_id (worker c).
Proof.
  revert c. induction es as [|e es IH]; intros c Hrun Hs Hr; simpl in Hrun.
  - injection Hrun as <-. split; [exact Hs|]. split; [exact Hr | reflexivity].
  - destruct (step e c) as [c1|] eqn:E; [|discriminate].
    destruct (step_pid e c c1 E Hs Hr) as (Hs1 & Hr1 & Hid1).
    destruct (IH c1 Hrun Hs1 Hr1) as (Hs' & Hr' & Hid').
    split; [exact Hs'|]. split; [exact Hr' | congruence].
Qed.

(** X17. Take a worker at its start, for a run of which the store holds
    no record that says running or is terminal, and any sequence of steps
    of the worker, stop requests and acts of the environment. Whenever
    the record of the run says running, the worker has spawned its engine
    and the record carries the pid of that process; whenever the record
    is terminal, it carries no pid. *)
Theorem running_record_carries_pid (c0 c : config doc) (es : list (event doc)) (r : record) :
  at_pc (worker c0) = PInit →
  not_started c0 →
  run es c0 = Some c →
  mem (sys c) !! experiment_id (worker c0) = Some r →
  (field_is r "status" "running" = true →
   r !! "process_pid" = Some (VInt (process (worker c))) ∧
   at_pc (worker c) ≠ PInit ∧ at_pc (worker c) ≠ PSpawn) ∧
  (is_terminal r = true → r !! "process_pid" = Some VNone).
Proof.
  intros Hpc Hns Hrun Hm.
  assert (Hs0 : pid_sound c0) by (unfold pid_sound; rewrite Hpc; exact Hns).
  assert (Hr0 : pid_recorded c0).
  { intros r0 Hr0. destruct (Hns r0 Hr0) as [H1 H2]. split; intros; congruence. }
  destruct (run_pid es c0 c Hrun Hs0 Hr0) as (Hs & Hr & Hid).
  rewrite <- Hid in Hm. destruct (Hr r Hm) as [H1 H2].
  split; [|exact H2]. intros Hrunning. split; [exact (H1 Hrunning)|].
  unfold pid_sound in Hs.
  split; intros E; rewrite E in Hs; destruct (Hs r Hm); congruence.
Qed.
End PidInvariant.

(** ** The write of the run button *)

Section RunButtonFacts.
Context {doc : Type} `{!Json doc}.
Implicit Types w : world doc.
Implicit Types c : config doc.

(** X18. The handler of the run button starts the worker thread and
    then stores a record that says starting. The write replaces whatever
    the worker has stored in the meantime; and when the worker has already
    ended by then (the engine could not be started, say), nothing writes
    the record of the run again: it says starting for ever. *)
Theorem run_button_overwrites (selected_template_name selected_template_path mode stamp : string)
    w (es1 : list (event doc)) c1 :
  let experiment_id := new_experiment_id selected_template_name stamp in
  run es1 (start_thread selected_template_path mode experiment_id w) = Some c1 →
  lock (sys c1) = false →
  ∃ w2, run_button_update selected_template_path experiment_id (sys c1) = Done () w2 ∧
        mem w2 !! experiment_id =
          Some (starting_record selected_template_path (now (sys c1))) ∧
        (at_pc (worker c1) = PDone ∨ (∃ x, at_pc (worker c1) = PCrashed x) →
         ∀ es2 c2, run es2 (Config (worker c1) w2) = Some c2 →
                   stored_status c2 experiment_id = Some (VStr "starting") ∧
                   stored_terminal c2 experiment_id = false).
Proof.
  intros id _ Hl. unfold run_button_update. rewrite bind_get_world.
  destruct (update_experiment_state_free (sys c1) id
              (starting_record selected_template_path (now (sys c1))) Hl)
    as (w2 & E & Hm & _).
  exists w2. split; [exact E|]. split; [rewrite Hm; apply lookup_insert_eq|].
  intros Hend es2 c2 Hrun.
  destruct (run_ended es2 _ c2 Hrun Hend) as [_ Hm2]. simpl in Hm2.
  unfold stored_status, stored_terminal. rewrite Hm2, Hm, lookup_insert_eq.
  split; reflexivity.
Qed.
End RunButtonFacts.

(** ** The command-line runner *)

Section CliFacts.
Context {doc : Type} `{!Json doc}.
Implicit Types w : world doc.

Lemma run_experiment_via_cli_spec excel_file_path mode (i : winput) (code : option Z) w :
  ∃ b w', run_experiment_via_cli excel_file_path mode i code w = Done b w' ∧
          mem w' = mem w ∧ lock w' = lock w ∧
          match spawn i with
          | None => b = false ∧ w' = w
          | Some pid =>
              if pipe_ok i then
                b = match code with
                    | Some rc => (rc =? 0)%Z
                    | None => false
                    end ∧
                effects w' = effects w ++ start_protocol pid excel_file_path mode ++
                             match code with
                             | Some _ => []
                             | None => [Signal pid SIGKILL]
                             end ∧
                is_running w' pid = false
              else
                b = false ∧
                effects w' = effects w ++ [Spawn pid (engine_argv excel_file_path)] ∧
                is_running w' pid = true
          end.
Proof.
  unfold run_experiment_via_cli.
  destruct (spawn i) as [pid|] eqn:Hs.
  2:{ unfold start_engine, Popen. rewrite Hs. unfold_m.
      exists false, w. repeat split; reflexivity. }
  destruct (pipe_ok i) eqn:Hp.
  2:{ unfold start_engine, Popen, stdin_write. rewrite Hs, Hp. unfold_m.
      eexists false, _. split; [reflexivity|]. simpl.
      split; [reflexivity|]. split; [reflexivity|]. split; [reflexivity|].
      split; [reflexivity|]. unfold is_running. simpl. rewrite lookup_insert_eq. reflexivity. }
  destruct (start_engine_ok w excel_file_path mode i pid Hs Hp)
    as (w1 & -> & He & Hprocs & Hm & Hk & _).
  unfold process_wait, poll. unfold_m. rewrite Hprocs, lookup_insert_eq. simpl.
  destruct code as [rc|]; simpl.
  - eexists _, _. split; [reflexivity|]. simpl.
    split; [exact Hm|]. split; [exact Hk|]. split; [reflexivity|].
    split; [rewrite He; reflexivity|].
    unfold is_running. simpl. rewrite Hprocs.
    rewrite lookup_alter_eq, lookup_insert_eq. reflexivity.
  - unfold popen_signal, wait_exit, is_running, sleep, send_signal. unfold_m. simpl.
    repeat (rewrite ?Hprocs, ?lookup_insert_eq; simpl).
    eexists _, _. split; [reflexivity|]. simpl.
    split; [exact Hm|]. split; [exact Hk|]. split; [reflexivity|].
    split; [rewrite He, <- app_assoc; reflexivity|].
    rewrite lookup_insert_eq. reflexivity.
Qed.

(** X19. [run_experiment_via_cli] always returns, and leaves the store
    alone. It returns True exactly when the engine could be spawned, the
    mode could be written to it, and it exited with code 0 within the
    hour. When the hour passes, the engine is killed; when the write of
    the mode fails, the engine that was spawned is left running. *)
Theorem run_experiment_via_cli_result excel_file_path mode (i : winput) (code : option Z) w :
  ∃ b w', run_experiment_via_cli excel_file_path mode i code w = Done b w' ∧
          mem w' = mem w ∧
          (b = true ↔ (∃ pid, spawn i = Some pid) ∧ pipe_ok i = true ∧ code = Some 0%Z) ∧
          (∀ pid, spawn i = Some pid → pipe_ok i = true → code = None →
                  is_running w' pid = false ∧
                  effects w' = effects w ++ start_protocol pid excel_file_path mode
                                         ++ [Signal pid SIGKILL]) ∧
          (∀ pid, spawn i = Some pid → pipe_ok i = false → is_running w' pid = true).
Proof.
  destruct (run_experiment_via_cli_spec excel_file_path mode i code w)
    as (b & w' & E & Hm & _ & Hcase).
  exists b, w'. split; [exact E|]. split; [exact Hm|].
  destruct (spawn i) as [pid|].
  2:{ destruct Hcase as [-> ->]. split; [|split; intros; discriminate].
      split; [discriminate | intros [[pid ?] _]; discriminate]. }
  destruct (pipe_ok i).
  2:{ destruct Hcase as (-> & _ & Hr). split; [|split].
      - split; [discriminate | intros (_ & ? & _); discriminate].
      - intros; discriminate.
      - intros pid' [= <-] _. exact Hr. }
  destruct Hcase as (-> & He & Hr). split; [|split].
  - destruct code as [rc|].
    + split.
      * intros Hz. apply Z.eqb_eq in Hz. subst.
        split; [eexists; reflexivity|]. split; reflexivity.
      * intros (_ & _ & [= ->]). reflexivity.
    + split; [discriminate | intros (_ & _ & ?); discriminate].
  - intros pid' [= <-] _ ->. split; [exact Hr | exact He].
  - intros; discriminate.
Qed.

Lemma run_experiment_eq excel_file_path mode (HAS_PACKAGE : bool) (i : winput)
    (code : option Z) w :
  run_experiment excel_file_path mode HAS_PACKAGE true i code w =
    run_experiment_via_cli excel_file_path mode i code w.
Proof.
  unfold run_experiment. simpl. destruct HAS_PACKAGE; [|reflexivity].
  unfold try_except.
  destruct (run_experiment_via_cli_spec excel_file_path mode i code w) as (b & w' & -> & _).
  reflexivity.
Qed.

Lemma list_remove_absent (x : string) (l : list string) :
  mem_str x l = false → list_remove x l = None.
Proof.
  unfold mem_str. induction l as [|y l IH]; [reflexivity|]. simpl.
  rewrite (String.eqb_sym x y). destruct (String.eqb y x); [discriminate|].
  simpl. intros Hl. rewrite (IH Hl). reflexivity.
Qed.

(** X20. [main] takes [-v] for [--verbose] when it looks for the flag,
    but then removes [--verbose] from the arguments: called with [-v]
    and without [--verbose], it ends with a ValueError before anything
    else is done, whatever the other arguments. *)
Theorem main_short_flag_raises (argv : list string) (HAS_PACKAGE file_exists : bool)
    (i : winput) (code : option Z) w :
  mem_str "-v" argv = true →
  mem_str "--verbose" argv = false →
  main argv HAS_PACKAGE file_exists i code w = Raised ValueError w.
Proof.
  intros Hv Hverbose. unfold main. rewrite Hv, Hverbose. simpl orb. cbv iota.
  rewrite (list_remove_absent _ _ Hverbose). reflexivity.
Qed.

Lemma mem_str_lookup (x a : string) (l : list string) (k : nat) :
  mem_str x l = false → l !! k = Some a → a ≠ x.
Proof.
  unfold mem_str. intros Hl Hk ->.
  assert (Hin : existsb (String.eqb x) l = true).
  { apply existsb_exists. exists x. split; [|apply String.eqb_refl].
    apply list_elem_of_In. eapply list_elem_of_lookup_2. exact Hk. }
  congruence.
Qed.

Lemma cli_mode_spec (argv : list string) :
  mem_str "--verbose" argv = false → mem_str "-v" argv = false →
  (cli_mode argv = "test" ∨ cli_mode argv = "full") ∧
  (cli_mode argv = "full" ↔ ∃ a, argv !! 2 = Some a ∧ lower a = "full").
Proof.
  intros H1 H2. unfold cli_mode.
  destruct (argv !! 2) as [a|] eqn:Ea.
  2:{ simpl. split; [left; reflexivity|].
      split; [discriminate | intros (a & ? & _); discriminate]. }
  assert (Hflag : mem_str a ["--verbose"; "-v"] = false).
  { unfold mem_str. simpl.
    rewrite (proj2 (String.eqb_neq _ _) (mem_str_lookup _ _ _ _ H1 Ea)).
    rewrite (proj2 (String.eqb_neq _ _) (mem_str_lookup _ _ _ _ H2 Ea)). reflexivity. }
  rewrite Hflag. change (negb false) with true. cbv iota. unfold mem_str. simpl existsb.
  destruct (String.eqb (lower a) "test") eqn:Et.
  { apply String.eqb_eq in Et. simpl. rewrite Et. split; [left; reflexivity|].
    split; [discriminate | intros (a' & [= <-] & Hf); congruence]. }
  destruct (String.eqb (lower a) "full") eqn:Ef.
  { apply String.eqb_eq in Ef. simpl. rewrite Ef. split; [right; reflexivity|].
    split; [intros _; exists a; split; [reflexivity | exact Ef] | reflexivity]. }
  simpl. split; [left; reflexivity|].
  split; [discriminate|]. intros (a' & [= <-] & Hf).
  rewrite Hf in Ef. discriminate.
Qed.

(** X21. [main] without a verbosity flag and with at least the name of
    a template: the exit status is 0 or 1, and it is 0 exactly when the
    file exists, the engine could be started and fed the mode, and it
    exited with code 0. When the file does not exist nothing is done.
    The engine is started on the second word of the command line, and
    the mode written to it is [test] or [full]: [full] only when the
    third word is [full] in some mix of upper and lower case, [test]
    otherwise, whatever else the third word says. *)
Theorem main_exit_status (argv : list string) (HAS_PACKAGE file_exists : bool)
    (i : winput) (code : option Z) w :
  mem_str "--verbose" argv = false →
  mem_str "-v" argv = false →
  2 ≤ length argv →
  ∃ status w' mode,
    main argv HAS_PACKAGE file_exists i code w = Done status w' ∧
    (status = 0%Z ∨ status = 1%Z) ∧
    (status = 0%Z ↔ file_exists = true ∧ (∃ pid, spawn i = Some pid) ∧
                    pipe_ok i = true ∧ code = Some 0%Z) ∧
    (file_exists = false → w' = w) ∧
    (mode = "test" ∨ mode = "full") ∧
    (mode = "full" ↔ ∃ a, argv !! 2 = Some a ∧ lower a = "full") ∧
    (∀ pid, file_exists = true → spawn i = Some pid → pipe_ok i = true →
            ∃ signals, effects w' = effects w ++
                         start_protocol pid (default "" (argv !! 1)) mode ++ signals ∧
                       Forall is_signal signals).
Proof.
  intros H1 H2 Hlen. unfold main. rewrite H1, H2. simpl orb. cbv iota.
  unfold mbind at 1. unfold M_bind at 1. unfold mret at 1. unfold M_ret at 1.
  destruct (length argv <? 2) eqn:El; [apply Nat.ltb_lt in El; lia|].
  destruct (cli_mode_spec argv H1 H2) as [Hmode Hfull].
  destruct file_exists.
  2:{ exists 1%Z, w, (cli_mode argv). split; [reflexivity|].
      split; [right; reflexivity|].
      split; [split; [discriminate | intros (? & _); discriminate]|].
      split; [reflexivity|]. split; [exact Hmode|]. split; [exact Hfull|].
      intros; discriminate. }
  rewrite bind_eq, run_experiment_eq.
  destruct (run_experiment_via_cli_spec (default "" (argv !! 1)) (cli_mode argv) i code w)
    as (b & w' & -> & _ & _ & Hcase).
  exists (if b then 0%Z else 1%Z), w', (cli_mode argv). split; [reflexivity|].
  split; [destruct b; [left | right]; reflexivity|].
  split; [|split; [discriminate|]; split; [exact Hmode|]; split; [exact Hfull|]].
  - destruct (spawn i) as [pid|].
    2:{ destruct Hcase as [-> _].
        split; [discriminate | intros (_ & [pid ?] & _); discriminate]. }
    destruct (pipe_ok i).
    2:{ destruct Hcase as (-> & _).
        split; [discriminate | intros (_ & _ & ? & _); discriminate]. }
    destruct Hcase as (-> & _). destruct code as [rc|].
    + destruct (rc =? 0)%Z eqn:Ez.
      * apply Z.eqb_eq in Ez. subst. split; [|reflexivity]. intros _.
        split; [reflexivity|]. split; [eexists; reflexivity|]. split; reflexivity.
      * split; [discriminate|]. intros (_ & _ & _ & [= ->]). discriminate.
    + split; [discriminate | intros (_ & _ & _ & ?); discriminate].
  - intros pid _ Hs Hp. rewrite Hs, Hp in Hcase. destruct Hcase as (_ & He & _).
    eexists. split; [exact He|]. destruct code; repeat constructor.
Qed.
End CliFacts.

(** ** The properties at work *)

(** X11 on an empty machine without the engine. *)
Lemma spawn_failure_recorded_witness :
  at_pc (worker (Config l_spawn w_empty)) = PSpawn ∧
  spawn i_no_engine = None ∧
  lock (sys (Config l_spawn w_empty)) = false ∧
  ∃ c', run [Work i_no_engine; Work i_ok] (Config l_spawn w_empty) = Some c' ∧
        at_pc (worker c') = PDone ∧
        mem (sys c') !! experiment_id l_spawn =
          Some (error_record FileNotFoundError l_spawn (now w_empty)) ∧
        stored_status c' (experiment_id l_spawn) = Some (VStr "error") ∧
        procs (sys c') = procs w_empty ∧
        effects (sys c') = effects w_empty.
Proof.
  split; [reflexivity|]. split; [reflexivity|]. split; [reflexivity|].
  apply (spawn_failure_recorded (Config l_spawn w_empty) i_no_engine i_ok); reflexivity.
Defined.

(** X12 on an empty machine, with an engine that closes its standard
    input at once. *)
Lemma broken_pipe_orphans_engine_witness :
  at_pc (worker (Config l_spawn w_empty)) = PSpawn ∧
  spawn i_broken_pipe = Some 500%Z ∧
  procs w_empty !! 500%Z = None ∧
  pipe_ok i_broken_pipe = false ∧
  lock w_empty = false ∧
  ∃ c', run [Work i_broken_pipe; Work i_ok] (Config l_spawn w_empty) = Some c' ∧
        at_pc (worker c') = PDone ∧
        stored_status c' (experiment_id l_spawn) = Some (VStr "error") ∧
        (mem (sys c') !! experiment_id l_spawn ≫= λ r, r !! "process_pid") = Some VNone ∧
        is_running (sys c') 500 = true ∧
        effects (sys c') =
          effects w_empty ++ [Spawn 500 (engine_argv (template_path l_spawn))] ∧
        stop_experiment (experiment_id l_spawn) (sys c') = Done false (sys c').
Proof.
  split; [reflexivity|]. split; [reflexivity|]. split; [reflexivity|].
  split; [reflexivity|]. split; [reflexivity|].
  apply (broken_pipe_orphans_engine (Config l_spawn w_empty) i_broken_pipe i_ok 500);
    reflexivity.
Defined.

Lemma signalable_stop_seen : signalable w_stop_seen 4242.
Proof. intros p Hp. vm_compute in Hp. injection Hp as <-. reflexivity. Qed.

(** X13 on a machine where the record of the run says stopped while
    its engine is alive. *)
Lemma observed_stop_terminates_witness :
  at_pc l_loop = PCheck ∧
  lock w_stop_seen = false ∧
  mem w_stop_seen !! experiment_id l_loop = Some rec_stopped ∧
  field_is rec_stopped "status" "stopped" = true ∧
  signalable w_stop_seen (process l_loop) ∧
  ∃ l1 w1, run_experiment_async_step i_ok l_loop w_stop_seen = Some (l1, w1) ∧
           at_pc l1 = PFinalize ∧
           is_running w1 (process l_loop) = false ∧
           mem w1 = mem w_stop_seen ∧
           ∀ i', ∃ l2 w2 data,
             run_experiment_async_step i' l1 w1 = Some (l2, w2) ∧
             at_pc l2 = PUpdate data ThenDone ∧
             data !! "status" = Some (VStr "stopped").
Proof.
  split; [reflexivity|]. split; [reflexivity|]. split; [reflexivity|].
  split; [reflexivity|]. split; [exact signalable_stop_seen|].
  apply (observed_stop_terminates i_ok l_loop w_stop_seen rec_stopped);
    try reflexivity. exact signalable_stop_seen.
Defined.

(** X14 for a run whose folder name is taken by a regular file, followed
    by a stop request. *)
Lemma folder_name_taken_crashes_witness :
  at_pc (worker c_taken) = PInit ∧
  results (sys c_taken) !! (stem (template_path (worker c_taken)) +:+ "_" +:+ stamp i_ok)
    = Some (File "x") ∧
  run run_taken c_taken = Some (default c_taken (run run_taken c_taken)) ∧
  at_pc (worker (default c_taken (run run_taken c_taken))) = PCrashed FileExistsError ∧
  mem (sys (default c_taken (run run_taken c_taken))) = mem (sys c_taken) ∧
  ∀ i', step (Work i') (default c_taken (run run_taken c_taken)) = None.
Proof.
  split; [reflexivity|]. split; [vm_compute; reflexivity|].
  split; [vm_compute; reflexivity|].
  apply (folder_name_taken_crashes c_taken i_ok "x"
           [StopRequest "t.xlsx_20240101_120000"; ClockAdvances 1]);
    vm_compute; reflexivity.
Defined.

(** X16 for an engine that has exited with code 3. *)
Lemma worker_finishes_after_exit_witness :
  at_pc (worker (Config l_poll w_exited)) = PPoll ∧
  poll w_exited (process l_poll) = Some 3%Z ∧
  lock w_exited = false ∧
  ∃ c', run [Work i_ok; Work i_ok; Work i_ok] (Config l_poll w_exited) = Some c' ∧
        at_pc (worker c') = PDone ∧
        stored_terminal c' (experiment_id l_poll) = true ∧
        lock (sys c') = false ∧
        results (sys c') =
          (relocate_results (existing_files_before l_poll) (experiment_folder l_poll)
             (move_fails i_ok) (results w_exited)).1.
Proof.
  split; [reflexivity|]. split; [reflexivity|]. split; [reflexivity|].
  apply (worker_finishes_after_exit (Config l_poll w_exited) 3 i_ok i_ok i_ok);
    reflexivity.
Defined.

Lemma lookup_via_value (m : store) (experiment_id : string) (r : record) :
  VDict <$> (m !! experiment_id) = Some (VDict r) → m !! experiment_id = Some r.
Proof. destruct (m !! experiment_id); simpl; intros [= ->]; reflexivity. Qed.

Lemma not_started_c_start : not_started c_start.
Proof. intros r Hr. simpl in Hr. rewrite lookup_empty in Hr. discriminate. Qed.

(** X17 after the start of a run, when the first record is stored. *)
Lemma running_record_carries_pid_witness :
  at_pc (worker c_start) = PInit ∧
  not_started c_start ∧
  run run_start c_start = Some (at_end run_start) ∧
  mem (sys (at_end run_start)) !! experiment_id (worker c_start)
    = Some (first_record l_spawn 500) ∧
  (field_is (first_record l_spawn 500) "status" "running" = true →
   first_record l_spawn 500 !! "process_pid"
     = Some (VInt (process (worker (at_end run_start)))) ∧
   at_pc (worker (at_end run_start)) ≠ PInit ∧
   at_pc (worker (at_end run_start)) ≠ PSpawn) ∧
  (is_terminal (first_record l_spawn 500) = true →
   first_record l_spawn 500 !! "process_pid" = Some VNone).
Proof.
  split; [reflexivity|]. split; [exact not_started_c_start|].
  split; [vm_compute; reflexivity|].
  split; [apply lookup_via_value; vm_compute; reflexivity|].
  apply (running_record_carries_pid c_start (at_end run_start) run_start
           (first_record l_spawn 500));
    [reflexivity | exact not_started_c_start | vm_compute; reflexivity
    | apply lookup_via_value; vm_compute; reflexivity].
Defined.

(** X18 when the engine is missing and the worker has recorded the
    error before the handler of the button goes on. *)
Lemma run_button_overwrites_witness :
  run run_no_engine
    (start_thread "experiments_templates/t.xlsx" "test"
       (new_experiment_id "t.xlsx" "20240101_120000") w_empty)
    = Some (at_end run_no_engine) ∧
  lock (sys (at_end run_no_engine)) = false ∧
  stored_terminal (at_end run_no_engine) "t.xlsx_20240101_120000" = true ∧
  ∃ w2, run_button_update "experiments_templates/t.xlsx"
          (new_experiment_id "t.xlsx" "20240101_120000") (sys (at_end run_no_engine))
        = Done () w2 ∧
        mem w2 !! new_experiment_id "t.xlsx" "20240101_120000" =
          Some (starting_record "experiments_templates/t.xlsx"
                  (now (sys (at_end run_no_engine)))) ∧
        (at_pc (worker (at_end run_no_engine)) = PDone ∨
         (∃ x, at_pc (worker (at_end run_no_engine)) = PCrashed x) →
         ∀ es2 c2, run es2 (Config (worker (at_end run_no_engine)) w2) = Some c2 →
                   stored_status c2 (new_experiment_id "t.xlsx" "20240101_120000")
                     = Some (VStr "starting") ∧
                   stored_terminal c2 (new_experiment_id "t.xlsx" "20240101_120000")
                     = false).
Proof.
  split; [vm_compute; reflexivity|]. split; [vm_compute; reflexivity|].
  split; [vm_compute; reflexivity|].
  apply (run_button_overwrites "t.xlsx" "experiments_templates/t.xlsx" "test"
           "20240101_120000" w_empty run_no_engine (at_end run_no_engine));
    vm_compute; reflexivity.
Defined.

(** C2 fails when the engine cannot be started. The handler of the run
    button starts the worker thread and writes the record that says
    starting afterwards. Here the worker has ended before that write: the
    store holds the terminal status error for the run, the write of the
    handler is the next write to the store and gives the run the status
    starting, and nothing that happens later changes it. *)
Lemma starting_replaces_terminal :
  run run_no_engine
    (start_thread "experiments_templates/t.xlsx" "test"
       (new_experiment_id "t.xlsx" "20240101_120000") w_empty)
    = Some (at_end run_no_engine) ∧
  at_pc (worker (at_end run_no_engine)) = PDone ∧
  stored_status (at_end run_no_engine) "t.xlsx_20240101_120000" = Some (VStr "error") ∧
  stored_terminal (at_end run_no_engine) "t.xlsx_20240101_120000" = true ∧
  ∃ w2, run_button_update "experiments_templates/t.xlsx"
          (new_experiment_id "t.xlsx" "20240101_120000") (sys (at_end run_no_engine))
        = Done () w2 ∧
        stored_status (Config (worker (at_end run_no_engine)) w2) "t.xlsx_20240101_120000"
          = Some (VStr "starting") ∧
        stored_terminal (Config (worker (at_end run_no_engine)) w2) "t.xlsx_20240101_120000"
          = false ∧
        ∀ es c3, run es (Config (worker (at_end run_no_engine)) w2) = Some c3 →
                 stored_status c3 "t.xlsx_20240101_120000" = Some (VStr "starting") ∧
                 stored_terminal c3 "t.xlsx_20240101_120000" = false.
Proof.
  split; [vm_compute; reflexivity|]. split; [vm_compute; reflexivity|].
  split; [vm_compute; reflexivity|]. split; [vm_compute; reflexivity|].
  assert (Hl : lock (sys (at_end run_no_engine)) = false) by (vm_compute; reflexivity).
  unfold run_button_update. rewrite bind_get_world.
  destruct (update_experiment_state_free (sys (at_end run_no_engine))
              (new_experiment_id "t.xlsx" "20240101_120000")
              (starting_record "experiments_templates/t.xlsx"
                 (now (sys (at_end run_no_engine)))) Hl)
    as (w2 & E & Hm & _).
  exists w2. split; [exact E|].
  assert (Hst : ∀ c : config plain_doc,
            mem (sys c) = mem w2 →
            stored_status c "t.xlsx_20240101_120000" = Some (VStr "starting") ∧
            stored_terminal c "t.xlsx_20240101_120000" = false).
  { intros c Hc. unfold stored_status, stored_terminal. rewrite Hc, Hm.
    change (new_experiment_id "t.xlsx" "20240101_120000") with "t.xlsx_20240101_120000".
    rewrite lookup_insert_eq. split; reflexivity. }
  split; [apply Hst; reflexivity|]. split; [apply Hst; reflexivity|].
  intros es c3 Hrun.
  destruct (run_ended es _ c3 Hrun) as [_ Hm3];
    [left; vm_compute; reflexivity|].
  apply Hst. exact Hm3.
Qed.

(** X20 on the command line [run_experiment.py t.xlsx -v]. *)
Lemma main_short_flag_raises_witness :
  mem_str "-v" argv_short_flag = true ∧
  mem_str "--verbose" argv_short_flag = false ∧
  main argv_short_flag false true i_ok (Some 0%Z) w_empty = Raised ValueError w_empty.
Proof.
  split; [reflexivity|]. split; [reflexivity|].
  apply (main_short_flag_raises argv_short_flag false true i_ok (Some 0%Z) w_empty);
    reflexivity.
Defined.

(** X21 on the command line [run_experiment.py t.xlsx FULL]. *)
Lemma main_exit_status_witness :
  mem_str "--verbose" argv_full = false ∧
  mem_str "-v" argv_full = false ∧
  2 ≤ length argv_full ∧
  ∃ status w' mode,
    main argv_full false true i_ok (Some 0%Z) w_empty = Done status w' ∧
    (status = 0%Z ∨ status = 1%Z) ∧
    (status = 0%Z ↔ true = true ∧ (∃ pid, spawn i_ok = Some pid) ∧
                    pipe_ok i_ok = true ∧ Some 0%Z = Some 0%Z) ∧
    (true = false → w' = w_empty) ∧
    (mode = "test" ∨ mode = "full") ∧
    (mode = "full" ↔ ∃ a, argv_full !! 2 = Some a ∧ lower a = "full") ∧
    (∀ pid, true = true → spawn i_ok = Some pid → pipe_ok i_ok = true →
            ∃ signals, effects w' = effects w_empty ++
                         start_protocol pid (default "" (argv_full !! 1)) mode ++ signals ∧
                       Forall is_signal signals).
Proof.
  split; [reflexivity|]. split; [reflexivity|]. split; [simpl; lia|].
  apply (main_exit_status argv_full false true i_ok (Some 0%Z) w_empty);
    [reflexivity | reflexivity | simpl; lia].
Defined.
